(** * MetaGPT, [metagpt/actions/design_api.py]: the [WriteDesign] action

    A shallow embedding of the system-design step.  Python [str] values are
    Rocq strings (code points below 256), Python dicts are insertion-ordered
    association lists, [async] methods are computations in a state-and-
    exception monad over the workspace, and the collaborators that live
    outside the module (language model, renderers, path arithmetic, prompt
    text) are the fields of one interface class. *)

From Stdlib Require Import Ascii String.
From stdpp Require Import base option list strings gmap.

Set Warnings "-register-all".

Open Scope string_scope.
Open Scope nat_scope.
Open Scope list_scope.

(** ** Python [str] helpers *)

Definition dquote : ascii := ascii_of_nat 34.
Definition squote : ascii := ascii_of_nat 39.
Definition backslash : ascii := ascii_of_nat 92.

(** [str.isspace] on code points below 256: TAB..CR, FS..US, SPACE, NEL and
    NBSP. *)
Definition isspace (c : ascii) : bool :=
  let n := nat_of_ascii c in
  ((9 <=? n) && (n <=? 13)) || ((28 <=? n) && (n <=? 32))
  || (n =? 133) || (n =? 160).

Fixpoint lstrip (p : ascii -> bool) (s : string) : string :=
  match s with
  | EmptyString => EmptyString
  | String c s' => if p c then lstrip p s' else s
  end.

Fixpoint rstrip (p : ascii -> bool) (s : string) : string :=
  match s with
  | EmptyString => EmptyString
  | String c s' =>
      match rstrip p s' with
      | EmptyString => if p c then EmptyString else String c EmptyString
      | r => String c r
      end
  end.

(** [s.strip()] and [s.strip(chars)] for a one-character [chars]. *)
Definition strip (s : string) : string := rstrip isspace (lstrip isspace s).
Definition strip_char (c : ascii) (s : string) : string :=
  rstrip (Ascii.eqb c) (lstrip (Ascii.eqb c) s).

Definition first_char (s : string) : option ascii :=
  match s with EmptyString => None | String c _ => Some c end.

Fixpoint last_char (s : string) : option ascii :=
  match s with
  | EmptyString => None
  | String c EmptyString => Some c
  | String _ s' => last_char s'
  end.

(** ** Python dicts: insertion-ordered association lists *)

Definition pydict (V : Type) : Type := list (string * V).

Fixpoint dict_get {V} (d : pydict V) (k : string) : option V :=
  match d with
  | [] => None
  | (k', v) :: d' => if String.eqb k' k then Some v else dict_get d' k
  end.

Definition dict_mem {V} (d : pydict V) (k : string) : bool :=
  match dict_get d k with Some _ => true | None => false end.

(** [d[k] = v]: overwrite in place, or append a new key at the end. *)
Fixpoint dict_set {V} (d : pydict V) (k : string) (v : V) : pydict V :=
  match d with
  | [] => [(k, v)]
  | (k', v') :: d' =>
      if String.eqb k' k then (k', v) :: d' else (k', v') :: dict_set d' k v
  end.

Definition dict_keys {V} (d : pydict V) : list string := d.*1.

Definition dict_of_pairs {V} (l : list (string * V)) : pydict V :=
  fold_left (fun d kv => dict_set d kv.1 kv.2) l [].

(** ** JSON values and Python's [json] text codec

    Only the value kinds that the field schema of this module can produce
    are represented: strings, lists and objects. *)

Inductive json : Type :=
  | JStr (s : string)
  | JArr (l : list json)
  | JObj (l : pydict json).

Definition hexdigit (n : nat) : ascii :=
  if n <? 10 then ascii_of_nat (48 + n) else ascii_of_nat (87 + n).

(** [json.dumps] with [ensure_ascii=True]: the short escapes, everything
    else outside SPACE..TILDE as a lower-case [\u00XX]. *)
Definition escape_char (c : ascii) : string :=
  let n := nat_of_ascii c in
  if Ascii.eqb c dquote then String backslash (String dquote EmptyString)
  else if Ascii.eqb c backslash then String backslash (String backslash EmptyString)
  else if n =? 10 then String backslash "n"
  else if n =? 13 then String backslash "r"
  else if n =? 9 then String backslash "t"
  else if n =? 8 then String backslash "b"
  else if n =? 12 then String backslash "f"
  else if (32 <=? n) && (n <=? 126) then String c EmptyString
  else String backslash
         (String "u" (String "0" (String "0"
            (String (hexdigit (n / 16)) (String (hexdigit (n mod 16)) EmptyString))))).

Fixpoint escape (s : string) : string :=
  match s with
  | EmptyString => EmptyString
  | String c s' => escape_char c +:+ escape s'
  end.

Definition quote (s : string) : string :=
  String dquote (escape s +:+ String dquote EmptyString).

Fixpoint json_dumps (v : json) : string :=
  match v with
  | JStr s => quote s
  | JArr l => "[" +:+ String.concat ", " (map json_dumps l) +:+ "]"
  | JObj l =>
      "{" +:+ String.concat ", "
                (map (fun kv => quote kv.1 +:+ ": " +:+ json_dumps kv.2) l) +:+ "}"
  end.

Definition hexval (c : ascii) : option nat :=
  let n := nat_of_ascii c in
  if (48 <=? n) && (n <=? 57) then Some (n - 48)
  else if (97 <=? n) && (n <=? 102) then Some (n - 87)
  else if (65 <=? n) && (n <=? 70) then Some (n - 55)
  else None.

Definition hex4 (a b c d : ascii) : option nat :=
  match hexval a, hexval b, hexval c, hexval d with
  | Some x, Some y, Some z, Some w => Some (((x * 16 + y) * 16 + z) * 16 + w)
  | _, _, _, _ => None
  end.

Definition unescape (e : ascii) : option ascii :=
  let n := nat_of_ascii e in
  if Ascii.eqb e dquote then Some dquote
  else if Ascii.eqb e backslash then Some backslash
  else if n =? 47 then Some e
  else if n =? 98 then Some (ascii_of_nat 8)
  else if n =? 102 then Some (ascii_of_nat 12)
  else if n =? 110 then Some (ascii_of_nat 10)
  else if n =? 114 then Some (ascii_of_nat 13)
  else if n =? 116 then Some (ascii_of_nat 9)
  else None.

Definition prepend (c : ascii) (r : option (string * string)) : option (string * string) :=
  match r with
  | Some (s, rest) => Some (String c s, rest)
  | None => None
  end.

(** The strict string scanner, started just after the opening quote:
    returns the decoded string and the text after the closing quote.  A
    [\uXXXX] above 255 is outside the modelled code points and is refused. *)
Fixpoint scanstring (s : string) : option (string * string) :=
  match s with
  | EmptyString => None
  | String c s' =>
      if Ascii.eqb c dquote then Some (EmptyString, s')
      else if Ascii.eqb c backslash then
        match s' with
        | EmptyString => None
        | String e s'' =>
            if Ascii.eqb e "u" then
              match s'' with
              | String h1 (String h2 (String h3 (String h4 r))) =>
                  match hex4 h1 h2 h3 h4 with
                  | Some n =>
                      if n <? 256 then prepend (ascii_of_nat n) (scanstring r)
                      else None
                  | None => None
                  end
              | _ => None
              end
            else
              match unescape e with
              | Some c' => prepend c' (scanstring s'')
              | None => None
              end
        end
      else if nat_of_ascii c <? 32 then None
      else prepend c (scanstring s')
  end.

Definition json_ws (c : ascii) : bool :=
  let n := nat_of_ascii c in
  (n =? 32) || (n =? 9) || (n =? 10) || (n =? 13).

Definition skip_ws (s : string) : string := lstrip json_ws s.

(** [expect c s]: the text after [c] when [s] starts with [c]. *)
Definition expect (c : ascii) (s : string) : option string :=
  match s with
  | EmptyString => None
  | String c' r => if Ascii.eqb c' c then Some r else None
  end.

(** The recursive-descent decoder.  [fuel] bounds the number of nested
    calls; every call consumes at least one character, so the length of the
    text is always enough.  An object is built pair by pair, so a repeated
    key keeps its first position and its last value. *)
Fixpoint parse_value (fuel : nat) (s : string) : option (json * string) :=
  match fuel with
  | O => None
  | S fuel =>
      match s with
      | EmptyString => None
      | String c r =>
          if Ascii.eqb c dquote then
            match scanstring r with
            | Some (str, r') => Some (JStr str, r')
            | None => None
            end
          else if Ascii.eqb c "[" then
            match expect "]" (skip_ws r) with
            | Some r' => Some (JArr [], r')
            | None =>
                match parse_elements fuel (skip_ws r) with
                | Some (l, r') => Some (JArr l, r')
                | None => None
                end
            end
          else if Ascii.eqb c "{" then
            match expect "}" (skip_ws r) with
            | Some r' => Some (JObj [], r')
            | None =>
                match parse_members fuel (skip_ws r) with
                | Some (l, r') => Some (JObj (dict_of_pairs l), r')
                | None => None
                end
            end
          else None
      end
  end
with parse_elements (fuel : nat) (s : string) : option (list json * string) :=
  match fuel with
  | O => None
  | S fuel =>
      match parse_value fuel s with
      | None => None
      | Some (v, r) =>
          match expect "," (skip_ws r) with
          | Some r' =>
              match parse_elements fuel (skip_ws r') with
              | Some (l, r'') => Some (v :: l, r'')
              | None => None
              end
          | None =>
              match expect "]" (skip_ws r) with
              | Some r' => Some ([v], r')
              | None => None
              end
          end
      end
  end
with parse_members (fuel : nat) (s : string) : option (list (string * json) * string) :=
  match fuel with
  | O => None
  | S fuel =>
      match expect dquote s with
      | None => None
      | Some r =>
          match scanstring r with
          | None => None
          | Some (k, r1) =>
              match expect ":" (skip_ws r1) with
              | None => None
              | Some r2 =>
                  match parse_value fuel (skip_ws r2) with
                  | None => None
                  | Some (v, r3) =>
                      match expect "," (skip_ws r3) with
                      | Some r4 =>
                          match parse_members fuel (skip_ws r4) with
                          | Some (l, r5) => Some ((k, v) :: l, r5)
                          | None => None
                          end
                      | None =>
                          match expect "}" (skip_ws r3) with
                          | Some r4 => Some ([(k, v)], r4)
                          | None => None
                          end
                      end
                  end
              end
          end
      end
  end.

(** [json.loads]: one value, surrounded by optional white space. *)
Definition json_loads (s : string) : option json :=
  match parse_value (S (String.length s)) (skip_ws s) with
  | Some (v, r) => match skip_ws r with EmptyString => Some v | _ => None end
  | None => None
  end.

(** Python truthiness of an optional JSON value ([None] for a missing key). *)
Definition truthy (o : option json) : bool :=
  match o with
  | None => false
  | Some (JStr s) => negb (String.eqb s "")
  | Some (JArr l) => match l with [] => false | _ => true end
  | Some (JObj l) => match l with [] => false | _ => true end
  end.

(** ** Exceptions, documents and the workspace *)

Inductive exn : Type :=
  | AttributeError (attribute : string)
  | KeyError (key : string)
  | ValueError (what : string)
  | ValidationError (field : string)
  | JSONDecodeError
  | ExternalError (what : string).

Inductive result (A : Type) : Type :=
  | Ok (a : A)
  | Raise (e : exn).
Arguments Ok {A} a.
Arguments Raise {A} e.

(** [metagpt.schema.Document] and [Documents], as this module uses them. *)
Record Document : Type := mkDocument {
  root_path : string;
  filename : string;
  content : string
}.

Record Documents : Type := mkDocuments { docs : pydict Document }.

Record ActionOutput (IC : Type) : Type := mkActionOutput {
  out_content : string;
  instruct_content : IC
}.
Arguments mkActionOutput {IC} _ _.
Arguments out_content {IC} _.
Arguments instruct_content {IC} _.

Record FileRepository : Type := mkFileRepository { relative_path : string }.

(** A prompt template with two holes, and [str.format] filling them. *)
Record template : Type := mkTemplate { seg0 : string; seg1 : string; seg2 : string }.

Definition format2 (t : template) (a b : string) : string :=
  seg0 t +:+ a +:+ seg1 t +:+ b +:+ seg2 t.

Inductive ftype : Type := TStr | TListStr.

Definition OUTPUT_MAPPING : pydict ftype :=
  [ ("Implementation approach", TStr);
    ("Python package name", TStr);
    ("File list", TListStr);
    ("Data structures and interface definitions", TStr);
    ("Program call flow", TStr);
    ("Anything UNCLEAR", TStr) ].

(** Calls that leave the process, in the order they are made; each records
    what the collaborator's answer depends on. *)
Inductive event : Type :=
  | EvAsk (call : nat) (prompt : string) (mapping : pydict ftype) (format : string)
  | EvRenameRoot (root : string) (ws_name : json)
  | EvSave (repo file text : string) (dependencies : list string)
  | EvMkdir (path : string)
  | EvMermaid (data : json) (pathname : string)
  | EvSavePdf (repo : string) (doc : Document)
  | EvInfo (msg : string).

(** What the module imports and does not define: constants of
    [metagpt.const], the configuration, the literal prompt text, the
    language model with its output parser, path arithmetic and the
    renderers.  An I/O collaborator answers [None] when it succeeds and
    [Some e] when it raises [e]. *)
Class Collaborators : Type := {
  ChangeType : Type;
  PRDS_FILE_REPO : string;
  SYSTEM_DESIGN_FILE_REPO : string;
  DATA_API_DESIGN_FILE_REPO : string;
  SEQ_FLOW_FILE_REPO : string;
  SYSTEM_DESIGN_PDF_FILE_REPO : string;
  prompt_format : string;
  json_PROMPT_TEMPLATE : template;
  json_FORMAT_EXAMPLE : string;
  markdown_PROMPT_TEMPLATE : template;
  markdown_FORMAT_EXAMPLE : string;
  MERGE_PROMPT : template;
  get_template : pydict (template * string) -> string -> result (template * string);
  llm_aask : nat -> string -> result string;
  parse_output : string -> string -> result (pydict json);
  CodeParser_parse_str : string -> string -> result string;
  root_relative_path : Document -> string;
  Documents_json : Documents -> string;
  rename_root : string -> json -> result string;
  save_io : string -> string -> string -> option exn;
  path_div : string -> string -> string;
  with_suffix : string -> string -> string;
  path_parent : string -> string;
  mkdir_io : string -> option exn;
  mermaid_to_file : json -> string -> option exn;
  save_pdf : string -> Document -> option exn
}.

Section Model.
Context `{C : Collaborators}.

(** The workspace: repository files keyed by (repository, file name), the
    change sets the version control reports, the root directory of the git
    repository, the truth value of [CONFIG.WORKDIR], the number of
    language-model calls made so far, and the calls made so far. *)
Record World : Type := mkWorld {
  files : gmap (string * string) string;
  changed : string -> pydict ChangeType;
  workdir : string;
  WORKDIR : bool;
  llm_calls : nat;
  trace : list event
}.

Definition M (A : Type) : Type := World -> result A * World.

Definition ret {A} (a : A) : M A := fun w => (Ok a, w).

Definition bind {A B} (m : M A) (k : A -> M B) : M B :=
  fun w =>
    match m w with
    | (Ok a, w') => k a w'
    | (Raise e, w') => (Raise e, w')
    end.

Definition lift {A} (r : result A) : M A := fun w => (r, w).

Definition emit (ev : event) : M unit :=
  fun w =>
    (Ok tt, mkWorld (files w) (changed w) (workdir w) (WORKDIR w) (llm_calls w)
                    (trace w ++ [ev])).

Definition check (o : option exn) : M unit :=
  match o with
  | None => ret tt
  | Some e => lift (Raise e)
  end.

Fixpoint for_each {A S} (l : list A) (body : A -> S -> M S) (acc : S) : M S :=
  match l with
  | [] => ret acc
  | x :: l' => bind (body x acc) (for_each l' body)
  end.

End Model.

Notation "'let*' x ':=' m 'in' k" := (bind m (fun x => k))
  (at level 10, x name, m at level 100, k at level 200,
   format "'[v' 'let*'  x  :=  m  'in' '/' k ']'").

Section Actions.
Context `{C : Collaborators}.

(** *** Attribute and item access that can raise *)

Definition getattr_content (d : option Document) : result string :=
  match d with
  | Some d => Ok (content d)
  | None => Raise (AttributeError "content")
  end.

Definition getattr_root_relative_path (d : option Document) : result string :=
  match d with
  | Some d => Ok (root_relative_path d)
  | None => Raise (AttributeError "root_relative_path")
  end.

Definition dict_item {V} (d : pydict V) (k : string) : result V :=
  match dict_get d k with
  | Some v => Ok v
  | None => Raise (KeyError k)
  end.

(** The three chained [strip] calls of the package-name fix: white space,
    then the single quote, then the double quote.  Only a [str] has
    [strip]. *)
Definition strip_quotes (s : string) : string :=
  strip_char dquote (strip_char squote (strip s)).

Definition py_strip_quotes (v : json) : result string :=
  match v with
  | JStr s => Ok (strip_quotes s)
  | _ => Raise (AttributeError "strip")
  end.

(** [setattr] on a model instance: the field has to exist. *)
Definition setattr (ic : pydict json) (name : string) (v : json) : result (pydict json) :=
  if dict_mem ic name then Ok (dict_set ic name v) else Raise (ValueError name).

(** [m.get(key)] on the decoded content; only a dict has [get]. *)
Definition json_get (m : json) (key : string) : result (option json) :=
  match m with
  | JObj d => Ok (dict_get d key)
  | _ => Raise (AttributeError "get")
  end.

Definition loads (text : string) : result json :=
  match json_loads text with
  | Some v => Ok v
  | None => Raise JSONDecodeError
  end.

(** *** The document repository *)

(** Modelled from the spec: [CONFIG.git_repo.new_file_repository], the
    handle of "a document repository keyed by filename". *)
Definition new_file_repository (path : string) : M FileRepository :=
  ret (mkFileRepository path).

(** Modelled from the spec: [FileRepository.changed_files], the "change-
    detection" of the repository: a dict from file name to kind of change. *)
Definition changed_files (repo : FileRepository) : M (pydict ChangeType) :=
  fun w => (Ok (changed w (relative_path repo)), w).

(** Modelled from the spec: [FileRepository.get] of "a document repository
    keyed by filename supporting get/save": the stored document, or [None]
    when the repository holds nothing under the name. *)
Definition repo_get (repo : FileRepository) (filename : string) : M (option Document) :=
  fun w =>
    (Ok (match files w !! (relative_path repo, filename) with
         | Some text => Some (mkDocument (relative_path repo) filename text)
         | None => None
         end), w).

(** Modelled from the spec: [FileRepository.save] of the same repository:
    the whole text under the name is replaced, unless the write raises. *)
Definition repo_save (repo : FileRepository) (filename text : string)
    (dependencies : list string) : M unit :=
  let* _ := emit (EvSave (relative_path repo) filename text dependencies) in
  let* _ := check (save_io (relative_path repo) filename text) in
  fun w =>
    (Ok tt, mkWorld (<[(relative_path repo, filename) := text]> (files w))
                    (changed w) (workdir w) (WORKDIR w) (llm_calls w) (trace w)).

(** Modelled from the spec: [FileRepository.save_pdf], "a PDF-export
    facility for a document". *)
Definition repo_save_pdf (repo : FileRepository) (doc : Document) : M unit :=
  let* _ := emit (EvSavePdf (relative_path repo) doc) in
  check (save_pdf (relative_path repo) doc).

(** [CONFIG.git_repo.rename_root]. *)
Definition git_rename_root (ws_name : json) : M unit :=
  fun w =>
    let w1 := mkWorld (files w) (changed w) (workdir w) (WORKDIR w) (llm_calls w)
                      (trace w ++ [EvRenameRoot (workdir w) ws_name]) in
    match rename_root (workdir w) ws_name with
    | Ok d =>
        (Ok tt, mkWorld (files w1) (changed w1) d (WORKDIR w1) (llm_calls w1) (trace w1))
    | Raise e => (Raise e, w1)
    end.

(** *** The language model *)

Definition conforms (t : ftype) (v : json) : bool :=
  match t, v with
  | TStr, JStr _ => true
  | TListStr, JArr l => forallb (fun x => match x with JStr _ => true | _ => false end) l
  | _, _ => false
  end.

(** Modelled from the spec: the model class built from a field mapping.
    Every mapped field has to be present with a value of its type; other
    keys of the parsed data are dropped; fields come in mapping order. *)
Fixpoint create_model (mapping : pydict ftype) (parsed_data : pydict json)
    : result (pydict json) :=
  match mapping with
  | [] => Ok []
  | (name, t) :: mapping' =>
      match dict_get parsed_data name with
      | None => Raise (ValidationError name)
      | Some v =>
          if conforms t v then
            match create_model mapping' parsed_data with
            | Ok ic => Ok ((name, v) :: ic)
            | Raise e => Raise e
            end
          else Raise (ValidationError name)
      end
  end.

(** Modelled from the spec: [Action._aask_v1], "a model-invocation facility
    returning structured output conforming to a named field schema": the
    answer of the [call]-th model call, parsed and validated. *)
Definition aask_v1_result (call : nat) (prompt : string)
    (output_data_mapping : pydict ftype) (format : string)
    : result (ActionOutput (pydict json)) :=
  match llm_aask call prompt with
  | Raise e => Raise e
  | Ok raw =>
      match parse_output format raw with
      | Raise e => Raise e
      | Ok parsed_data =>
          match create_model output_data_mapping parsed_data with
          | Raise e => Raise e
          | Ok instruct_content => Ok (mkActionOutput raw instruct_content)
          end
      end
  end.

Definition _aask_v1 (prompt output_class_name : string)
    (output_data_mapping : pydict ftype) (format : string)
    : M (ActionOutput (pydict json)) :=
  fun w =>
    (aask_v1_result (llm_calls w) prompt output_data_mapping format,
     mkWorld (files w) (changed w) (workdir w) (WORKDIR w) (S (llm_calls w))
             (trace w ++ [EvAsk (llm_calls w) prompt output_data_mapping format])).

(** *** [WriteDesign] *)

Definition templates : pydict (template * string) :=
  [ ("json", (json_PROMPT_TEMPLATE, json_FORMAT_EXAMPLE));
    ("markdown", (markdown_PROMPT_TEMPLATE, markdown_FORMAT_EXAMPLE)) ].

(** The [setattr] statement shared by [_new_system_design] and [_merge]. *)
Definition fix_package_name (system_design : ActionOutput (pydict json))
    : result (ActionOutput (pydict json)) :=
  match dict_item (instruct_content system_design) "Python package name" with
  | Raise e => Raise e
  | Ok v =>
      match py_strip_quotes v with
      | Raise e => Raise e
      | Ok name =>
          match setattr (instruct_content system_design) "Python package name" (JStr name) with
          | Raise e => Raise e
          | Ok ic => Ok (mkActionOutput (out_content system_design) ic)
          end
      end
  end.

Definition _rename_workspace (system_design : ActionOutput (pydict json) + string) : M unit :=
  fun w =>
    if WORKDIR w then (Ok tt, w)
    else
      (let* ws_name := lift (match system_design with
                        | inl out => dict_item (instruct_content out) "Python package name"
                        | inr text =>
                            match CodeParser_parse_str "Python package name" text with
                            | Ok s => Ok (JStr s)
                            | Raise e => Raise e
                            end
                        end) in
       git_rename_root ws_name) w.

Definition _new_system_design (context format : string) : M (ActionOutput (pydict json)) :=
  let* pf := lift (get_template templates format) in
  let prompt := format2 pf.1 context pf.2 in
  let* system_design := _aask_v1 prompt "system_design" OUTPUT_MAPPING format in
  let* system_design := lift (fix_package_name system_design) in
  let* _ := _rename_workspace (inl system_design) in
  ret system_design.

Definition _merge (prd_doc : option Document) (system_design_doc : Document)
    (format : string) : M Document :=
  let* context := lift (getattr_content prd_doc) in
  let prompt := format2 MERGE_PROMPT (content system_design_doc) context in
  let* system_design := _aask_v1 prompt "system_design" OUTPUT_MAPPING format in
  let* system_design := lift (fix_package_name system_design) in
  ret (mkDocument (root_path system_design_doc) (filename system_design_doc)
                  (json_dumps (JObj (instruct_content system_design)))).

Definition _save_mermaid_file (data : json) (pathname : string) : M unit :=
  let* _ := emit (EvMkdir (path_parent pathname)) in
  let* _ := check (mkdir_io (path_parent pathname)) in
  let* _ := emit (EvMermaid data pathname) in
  check (mermaid_to_file data pathname).

Definition git_workdir : M string := fun w => (Ok (workdir w), w).

Definition _save_data_api_design (design_doc : Document) : M unit :=
  let* m := lift (loads (content design_doc)) in
  let* data_api_design := lift (json_get m "Data structures and interface definitions") in
  match data_api_design with
  | Some data =>
      if truthy data_api_design then
        let* root := git_workdir in
        let pathname :=
          path_div (path_div root DATA_API_DESIGN_FILE_REPO)
                   (with_suffix (filename design_doc) "") in
        let* _ := _save_mermaid_file data pathname in
        emit (EvInfo ("Save class view to " +:+ pathname))
      else ret tt
  | None => ret tt
  end.

Definition _save_seq_flow (design_doc : Document) : M unit :=
  let* m := lift (loads (content design_doc)) in
  let* seq_flow := lift (json_get m "Program call flow") in
  match seq_flow with
  | Some data =>
      if truthy seq_flow then
        let* root := git_workdir in
        let pathname :=
          path_div (path_div root SEQ_FLOW_FILE_REPO)
                   (with_suffix (filename design_doc) "") in
        let* _ := _save_mermaid_file data pathname in
        emit (EvInfo ("Saving sequence flow to " +:+ pathname))
      else ret tt
  | None => ret tt
  end.

Definition _save_pdf (design_doc : Document) : M unit :=
  let* file_repo := new_file_repository SYSTEM_DESIGN_PDF_FILE_REPO in
  repo_save_pdf file_repo design_doc.

Definition _update_system_design (filename : string)
    (prds_file_repo system_design_file_repo : FileRepository) : M Document :=
  let* prd := repo_get prds_file_repo filename in
  let* old_system_design_doc := repo_get system_design_file_repo filename in
  let* doc :=
    match old_system_design_doc with
    | None =>
        let* context := lift (getattr_content prd) in
        let* system_design := _new_system_design context prompt_format in
        ret (mkDocument SYSTEM_DESIGN_FILE_REPO filename
                        (json_dumps (JObj (instruct_content system_design))))
    | Some old => _merge prd old prompt_format
    end in
  let* dependency := lift (getattr_root_relative_path prd) in
  let* _ := repo_save system_design_file_repo filename (content doc) [dependency] in
  let* _ := _save_data_api_design doc in
  let* _ := _save_seq_flow doc in
  let* _ := _save_pdf doc in
  ret doc.

Definition docs_set (d : Documents) (filename : string) (doc : Document) : Documents :=
  mkDocuments (dict_set (docs d) filename doc).

Definition run {Msg : Type} (with_messages : Msg) (format : string)
    : M (ActionOutput Documents) :=
  let* prds_file_repo := new_file_repository PRDS_FILE_REPO in
  let* changed_prds := changed_files prds_file_repo in
  let* system_design_file_repo := new_file_repository SYSTEM_DESIGN_FILE_REPO in
  let* changed_system_designs := changed_files system_design_file_repo in
  let* changed_files :=
    for_each (dict_keys changed_prds)
      (fun filename changed_files =>
         let* doc := _update_system_design filename prds_file_repo system_design_file_repo in
         ret (docs_set changed_files filename doc))
      (mkDocuments []) in
  let* changed_files :=
    for_each (dict_keys changed_system_designs)
      (fun filename changed_files =>
         if dict_mem (docs changed_files) filename then ret changed_files
         else
           let* doc := _update_system_design filename prds_file_repo system_design_file_repo in
           ret (docs_set changed_files filename doc))
      changed_files in
  let* _ :=
    match docs changed_files with
    | [] => emit (EvInfo "Nothing has changed.")
    | _ => ret tt
    end in
  ret (mkActionOutput (Documents_json changed_files) changed_files).

End Actions.

(** ** Measures and well-formedness used by the codec proofs *)

Fixpoint jsize (v : json) : nat :=
  match v with
  | JStr _ => 1
  | JArr l => S (list_sum (map (fun x => S (jsize x)) l))
  | JObj l => S (list_sum (map (fun kv => S (jsize kv.2)) l))
  end.

(** Objects have distinct keys, at every depth. *)
Fixpoint json_wf (v : json) : bool :=
  match v with
  | JStr _ => true
  | JArr l => forallb json_wf l
  | JObj l => bool_decide (NoDup l.*1) && forallb (fun kv => json_wf kv.2) l
  end.

Definition member_text (kv : string * json) : string :=
  quote kv.1 +:+ ": " +:+ json_dumps kv.2.

(** ** Observations on a run *)

Section Observers.
Context `{C : Collaborators}.

(** The answer of the collaborator to the call an event records: [Some e]
    when the call raises [e]. *)
Definition verdict (ev : event) : option exn :=
  match ev with
  | EvAsk call prompt mapping format =>
      match aask_v1_result call prompt mapping format with
      | Raise e => Some e
      | Ok _ => None
      end
  | EvRenameRoot root ws_name =>
      match rename_root root ws_name with
      | Raise e => Some e
      | Ok _ => None
      end
  | EvSave repo file text _ => save_io repo file text
  | EvMkdir path => mkdir_io path
  | EvMermaid data pathname => mermaid_to_file data pathname
  | EvSavePdf repo doc => save_pdf repo doc
  | EvInfo _ => None
  end.

(** A failing call is the last call made, and its exception is the result. *)
Definition clean {A} (r : result A) (evs : list event) : Prop :=
  forall evs1 ev evs2 e,
    evs = evs1 ++ ev :: evs2 -> verdict ev = Some e -> r = Raise e /\ evs2 = [].

(** No call of the list raised. *)
Definition quiet (evs : list event) : Prop := Forall (fun ev => verdict ev = None) evs.

(** The calls that write concern [file] only: a save writes [text] under
    [file] in the design repository, a rendering goes to a path derived
    from [file], and the PDF export is that of the document of [file]. *)
Definition save_only (file text : string) (ev : event) : Prop :=
  match ev with
  | EvSave repo f t _ => repo = SYSTEM_DESIGN_FILE_REPO /\ f = file /\ t = text
  | EvMermaid _ pathname =>
      exists root repo, pathname = path_div (path_div root repo) (with_suffix file "")
  | EvMkdir path =>
      exists root repo,
        path = path_parent (path_div (path_div root repo) (with_suffix file ""))
  | EvSavePdf _ doc => filename doc = file
  | _ => True
  end.

(** What processing [file] leaves alone: the change sets, [CONFIG.WORKDIR]
    and every stored file but the design of [file], which is either left
    as it was or replaced by [text]. *)
Definition frame (file text : string) (w w' : World) : Prop :=
  changed w' = changed w
  /\ WORKDIR w' = WORKDIR w
  /\ llm_calls w <= llm_calls w'
  /\ (forall k, k <> (SYSTEM_DESIGN_FILE_REPO, file) -> files w' !! k = files w !! k)
  /\ (files w' !! (SYSTEM_DESIGN_FILE_REPO, file)
      = files w !! (SYSTEM_DESIGN_FILE_REPO, file)
      \/ files w' !! (SYSTEM_DESIGN_FILE_REPO, file) = Some text).

(** [sound file text m]: whatever [m] returns, it only appends calls to
    the trace, a failing call ends it with that exception, it saves nothing
    but [text] under [file], and it respects the frame. *)
Definition sound (file text : string) {A} (m : M A) : Prop :=
  forall w r w', m w = (r, w') ->
    exists evs, trace w' = trace w ++ evs
                /\ clean r evs
                /\ Forall (save_only file text) evs
                /\ frame file text w w'.

(** [traced m]: the part of [sound] that does not depend on the file. *)
Definition traced {A} (m : M A) : Prop :=
  forall w r w', m w = (r, w') ->
    exists evs, trace w' = trace w ++ evs /\ clean r evs.

(** The object a model instance with the six fields of [OUTPUT_MAPPING]
    serialises to. *)
Definition six_fields (approach name : string) (file_list : list string)
    (classes flow unclear : string) : pydict json :=
  [ ("Implementation approach", JStr approach);
    ("Python package name", JStr name);
    ("File list", JArr (map JStr file_list));
    ("Data structures and interface definitions", JStr classes);
    ("Program call flow", JStr flow);
    ("Anything UNCLEAR", JStr unclear) ].

(** Every saved text is a serialised object with the six fields. *)
Definition saves_six (ev : event) : Prop :=
  match ev with
  | EvSave _ _ text _ =>
      exists approach name file_list classes flow unclear,
        text = json_dumps (JObj (six_fields approach name file_list classes flow unclear))
  | _ => True
  end.

(** [appends Q m]: whatever [m] returns, it only appends calls satisfying
    [Q], and a failing call ends it with that exception. *)
Definition appends (Q : event -> Prop) {A} (m : M A) : Prop :=
  forall w r w', m w = (r, w') ->
    exists evs, trace w' = trace w ++ evs /\ clean r evs /\ Forall Q evs.

Definition is_rename (ev : event) : Prop :=
  match ev with EvRenameRoot _ _ => True | _ => False end.

Definition is_ask (ev : event) : bool :=
  match ev with EvAsk _ _ _ _ => true | _ => false end.

Definition is_save_of (repo file : string) (ev : event) : bool :=
  match ev with
  | EvSave r f _ _ => String.eqb r repo && String.eqb f file
  | _ => false
  end.

(** The number of saves under [file] in the design repository. *)
Fixpoint saves_of (file : string) (evs : list event) : nat :=
  match evs with
  | [] => 0
  | ev :: evs' =>
      (if is_save_of SYSTEM_DESIGN_FILE_REPO file ev then 1 else 0) + saves_of file evs'
  end.

Definition is_render (ev : event) : bool :=
  match ev with EvMermaid _ _ => true | _ => false end.

Definition prds_repo : FileRepository := mkFileRepository PRDS_FILE_REPO.
Definition designs_repo : FileRepository := mkFileRepository SYSTEM_DESIGN_FILE_REPO.

(** The calls [_rename_workspace] makes for a package name. *)
Definition rename_events (w : World) (name : string) : list event :=
  if WORKDIR w then [] else [EvRenameRoot (workdir w) (JStr name)].

(** The calls one diagram save makes for the diagram text [data]: none
    for an empty text. *)
Definition diagram_events (root repo file data msg : string) : list event :=
  if String.eqb data "" then []
  else
    let pathname := path_div (path_div root repo) (with_suffix file "") in
    [EvMkdir (path_parent pathname); EvMermaid (JStr data) pathname;
     EvInfo (msg +:+ pathname)].

(** The calls that persist a design document. *)
Definition persist_events (root file : string) (doc : Document) (dependency : string)
    (classes flow : string) : list event :=
  [EvSave SYSTEM_DESIGN_FILE_REPO file (content doc) [dependency]]
  ++ diagram_events root DATA_API_DESIGN_FILE_REPO file classes "Save class view to "
  ++ diagram_events root SEQ_FLOW_FILE_REPO file flow "Saving sequence flow to "
  ++ [EvSavePdf SYSTEM_DESIGN_PDF_FILE_REPO doc].

(** The prompt [_update_system_design] sends for a PRD text: the new-design
    prompt when the design repository holds nothing under the name, the
    merge prompt over the stored design otherwise. *)
Definition design_prompt (w : World) (file prd_text : string) : result string :=
  match files w !! (SYSTEM_DESIGN_FILE_REPO, file) with
  | None =>
      match get_template templates prompt_format with
      | Ok pf => Ok (format2 pf.1 prd_text pf.2)
      | Raise e => Raise e
      end
  | Some old => Ok (format2 MERGE_PROMPT old prd_text)
  end.

(** The workspace renames of one file: only a new design renames, and only
    while [CONFIG.WORKDIR] is unset. *)
Definition design_renames (w : World) (file name : string) : list event :=
  match files w !! (SYSTEM_DESIGN_FILE_REPO, file) with
  | None => rename_events w name
  | Some _ => []
  end.

Definition design_root (w : World) (file name : string) : string :=
  match files w !! (SYSTEM_DESIGN_FILE_REPO, file) with
  | None =>
      if WORKDIR w then workdir w
      else match rename_root (workdir w) (JStr name) with
           | Ok d => d
           | Raise _ => workdir w
           end
  | Some _ => workdir w
  end.

(** The calls of one successfully processed file: one model call, the
    workspace rename if any, then the calls that persist the document. *)
Definition file_block (file : string) (doc : Document) (block : list event) : Prop :=
  exists call prompt renames root dependency approach name file_list classes flow unclear,
    doc = mkDocument SYSTEM_DESIGN_FILE_REPO file
            (json_dumps (JObj (six_fields approach name file_list classes flow unclear)))
    /\ Forall is_rename renames
    /\ block = [EvAsk call prompt OUTPUT_MAPPING prompt_format] ++ renames
               ++ persist_events root file doc dependency classes flow.

(** The files [run] works on, in order: the changed PRDs, then the changed
    designs that are not among them. *)
Definition work_list (w : World) : list string :=
  dict_keys (changed w PRDS_FILE_REPO)
  ++ filter (fun f => f ∉ dict_keys (changed w PRDS_FILE_REPO))
            (dict_keys (changed w SYSTEM_DESIGN_FILE_REPO)).

(** The second loop of [run] over [keys], with [seen] the names already in
    the result: the names it processes. *)
Fixpoint pending (seen keys : list string) : list string :=
  match keys with
  | [] => []
  | f :: keys' =>
      if bool_decide (f ∈ seen) then pending seen keys'
      else f :: pending (seen ++ [f]) keys'
  end.

(** The result collection after recording the documents of [l], in order. *)
Definition record_docs (l : list (string * Document)) (acc : Documents) : Documents :=
  fold_left (fun d fd => docs_set d fd.1 fd.2) l acc.

(** The two loop bodies of [run]. *)
Definition pass1 (filename : string) (changed_files : Documents) : M Documents :=
  let* doc := _update_system_design filename prds_repo designs_repo in
  ret (docs_set changed_files filename doc).

Definition pass2 (filename : string) (changed_files : Documents) : M Documents :=
  if dict_mem (docs changed_files) filename then ret changed_files
  else
    let* doc := _update_system_design filename prds_repo designs_repo in
    ret (docs_set changed_files filename doc).

(** [steps w l w']: the files of [l] are processed one after the other,
    each to completion and each starting in the workspace the one before
    it left. *)
Inductive steps : World -> list (string * Document) -> World -> Prop :=
  | steps_nil w : steps w [] w
  | steps_cons w file doc w1 l w2 :
      _update_system_design file prds_repo designs_repo w = (Ok doc, w1) ->
      steps w1 l w2 ->
      steps w ((file, doc) :: l) w2.

End Observers.

(** ** A concrete workspace *)

Definition demo_answer (name classes flow : string) : pydict json :=
  [ ("Implementation approach", JStr "We will ...");
    ("Python package name", JStr name);
    ("File list", JArr [JStr "main.py"]);
    ("Data structures and interface definitions", JStr classes);
    ("Program call flow", JStr flow);
    ("Anything UNCLEAR", JStr "The requirement is clear to me.");
    ("Extra", JStr "dropped") ].

Definition demo_get_template (ts : pydict (template * string)) (format : string)
    : result (template * string) :=
  match dict_get ts format with
  | Some t => Ok t
  | None => Raise (ValueError format)
  end.

Definition demo_collaborators (llm : nat -> string -> result string)
    (answer : pydict json) (save : string -> string -> string -> option exn)
    : Collaborators :=
  {| ChangeType := unit;
     PRDS_FILE_REPO := "docs/prds";
     SYSTEM_DESIGN_FILE_REPO := "docs/system_design";
     DATA_API_DESIGN_FILE_REPO := "resources/data_api_design";
     SEQ_FLOW_FILE_REPO := "resources/seq_flow";
     SYSTEM_DESIGN_PDF_FILE_REPO := "resources/system_design";
     prompt_format := "json";
     json_PROMPT_TEMPLATE := mkTemplate "# Context " " ## Format example " " -----";
     json_FORMAT_EXAMPLE := "[CONTENT]{}[/CONTENT]";
     markdown_PROMPT_TEMPLATE := mkTemplate "# Context " " ## Format example " " -----";
     markdown_FORMAT_EXAMPLE := "---";
     MERGE_PROMPT := mkTemplate "## Old Design " " ## Context " " -----";
     get_template := demo_get_template;
     llm_aask := llm;
     parse_output := fun _ _ => Ok answer;
     CodeParser_parse_str := fun _ text => Ok text;
     root_relative_path := fun d => root_path d +:+ "/" +:+ filename d;
     Documents_json := fun d =>
       json_dumps (JObj [("docs",
         JObj (map (fun kd => (kd.1, JObj [("root_path", JStr (root_path kd.2));
                                            ("filename", JStr (filename kd.2));
                                            ("content", JStr (content kd.2))]))
                   (docs d)))]);
     rename_root := fun root ws_name =>
       match ws_name with JStr s => Ok ("/ws/" +:+ s) | _ => Ok root end;
     save_io := save;
     path_div := fun a b => a +:+ "/" +:+ b;
     with_suffix := fun f suffix => f +:+ suffix;
     path_parent := fun p => p +:+ "/..";
     mkdir_io := fun _ => None;
     mermaid_to_file := fun _ _ => None;
     save_pdf := fun _ _ => None |}.

(** A model that answers, with a quoted package name and both diagrams. *)
Definition demo : Collaborators :=
  demo_collaborators (fun _ _ => Ok "[CONTENT]...[/CONTENT]")
    (demo_answer " 'snake_game' " "classDiagram" "sequenceDiagram")
    (fun _ _ _ => None).

(** A model that answers with an empty call flow. *)
Definition demo_no_flow : Collaborators :=
  demo_collaborators (fun _ _ => Ok "[CONTENT]...[/CONTENT]")
    (demo_answer "snake_game" "classDiagram" "")
    (fun _ _ _ => None).

(** A model whose second call fails. *)
Definition demo_failing : Collaborators :=
  demo_collaborators
    (fun call _ => if call =? 1 then Raise (ExternalError "rate limit") else Ok "...")
    (demo_answer "snake_game" "classDiagram" "sequenceDiagram")
    (fun _ _ _ => None).

(** A model that wraps the package name in double quotes around single
    quotes. *)
Definition nested_quotes : string :=
  String dquote (String squote (String "x" (String squote (String dquote "")))).

Definition demo_nested : Collaborators :=
  demo_collaborators (fun _ _ => Ok "[CONTENT]...[/CONTENT]")
    (demo_answer nested_quotes "classDiagram" "sequenceDiagram")
    (fun _ _ _ => None).

Definition demo_changed (prds designs : list string) (repo : string) : pydict unit :=
  if String.eqb repo "docs/prds" then map (fun f => (f, tt)) prds
  else if String.eqb repo "docs/system_design" then map (fun f => (f, tt)) designs
  else [].

Definition demo_files : gmap (string * string) string :=
  <[("docs/prds", "a.md") := "PRD of a"]>
  (<[("docs/prds", "b.md") := "PRD of b"]>
  (<[("docs/system_design", "b.md") := "old design of b"]> ∅)).

Definition demo_world (llm : nat -> string -> result string)
    (answer : pydict json) (save : string -> string -> string -> option exn)
    (prds designs : list string) : @World (demo_collaborators llm answer save) :=
  @mkWorld (demo_collaborators llm answer save)
    demo_files (demo_changed prds designs) "/ws/workspace" false 0 [].

(** Two changed files: [a.md] has a PRD and no design yet, [b.md] has a PRD
    and a design. *)
Definition w_demo : @World demo := demo_world _ _ _ ["a.md"] ["b.md"].
Definition w_no_flow : @World demo_no_flow := demo_world _ _ _ ["a.md"] [].
Definition w_failing : @World demo_failing := demo_world _ _ _ ["a.md"; "b.md"] [].
Definition w_nested : @World demo_nested := demo_world _ _ _ ["a.md"] [].
Definition w_quiet : @World demo := demo_world _ _ _ [] [].

(** The runs the theorems are instantiated at. *)
Definition update_a := @_update_system_design demo "a.md" (@prds_repo demo) (@designs_repo demo) w_demo.
Definition update_b := @_update_system_design demo "b.md" (@prds_repo demo) (@designs_repo demo) w_demo.
Definition update_nested :=
  @_update_system_design demo_nested "a.md" (@prds_repo demo_nested)
    (@designs_repo demo_nested) w_nested.
Definition run_demo := @run demo unit tt "json" w_demo.
Definition run_no_flow := @run demo_no_flow unit tt "json" w_no_flow.
Definition run_failing := @run demo_failing unit tt "json" w_failing.
Definition run_quiet := @run demo unit tt "json" w_quiet.

(** ** Further observations *)

(** [rep c n]: the character [c], [n] times. *)
Fixpoint rep (c : ascii) (n : nat) : string :=
  match n with
  | O => EmptyString
  | S n' => String c (rep c n')
  end.

Fixpoint all_chars (p : ascii -> bool) (s : string) : bool :=
  match s with
  | EmptyString => true
  | String c s' => p c && all_chars p s'
  end.

(** The first, respectively last, character exists and is not in [p]. *)
Definition starts_outside (p : ascii -> bool) (s : string) : Prop :=
  exists c, first_char s = Some c /\ p c = false.

Definition ends_outside (p : ascii -> bool) (s : string) : Prop :=
  exists c, last_char s = Some c /\ p c = false.

(** White space or a quote of either kind. *)
Definition is_wrapper (c : ascii) : bool :=
  isspace c || Ascii.eqb squote c || Ascii.eqb dquote c.

(** [s] is empty, or its first and its last character are not in [p]. *)
Definition clean_ends (p : ascii -> bool) (s : string) : Prop :=
  s = "" \/ (starts_outside p s /\ ends_outside p s).

Section Invariants.
Context `{C : Collaborators}.

(** Everything of the workspace but the trace and the call counter. *)
Definition same_store (w w' : World) : Prop :=
  files w' = files w /\ changed w' = changed w
  /\ workdir w' = workdir w /\ WORKDIR w' = WORKDIR w.

(** [keeps P Q R m]: started in a workspace satisfying [P], whatever [m]
    returns it only appends calls satisfying [Q], relates the workspaces
    by [R] and re-establishes [P]. *)
Definition keeps (P : World -> Prop) (Q : event -> Prop) (R : World -> World -> Prop)
    {A} (m : M A) : Prop :=
  forall w r w', P w -> m w = (r, w') ->
    exists evs, trace w' = trace w ++ evs /\ Forall Q evs /\ R w w' /\ P w'.

Definition is_design_call (ev : event) : Prop :=
  match ev with EvAsk _ _ _ _ | EvRenameRoot _ _ => True | _ => False end.

Definition is_output_call (ev : event) : Prop :=
  match ev with
  | EvMkdir _ | EvMermaid _ _ | EvSavePdf _ _ | EvInfo _ => True
  | _ => False
  end.

Definition not_rename (ev : event) : Prop :=
  match ev with EvRenameRoot _ _ => False | _ => True end.

Definition same_files (w w' : World) : Prop := files w' = files w.
Definition same_root (w w' : World) : Prop := workdir w' = workdir w.

(** The part of [_update_system_design] after the design document is
    produced and saved: the two diagrams and the PDF. *)
Definition derive_outputs (doc : Document) : M Document :=
  let* _ := _save_data_api_design doc in
  let* _ := _save_seq_flow doc in
  let* _ := _save_pdf doc in
  ret doc.

Definition is_rename_call (ev : event) : bool :=
  match ev with EvRenameRoot _ _ => true | _ => false end.

(** The design repository holds nothing under the name. *)
Definition no_design (w : World) (file : string) : bool :=
  match files w !! (SYSTEM_DESIGN_FILE_REPO, file) with
  | None => true
  | Some _ => false
  end.

(** The number of workspace renames among the calls, and the number of
    names without a design in the repository. *)
Fixpoint count_renames (evs : list event) : nat :=
  match evs with
  | [] => 0
  | ev :: evs' => (if is_rename_call ev then 1 else 0) + count_renames evs'
  end.

Fixpoint count_new (w : World) (l : list string) : nat :=
  match l with
  | [] => 0
  | file :: l' => (if no_design w file then 1 else 0) + count_new w l'
  end.

(** [quiet], decided. *)
Definition quietb (evs : list event) : bool :=
  forallb (fun ev => match verdict ev with None => true | Some _ => false end) evs.

(** A text that serialises a model instance with the six fields. *)
Definition six_content (text : string) : Prop :=
  exists approach name file_list classes flow unclear,
    text = json_dumps (JObj (six_fields approach name file_list classes flow unclear)).

Definition six_output (out : ActionOutput (pydict json)) : Prop :=
  exists approach name file_list classes flow unclear,
    instruct_content out = six_fields approach name file_list classes flow unclear.

(** [reliable Pre m Post]: whatever [m] returns it only appends calls, and
    under [Pre], when none of these calls raised, [m] returned a value
    that satisfies [Post]. *)
Definition reliable (Pre : Prop) {A} (m : M A) (Post : A -> Prop) : Prop :=
  forall w r w', m w = (r, w') ->
    exists evs, trace w' = trace w ++ evs
                /\ (Pre -> quiet evs -> exists a, r = Ok a /\ Post a).

End Invariants.

(** A second concrete workspace, with the I/O collaborators, the prompt
    format and [CONFIG.WORKDIR] as parameters. *)
Definition demo_io (format : string)
    (save : string -> string -> string -> option exn)
    (render : json -> string -> option exn) : Collaborators :=
  {| ChangeType := unit;
     PRDS_FILE_REPO := "docs/prds";
     SYSTEM_DESIGN_FILE_REPO := "docs/system_design";
     DATA_API_DESIGN_FILE_REPO := "resources/data_api_design";
     SEQ_FLOW_FILE_REPO := "resources/seq_flow";
     SYSTEM_DESIGN_PDF_FILE_REPO := "resources/system_design";
     prompt_format := format;
     json_PROMPT_TEMPLATE := mkTemplate "# Context " " ## Format example " " -----";
     json_FORMAT_EXAMPLE := "[CONTENT]{}[/CONTENT]";
     markdown_PROMPT_TEMPLATE := mkTemplate "# Context " " ## Format example " " -----";
     markdown_FORMAT_EXAMPLE := "---";
     MERGE_PROMPT := mkTemplate "## Old Design " " ## Context " " -----";
     get_template := demo_get_template;
     llm_aask := fun _ _ => Ok "[CONTENT]...[/CONTENT]";
     parse_output := fun _ _ =>
       Ok (demo_answer "snake_game" "classDiagram" "sequenceDiagram");
     CodeParser_parse_str := fun _ text => Ok text;
     root_relative_path := fun d => root_path d +:+ "/" +:+ filename d;
     Documents_json := fun d => json_dumps (JObj (map (fun kd => (kd.1, JStr (content kd.2))) (docs d)));
     rename_root := fun root ws_name =>
       match ws_name with JStr s => Ok ("/ws/" +:+ s) | _ => Ok root end;
     save_io := save;
     path_div := fun a b => a +:+ "/" +:+ b;
     with_suffix := fun f suffix => f +:+ suffix;
     path_parent := fun p => p +:+ "/..";
     mkdir_io := fun _ => None;
     mermaid_to_file := render;
     save_pdf := fun _ _ => None |}.

Definition demo_yaml : Collaborators :=
  demo_io "yaml" (fun _ _ _ => None) (fun _ _ => None).
Definition demo_disk_full : Collaborators :=
  demo_io "json" (fun _ _ _ => Some (ExternalError "disk full")) (fun _ _ => None).
Definition demo_no_renderer : Collaborators :=
  demo_io "json" (fun _ _ _ => None) (fun _ _ => Some (ExternalError "mmdc not found")).

Definition io_world (format : string)
    (save : string -> string -> string -> option exn)
    (render : json -> string -> option exn)
    (workdir_set : bool) (prds designs : list string)
    : @World (demo_io format save render) :=
  @mkWorld (demo_io format save render)
    demo_files (demo_changed prds designs) "/ws/workspace" workdir_set 0 [].

Definition w_yaml : @World demo_yaml := io_world _ _ _ false ["a.md"] [].
Definition w_disk_full : @World demo_disk_full := io_world _ _ _ false ["a.md"] [].
Definition w_no_renderer : @World demo_no_renderer := io_world _ _ _ false ["a.md"; "b.md"] [].
Definition w_orphan : @World demo := demo_world _ _ _ ["a.md"] ["c.md"].
Definition demo_plain : Collaborators :=
  demo_io "json" (fun _ _ _ => None) (fun _ _ => None).
Definition w_pinned : @World demo_plain := io_world _ _ _ true ["a.md"] [].

Definition update_pinned :=
  @_update_system_design demo_plain "a.md" (@prds_repo demo_plain)
    (@designs_repo demo_plain) w_pinned.
Definition update_disk_full :=
  @_update_system_design demo_disk_full "a.md" (@prds_repo demo_disk_full)
    (@designs_repo demo_disk_full) w_disk_full.
Definition update_no_renderer :=
  @_update_system_design demo_no_renderer "a.md" (@prds_repo demo_no_renderer)
    (@designs_repo demo_no_renderer) w_no_renderer.
Definition update_a_again :=
  @_update_system_design demo "a.md" (@prds_repo demo) (@designs_repo demo) update_a.2.

(** * Properties *)

(** ** Strings *)

Lemma append_cons c s t : String c s +:+ t = String c (s +:+ t).
Proof. reflexivity. Qed.

Lemma append_nil_l t : "" +:+ t = t.
Proof. reflexivity. Qed.

Lemma append_assoc s t u : (s +:+ t) +:+ u = s +:+ (t +:+ u).
Proof. induction s as [|c s IH]; [done|]. by rewrite !append_cons, IH. Qed.

Lemma append_length s t : String.length (s +:+ t) = String.length s + String.length t.
Proof. induction s as [|c s IH]; [done|]. rewrite append_cons. simpl. by rewrite IH. Qed.

(** ** The JSON codec: decoding undoes encoding *)

Lemma scanstring_escape_char c s :
  scanstring (escape_char c +:+ s) = prepend c (scanstring s).
Proof. destruct c as [[] [] [] [] [] [] [] []]; reflexivity. Qed.

Lemma scanstring_escape s rest :
  scanstring (escape s +:+ String dquote rest) = Some (s, rest).
Proof.
  induction s as [|c s IH]; [done|].
  cbn [escape]. by rewrite append_assoc, scanstring_escape_char, IH.
Qed.

Lemma scanstring_quote s rest :
  scanstring (escape s +:+ String dquote EmptyString +:+ rest) = Some (s, rest).
Proof. by rewrite append_cons, append_nil_l, scanstring_escape. Qed.

Lemma json_dumps_head v :
  exists c s, json_dumps v = String c s /\ json_ws c = false
              /\ Ascii.eqb c "]" = false /\ Ascii.eqb c "}" = false.
Proof. destruct v; eexists _, _; (split; [reflexivity|done]). Qed.

Lemma skip_ws_dumps v r : skip_ws (json_dumps v +:+ r) = json_dumps v +:+ r.
Proof.
  destruct (json_dumps_head v) as (c & s & -> & Hws & _).
  rewrite append_cons. unfold skip_ws. simpl. by rewrite Hws.
Qed.

Lemma expect_close_dumps v r :
  expect "]" (json_dumps v +:+ r) = None /\ expect "}" (json_dumps v +:+ r) = None.
Proof.
  destruct (json_dumps_head v) as (c & s & -> & _ & H1 & H2).
  rewrite append_cons. simpl. by rewrite H1, H2.
Qed.

Lemma parse_value_str fuel r :
  parse_value (S fuel) (String dquote r)
  = match scanstring r with Some (str, r') => Some (JStr str, r') | None => None end.
Proof. reflexivity. Qed.

Lemma parse_value_arr fuel r :
  parse_value (S fuel) (String "[" r)
  = match expect "]" (skip_ws r) with
    | Some r' => Some (JArr [], r')
    | None => match parse_elements fuel (skip_ws r) with
              | Some (l, r') => Some (JArr l, r')
              | None => None
              end
    end.
Proof. reflexivity. Qed.

Lemma parse_value_obj fuel r :
  parse_value (S fuel) (String "{" r)
  = match expect "}" (skip_ws r) with
    | Some r' => Some (JObj [], r')
    | None => match parse_members fuel (skip_ws r) with
              | Some (l, r') => Some (JObj (dict_of_pairs l), r')
              | None => None
              end
    end.
Proof. reflexivity. Qed.

Lemma parse_elements_S fuel s :
  parse_elements (S fuel) s
  = match parse_value fuel s with
    | None => None
    | Some (v, r) =>
        match expect "," (skip_ws r) with
        | Some r' => match parse_elements fuel (skip_ws r') with
                     | Some (l, r'') => Some (v :: l, r'')
                     | None => None
                     end
        | None => match expect "]" (skip_ws r) with
                  | Some r' => Some ([v], r')
                  | None => None
                  end
        end
    end.
Proof. reflexivity. Qed.

Lemma parse_members_S fuel r :
  parse_members (S fuel) (String dquote r)
  = match scanstring r with
    | None => None
    | Some (k, r1) =>
        match expect ":" (skip_ws r1) with
        | None => None
        | Some r2 =>
            match parse_value fuel (skip_ws r2) with
            | None => None
            | Some (v, r3) =>
                match expect "," (skip_ws r3) with
                | Some r4 => match parse_members fuel (skip_ws r4) with
                             | Some (l, r5) => Some ((k, v) :: l, r5)
                             | None => None
                             end
                | None => match expect "}" (skip_ws r3) with
                          | Some r4 => Some ([(k, v)], r4)
                          | None => None
                          end
                end
            end
        end
    end.
Proof. reflexivity. Qed.

Lemma concat_cons2 sep x y (l : list string) :
  String.concat sep (x :: y :: l) = x +:+ sep +:+ String.concat sep (y :: l).
Proof. reflexivity. Qed.

Lemma jsize_pos v : 1 <= jsize v.
Proof. destruct v; simpl; lia. Qed.

Lemma dict_set_fresh {V} (d : pydict V) k v :
  k ∉ d.*1 -> dict_set d k v = d ++ [(k, v)].
Proof.
  induction d as [|[k' v'] d IH]; intros Hk; [done|].
  simpl in *. apply not_elem_of_cons in Hk as [Hne Hk].
  destruct (String.eqb_spec k' k) as [->|_]; [done|]. by rewrite IH.
Qed.

Lemma dict_of_pairs_acc {V} (l acc : pydict V) :
  NoDup (acc.*1 ++ l.*1) ->
  fold_left (fun d kv => dict_set d kv.1 kv.2) l acc = acc ++ l.
Proof.
  revert acc. induction l as [|[k v] l IH]; intros acc Hnd; simpl.
  { by rewrite app_nil_r. }
  rewrite dict_set_fresh.
  - rewrite IH; [by rewrite <- app_assoc|].
    rewrite fmap_app. simpl. by rewrite <- app_assoc.
  - simpl in Hnd. apply NoDup_app in Hnd as (_ & Hd & _).
    intros Hin. apply (Hd k Hin). left.
Qed.

Lemma dict_of_pairs_nodup {V} (l : pydict V) : NoDup l.*1 -> dict_of_pairs l = l.
Proof. intros H. unfold dict_of_pairs. by rewrite dict_of_pairs_acc. Qed.

(** Enough fuel decodes the encoding of a value, of a non-empty element
    list up to its closing bracket, and of a non-empty member list up to its
    closing brace, whatever text follows. *)
Lemma parse_dumps_fuel fuel :
  (forall v rest, jsize v <= fuel -> json_wf v = true ->
     parse_value fuel (json_dumps v +:+ rest) = Some (v, rest))
  /\ (forall x l rest,
        list_sum (map (fun x => S (jsize x)) (x :: l)) <= fuel ->
        forallb json_wf (x :: l) = true ->
        parse_elements fuel
          (String.concat ", " (map json_dumps (x :: l)) +:+ String "]" rest)
        = Some (x :: l, rest))
  /\ (forall kv l rest,
        list_sum (map (fun kv => S (jsize kv.2)) (kv :: l)) <= fuel ->
        forallb (fun kv => json_wf kv.2) (kv :: l) = true ->
        parse_members fuel
          (String.concat ", " (map member_text (kv :: l)) +:+ String "}" rest)
        = Some (kv :: l, rest)).
Proof.
  induction fuel as [|fuel (IHv & IHe & IHm)].
  { split; [|split].
    - intros v ? H. pose proof (jsize_pos v). lia.
    - intros x l ? H. simpl in H. lia.
    - intros x l ? H. simpl in H. lia. }
  assert (Hskip : forall x (l : list json) r,
            skip_ws (String.concat ", " (map json_dumps (x :: l)) +:+ r)
            = String.concat ", " (map json_dumps (x :: l)) +:+ r
            /\ expect "]" (String.concat ", " (map json_dumps (x :: l)) +:+ r) = None).
  { intros x [|y l] r; simpl map.
    - cbn [String.concat]. split; [apply skip_ws_dumps|apply expect_close_dumps].
    - rewrite concat_cons2, append_assoc.
      split; [apply skip_ws_dumps|apply expect_close_dumps]. }
  split; [|split].
  - intros [s|l|l] rest Hsz Hwf.
    + cbn [json_dumps]. unfold quote. rewrite append_cons, parse_value_str.
      by rewrite append_assoc, scanstring_quote.
    + destruct l as [|x l]; [reflexivity|].
      cbn [json_dumps]. rewrite !append_assoc, !append_cons, !append_nil_l.
      rewrite parse_value_arr.
      destruct (Hskip x l (String "]" rest)) as [-> ->].
      rewrite IHe; [done| |done].
      simpl in Hsz |- *. lia.
    + destruct l as [|kv l]; [reflexivity|].
      cbn [json_dumps]. rewrite !append_assoc, !append_cons, !append_nil_l.
      rewrite parse_value_obj.
      change (map (fun kv0 => quote kv0.1 +:+ ": " +:+ json_dumps kv0.2) (kv :: l))
        with (map member_text (kv :: l)).
      cbn [json_wf] in Hwf. apply andb_true_iff in Hwf as [Hnd Hwf].
      apply bool_decide_eq_true in Hnd.
      assert (Hhead : exists r, String.concat ", " (map member_text (kv :: l))
                                +:+ String "}" rest = String dquote r).
      { destruct l; simpl map; [cbn [String.concat]|rewrite concat_cons2];
          unfold member_text at 1, quote; rewrite append_cons; eauto. }
      destruct Hhead as [r Hr].
      assert (Hsk : skip_ws (String dquote r) = String dquote r) by done.
      rewrite Hr, Hsk. cbn [expect]. 
      change (Ascii.eqb dquote "}") with false. cbv iota.
      rewrite <- Hr. rewrite IHm; [|simpl in Hsz |- *; lia|done].
      by rewrite dict_of_pairs_nodup.
  - intros x l rest Hsz Hwf.
    rewrite parse_elements_S.
    cbn [forallb] in Hwf. apply andb_true_iff in Hwf as [Hx Hl].
    simpl in Hsz.
    destruct l as [|y l].
    + simpl map. cbn [String.concat].
      rewrite IHv; [|simpl in Hsz |- *; lia|done]. reflexivity.
    + simpl map. rewrite concat_cons2, !append_assoc.
      rewrite IHv; [|simpl in Hsz |- *; lia|done].
      rewrite !append_cons, append_nil_l.
      change (skip_ws (String "," (String " " ?r))) with (String "," (String " " r)).
      cbn [expect]. change (Ascii.eqb "," ",") with true. cbv iota.
      change (skip_ws (String " " ?r)) with (skip_ws r).
      change (json_dumps y :: map json_dumps l) with (map json_dumps (y :: l)).
      destruct (Hskip y l (String "]" rest)) as [-> _].
      rewrite IHe; [done|simpl in Hsz |- *; lia|done].
  - intros [k v] l rest Hsz Hwf.
    cbn [forallb] in Hwf. apply andb_true_iff in Hwf as [Hx Hl].
    simpl in Hsz. simpl in Hx, Hsz.
    assert (Hone : forall r,
              parse_members (S fuel) (member_text (k, v) +:+ r)
              = match expect "," (skip_ws r) with
                | Some r4 => match parse_members fuel (skip_ws r4) with
                             | Some (l, r5) => Some ((k, v) :: l, r5)
                             | None => None
                             end
                | None => match expect "}" (skip_ws r) with
                          | Some r4 => Some ([(k, v)], r4)
                          | None => None
                          end
                end).
    { intros r. unfold member_text, quote. simpl fst. simpl snd.
      rewrite !append_assoc, append_cons, parse_members_S.
      rewrite !append_assoc, scanstring_quote.
      rewrite !append_cons, append_nil_l.
      change (skip_ws (String ":" ?r)) with (String ":" r).
      cbn [expect]. change (Ascii.eqb ":" ":") with true. cbv iota.
      change (skip_ws (String " " ?r)) with (skip_ws r).
      rewrite skip_ws_dumps, IHv; [done|simpl in Hsz |- *; lia|done]. }
    destruct l as [|kv' l].
    + simpl map. cbn [String.concat]. rewrite Hone. reflexivity.
    + simpl map. rewrite concat_cons2, !append_assoc, Hone.
      rewrite !append_cons, append_nil_l.
      change (skip_ws (String "," (String " " ?r))) with (String "," (String " " r)).
      cbn [expect]. change (Ascii.eqb "," ",") with true. cbv iota.
      change (skip_ws (String " " ?r)) with (skip_ws r).
      change (member_text kv' :: map member_text l) with (map member_text (kv' :: l)).
      assert (Hsk : forall r, skip_ws (String.concat ", " (map member_text (kv' :: l)) +:+ r)
                              = String.concat ", " (map member_text (kv' :: l)) +:+ r).
      { intros r. destruct l; simpl map; [cbn [String.concat]|rewrite concat_cons2];
          unfold member_text at 1, quote; by rewrite append_cons. }
      rewrite Hsk, IHm; [done|simpl in Hsz |- *; lia|done].
Qed.

Lemma append_nil_r s : s +:+ "" = s.
Proof. induction s as [|c s IH]; [done|]. by rewrite append_cons, IH. Qed.

Lemma list_sum_elem {A} (f : A -> nat) (l : list A) x :
  x ∈ l -> f x <= list_sum (map f l).
Proof.
  induction 1 as [x l|x y l _ IH]; simpl; [lia|]. lia.
Qed.

Lemma concat_length_bound {A} (sz : A -> nat) (txt : A -> string) (l : list A) :
  Forall (fun x => sz x <= String.length (txt x)) l -> l <> [] ->
  list_sum (map (fun x => S (sz x)) l)
  <= String.length (String.concat ", " (map txt l)) + 1.
Proof.
  induction 1 as [|x l Hx Hl IH]; intros Hne; [done|].
  destruct l as [|y l].
  - simpl. lia.
  - simpl map in *. rewrite concat_cons2, !append_length.
    change (list_sum (?a :: ?l)) with (a + list_sum l).
    assert (list_sum (S (sz y) :: map (fun x => S (sz x)) l)
            <= String.length (String.concat ", " (txt y :: map txt l)) + 1)
      by (by apply IH).
    change (String.length ", ") with 2. lia.
Qed.

Lemma jsize_le_length n v :
  jsize v <= n -> jsize v <= String.length (json_dumps v).
Proof.
  revert v. induction n as [|n IH]; intros v Hn.
  { pose proof (jsize_pos v). lia. }
  destruct v as [s|l|l].
  - simpl. lia.
  - destruct l as [|x l]; [simpl; lia|].
    cbn [jsize json_dumps] in *.
    rewrite append_cons, append_nil_l. cbn [String.length].
    rewrite append_length. change (String.length "]") with 1.
    assert (Hall : Forall (fun x => jsize x <= String.length (json_dumps x)) (x :: l)).
    { apply Forall_forall. intros y Hy. apply IH.
      pose proof (list_sum_elem (fun x => S (jsize x)) (x :: l) y Hy) as Hs.
      cbv beta in Hs. lia. }
    pose proof (concat_length_bound jsize json_dumps (x :: l) Hall ltac:(done)). lia.
  - destruct l as [|x l]; [simpl; lia|].
    cbn [jsize json_dumps] in *.
    rewrite append_cons, append_nil_l. cbn [String.length].
    rewrite append_length. change (String.length "}") with 1.
    assert (Hall : Forall (fun kv : string * json =>
                             jsize kv.2 <= String.length (member_text kv)) (x :: l)).
    { apply Forall_forall. intros y Hy. unfold member_text. rewrite !append_length.
      assert (jsize y.2 <= String.length (json_dumps y.2)); [|lia].
      apply IH.
      pose proof (list_sum_elem (fun kv : string * json => S (jsize kv.2)) (x :: l) y Hy)
        as Hs.
      cbv beta in Hs. lia. }
    pose proof (concat_length_bound (fun kv : string * json => jsize kv.2)
                  member_text (x :: l) Hall ltac:(done)) as Hb.
    cbv beta in Hb.
    change (map (fun kv : string * json => quote kv.1 +:+ ": " +:+ json_dumps kv.2) (x :: l))
      with (map member_text (x :: l)).
    lia.
Qed.

(** [json.loads (json.dumps v)] is [v]. *)
Lemma json_loads_dumps v :
  json_wf v = true -> json_loads (json_dumps v) = Some v.
Proof.
  intros Hwf. unfold json_loads.
  rewrite <- (append_nil_r (json_dumps v)) at 2.
  rewrite skip_ws_dumps.
  destruct (parse_dumps_fuel (S (String.length (json_dumps v)))) as [Hv _].
  rewrite Hv; [done| |done].
  pose proof (jsize_le_length (jsize v) v). lia.
Qed.

Example json_dumps_example :
  json_dumps (JObj [("File list", JArr [JStr "main.py"; JStr "app.py"]); ("name", JStr "")])
  = "{" +:+ quote "File list" +:+ ": [" +:+ quote "main.py" +:+ ", " +:+ quote "app.py"
        +:+ "], " +:+ quote "name" +:+ ": " +:+ quote "" +:+ "}".
Proof. reflexivity. Qed.

Example json_loads_example :
  json_loads ("  {" +:+ String dquote ("a\nb" +:+ String dquote (" :[ "
              +:+ String dquote ("\u0041" +:+ String dquote (" ," +:+ quote ""
              +:+ "] } ")))))
  = Some (JObj [(String "a" (String (ascii_of_nat 10) "b"), JArr [JStr "A"; JStr ""])]).
Proof. vm_compute. reflexivity. Qed.

Example json_loads_trailing_comma :
  json_loads ("[" +:+ quote "a" +:+ ",]") = None.
Proof. vm_compute. reflexivity. Qed.

Example json_loads_repeated_key :
  json_loads ("{" +:+ quote "k" +:+ ": " +:+ quote "1" +:+ ", " +:+ quote "k" +:+ ": "
              +:+ quote "2" +:+ "}")
  = Some (JObj [("k", JStr "2")]).
Proof. vm_compute. reflexivity. Qed.

(** ** The monad *)

Section Proofs.
Context `{C : Collaborators}.

Local Arguments json_dumps : simpl never.

Lemma bind_inv {A B} (m : M A) (k : A -> M B) w r w' :
  bind m k w = (r, w') ->
  (exists e, m w = (Raise e, w') /\ r = Raise e)
  \/ (exists a w1, m w = (Ok a, w1) /\ k a w1 = (r, w')).
Proof.
  unfold bind. destruct (m w) as [[a|e] w1]; intros H.
  - right. eauto.
  - left. exists e. by simplify_eq.
Qed.

Lemma bind_ok_inv {A B} (m : M A) (k : A -> M B) w b w' :
  bind m k w = (Ok b, w') ->
  exists a w1, m w = (Ok a, w1) /\ k a w1 = (Ok b, w').
Proof.
  intros [(e & _ & ?)|H]%bind_inv; [done|exact H].
Qed.

Lemma bind_ok {A B} (m : M A) (k : A -> M B) w a w1 :
  m w = (Ok a, w1) -> bind m k w = k a w1.
Proof. unfold bind. by intros ->. Qed.

Lemma bind_raise {A B} (m : M A) (k : A -> M B) w e w1 :
  m w = (Raise e, w1) -> bind m k w = (Raise e, w1).
Proof. unfold bind. by intros ->. Qed.

Lemma lift_ok_inv {A} (r : result A) w a w' :
  lift r w = (Ok a, w') -> r = Ok a /\ w' = w.
Proof. unfold lift. by intros [= -> ->]. Qed.

Lemma check_ok_inv (o : option exn) w u w' :
  check o w = (Ok u, w') -> o = None /\ w' = w.
Proof. destruct o; unfold check, lift, ret; by intros [= <-]. Qed.

(** ** The field schema *)

Lemma conforms_list_inv l :
  forallb (fun x => match x with JStr _ => true | _ => false end) l = true ->
  exists fl, l = map JStr fl.
Proof.
  induction l as [|[s| |] l IH]; simpl; intros H; try done.
  - by exists [].
  - destruct (IH H) as [fl ->]. by exists (s :: fl).
Qed.

Lemma conforms_str_inv v : conforms TStr v = true -> exists s, v = JStr s.
Proof. destruct v; simpl; intros H; try done. eauto. Qed.

Lemma conforms_list_str_inv v :
  conforms TListStr v = true -> exists fl, v = JArr (map JStr fl).
Proof.
  destruct v as [|l|]; simpl; intros H; try done.
  destruct (conforms_list_inv l H) as [fl ->]. eauto.
Qed.

(** A validated model instance has exactly the six fields, in the order of
    the mapping, each with a value of its type. *)
Lemma create_model_six parsed_data ic :
  create_model OUTPUT_MAPPING parsed_data = Ok ic ->
  exists approach name file_list classes flow unclear,
    ic = six_fields approach name file_list classes flow unclear.
Proof.
  unfold OUTPUT_MAPPING, create_model.
  repeat match goal with
         | |- context [dict_get parsed_data ?k] =>
             destruct (dict_get parsed_data k) as [?v|]; [|done]
         | |- context [conforms ?t ?v] =>
             let H := fresh "Hc" in
             destruct (conforms t v) eqn:H; [|done];
             first [apply conforms_str_inv in H as [? ->]
                   |apply conforms_list_str_inv in H as [? ->]]
         end.
  intros [= <-]. by repeat eexists.
Qed.

Lemma aask_v1_result_six call prompt format out :
  aask_v1_result call prompt OUTPUT_MAPPING format = Ok out ->
  exists approach name file_list classes flow unclear,
    instruct_content out = six_fields approach name file_list classes flow unclear.
Proof.
  unfold aask_v1_result. intros H.
  destruct (llm_aask call prompt) as [raw|]; [|done].
  destruct (parse_output format raw) as [pd|]; [|done].
  destruct (create_model OUTPUT_MAPPING pd) as [ic|] eqn:Hic; [|done].
  simplify_eq. simpl. by apply create_model_six in Hic.
Qed.

Lemma fix_package_name_six raw approach name file_list classes flow unclear :
  fix_package_name
    (mkActionOutput raw (six_fields approach name file_list classes flow unclear))
  = Ok (mkActionOutput raw
          (six_fields approach (strip_quotes name) file_list classes flow unclear)).
Proof. reflexivity. Qed.

Lemma json_wf_six approach name file_list classes flow unclear :
  json_wf (JObj (six_fields approach name file_list classes flow unclear)) = true.
Proof.
  cbn [json_wf six_fields forallb snd].
  apply andb_true_iff. split; [by vm_compute|].
  rewrite !andb_true_r. induction file_list as [|s l IH]; [done|]. exact IH.
Qed.

Lemma loads_six approach name file_list classes flow unclear :
  loads (json_dumps (JObj (six_fields approach name file_list classes flow unclear)))
  = Ok (JObj (six_fields approach name file_list classes flow unclear)).
Proof. unfold loads. by rewrite json_loads_dumps by apply json_wf_six. Qed.

(** ** Successful processing of one file *)

Ltac inv_ok :=
  repeat match goal with
         | H : bind _ _ _ = (Ok _, _) |- _ =>
             let H1 := fresh "Hstep" in
             apply bind_ok_inv in H as (? & ? & H1 & H)
         | H : lift _ _ = (Ok _, _) |- _ => apply lift_ok_inv in H as [? ?]; subst
         | H : check _ _ = (Ok _, _) |- _ => apply check_ok_inv in H as [? ?]; subst
         | H : ret _ _ = (Ok _, _) |- _ => unfold ret in H; simplify_eq
         | H : emit _ _ = (Ok _, _) |- _ => unfold emit in H; simplify_eq
         | H : new_file_repository _ _ = (Ok _, _) |- _ =>
             unfold new_file_repository, ret in H; simplify_eq
         | H : git_workdir _ = (Ok _, _) |- _ => unfold git_workdir in H; simplify_eq
         | H : repo_get _ _ _ = (Ok _, _) |- _ => unfold repo_get in H; simplify_eq
         | H : _aask_v1 _ _ _ _ _ = (Ok _, _) |- _ => unfold _aask_v1 in H; simplify_eq
         end.

Lemma save_mermaid_file_ok data pathname w u w' :
  _save_mermaid_file data pathname w = (Ok u, w') ->
  mkdir_io (path_parent pathname) = None
  /\ mermaid_to_file data pathname = None
  /\ w' = mkWorld (files w) (changed w) (workdir w) (WORKDIR w) (llm_calls w)
                  (trace w ++ [EvMkdir (path_parent pathname); EvMermaid data pathname]).
Proof.
  unfold _save_mermaid_file. intros H. inv_ok. simpl.
  by rewrite <- app_assoc.
Qed.

Lemma save_data_api_design_ok doc w u w' approach name file_list classes flow unclear :
  content doc = json_dumps (JObj (six_fields approach name file_list classes flow unclear)) ->
  _save_data_api_design doc w = (Ok u, w') ->
  let evs := diagram_events (workdir w) DATA_API_DESIGN_FILE_REPO (filename doc) classes
               "Save class view to " in
  w' = mkWorld (files w) (changed w) (workdir w) (WORKDIR w) (llm_calls w) (trace w ++ evs)
  /\ quiet evs.
Proof.
  intros Hc H. unfold _save_data_api_design in H.
  rewrite Hc, loads_six in H.
  apply bind_ok_inv in H as (m & w1 & [Hm ->]%lift_ok_inv & H).
  injection Hm as <-.
  apply bind_ok_inv in H as (field & w1 & [Hf ->]%lift_ok_inv & H).
  injection Hf as <-. cbn [dict_get six_fields String.eqb Ascii.eqb Bool.eqb] in H. unfold diagram_events. cbn [truthy] in H.
  destruct (String.eqb classes ""); cbn [negb] in H.
  - unfold ret in H. simplify_eq. split; [|by constructor].
    rewrite app_nil_r. by destruct w'.
  - inv_ok.
    apply save_mermaid_file_ok in Hstep0 as (Hmk & Hmm & ->). simpl.
    split; [by rewrite <- app_assoc|].
    repeat constructor; done.
Qed.

Lemma save_seq_flow_ok doc w u w' approach name file_list classes flow unclear :
  content doc = json_dumps (JObj (six_fields approach name file_list classes flow unclear)) ->
  _save_seq_flow doc w = (Ok u, w') ->
  let evs := diagram_events (workdir w) SEQ_FLOW_FILE_REPO (filename doc) flow
               "Saving sequence flow to " in
  w' = mkWorld (files w) (changed w) (workdir w) (WORKDIR w) (llm_calls w) (trace w ++ evs)
  /\ quiet evs.
Proof.
  intros Hc H. unfold _save_seq_flow in H.
  rewrite Hc, loads_six in H.
  apply bind_ok_inv in H as (m & w1 & [Hm ->]%lift_ok_inv & H).
  injection Hm as <-.
  apply bind_ok_inv in H as (field & w1 & [Hf ->]%lift_ok_inv & H).
  injection Hf as <-. cbn [dict_get six_fields String.eqb Ascii.eqb Bool.eqb] in H. unfold diagram_events. cbn [truthy] in H.
  destruct (String.eqb flow ""); cbn [negb] in H.
  - unfold ret in H. simplify_eq. split; [|by constructor].
    rewrite app_nil_r. by destruct w'.
  - inv_ok.
    apply save_mermaid_file_ok in Hstep0 as (Hmk & Hmm & ->). simpl.
    split; [by rewrite <- app_assoc|].
    repeat constructor; done.
Qed.

Lemma aask_v1_ok prompt class_name format w out w' :
  _aask_v1 prompt class_name OUTPUT_MAPPING format w = (Ok out, w') ->
  exists approach raw_name file_list classes flow unclear,
    aask_v1_result (llm_calls w) prompt OUTPUT_MAPPING format = Ok out
    /\ instruct_content out = six_fields approach raw_name file_list classes flow unclear
    /\ w' = mkWorld (files w) (changed w) (workdir w) (WORKDIR w) (S (llm_calls w))
                    (trace w ++ [EvAsk (llm_calls w) prompt OUTPUT_MAPPING format])
    /\ verdict (EvAsk (llm_calls w) prompt OUTPUT_MAPPING format) = None.
Proof.
  unfold _aask_v1. intros [= Hres <-].
  destruct (aask_v1_result_six _ _ _ _ Hres) as (a & n & fl & cl & fw & un & Hic).
  exists a, n, fl, cl, fw, un. repeat split; [done..|].
  simpl. by rewrite Hres.
Qed.

Lemma rename_workspace_ok raw approach name file_list classes flow unclear w u w' :
  _rename_workspace
    (inl (mkActionOutput raw (six_fields approach name file_list classes flow unclear))) w
  = (Ok u, w') ->
  w' = mkWorld (files w) (changed w)
               (if WORKDIR w then workdir w
                else match rename_root (workdir w) (JStr name) with
                     | Ok d => d
                     | Raise _ => workdir w
                     end)
               (WORKDIR w) (llm_calls w) (trace w ++ rename_events w name)
  /\ quiet (rename_events w name).
Proof.
  unfold _rename_workspace, rename_events. destruct (WORKDIR w) eqn:HW.
  - intros [= <-]. split; [|by constructor]. rewrite app_nil_r.
    destruct w; simpl in *; by subst.
  - intros H. apply bind_ok_inv in H as (ws & w1 & [Hws ->]%lift_ok_inv & H).
    cbv in Hws. injection Hws as <-.
    unfold git_rename_root in H. simpl in H.
    destruct (rename_root (workdir w) (JStr name)) as [d|e] eqn:Hr; [|done].
    injection H as H. subst w'. rewrite HW. split; [done|].
    repeat constructor. simpl. by rewrite Hr.

Qed.

Lemma new_system_design_ok context format w system_design w' :
  _new_system_design context format w = (Ok system_design, w') ->
  exists pf out approach raw_name file_list classes flow unclear,
    let name := strip_quotes raw_name in
    let prompt := format2 pf.1 context pf.2 in
    let evs := [EvAsk (llm_calls w) prompt OUTPUT_MAPPING format] ++ rename_events w name in
    get_template templates format = Ok pf
    /\ aask_v1_result (llm_calls w) prompt OUTPUT_MAPPING format = Ok out
    /\ instruct_content out = six_fields approach raw_name file_list classes flow unclear
    /\ instruct_content system_design
       = six_fields approach name file_list classes flow unclear
    /\ w' = mkWorld (files w) (changed w)
                    (if WORKDIR w then workdir w
                     else match rename_root (workdir w) (JStr name) with
                          | Ok d => d
                          | Raise _ => workdir w
                          end)
                    (WORKDIR w) (S (llm_calls w)) (trace w ++ evs)
    /\ quiet evs.
Proof.
  unfold _new_system_design. intros H.
  apply bind_ok_inv in H as (pf & w1 & [Hpf ->]%lift_ok_inv & H).
  apply bind_ok_inv in H as (out & w1 & Hask & H).
  apply aask_v1_ok in Hask as (a & n & fl & cl & fw & un & Hres & Hic & -> & Hq).
  apply bind_ok_inv in H as (sd & w1 & [Hfix ->]%lift_ok_inv & H).
  destruct out as [raw ic]. simpl in Hic. subst ic.
  rewrite fix_package_name_six in Hfix. injection Hfix as <-.
  apply bind_ok_inv in H as (u & w1 & Hren & H).
  apply rename_workspace_ok in Hren as [-> Hq2]. unfold ret in H. injection H as <- <-.
  exists pf, (mkActionOutput raw (six_fields a n fl cl fw un)), a, n, fl, cl, fw, un.
  simpl. repeat split; [done..| |].
  - by rewrite <- app_assoc.
  - constructor; done.
Qed.

Lemma merge_ok prd_doc system_design_doc format w doc w' :
  _merge prd_doc system_design_doc format w = (Ok doc, w') ->
  exists prd out approach raw_name file_list classes flow unclear,
    let name := strip_quotes raw_name in
    let prompt := format2 MERGE_PROMPT (content system_design_doc) (content prd) in
    prd_doc = Some prd
    /\ aask_v1_result (llm_calls w) prompt OUTPUT_MAPPING format = Ok out
    /\ instruct_content out = six_fields approach raw_name file_list classes flow unclear
    /\ doc = mkDocument (root_path system_design_doc) (filename system_design_doc)
               (json_dumps (JObj (six_fields approach name file_list classes flow unclear)))
    /\ w' = mkWorld (files w) (changed w) (workdir w) (WORKDIR w) (S (llm_calls w))
                    (trace w ++ [EvAsk (llm_calls w) prompt OUTPUT_MAPPING format])
    /\ verdict (EvAsk (llm_calls w) prompt OUTPUT_MAPPING format) = None.
Proof.
  unfold _merge. intros H.
  apply bind_ok_inv in H as (ctx & w1 & [Hctx ->]%lift_ok_inv & H).
  destruct prd_doc as [prd|]; [|done]. injection Hctx as <-.
  apply bind_ok_inv in H as (out & w1 & Hask & H).
  apply aask_v1_ok in Hask as (a & n & fl & cl & fw & un & Hres & Hic & -> & Hq).
  apply bind_ok_inv in H as (sd & w1 & [Hfix ->]%lift_ok_inv & H).
  destruct out as [raw ic]. simpl in Hic. subst ic.
  rewrite fix_package_name_six in Hfix. injection Hfix as <-.
  unfold ret in H. injection H as <- <-.
  exists prd, (mkActionOutput raw (six_fields a n fl cl fw un)), a, n, fl, cl, fw, un.
  by repeat split.
Qed.

Lemma persist_ok file doc dependency w d w' approach name file_list classes flow unclear :
  content doc = json_dumps (JObj (six_fields approach name file_list classes flow unclear)) ->
  filename doc = file ->
  (let* _ := repo_save designs_repo file (content doc) [dependency] in
   let* _ := _save_data_api_design doc in
   let* _ := _save_seq_flow doc in
   let* _ := _save_pdf doc in
   ret doc) w = (Ok d, w') ->
  let evs := persist_events (workdir w) file doc dependency classes flow in
  d = doc
  /\ w' = mkWorld (<[(SYSTEM_DESIGN_FILE_REPO, file) := content doc]> (files w))
               (changed w) (workdir w) (WORKDIR w) (llm_calls w) (trace w ++ evs)
  /\ quiet evs.
Proof.
  intros Hc Hf H. unfold persist_events.
  apply bind_ok_inv in H as (u1 & w1 & Hsave & H).
  apply bind_ok_inv in H as (u2 & w2 & Hd & H).
  apply bind_ok_inv in H as (u3 & w3 & Hs & H).
  apply bind_ok_inv in H as (u4 & w4 & Hpdf & H).
  unfold ret in H. injection H as Hd' Hw4.
  unfold repo_save, designs_repo in Hsave.
  apply bind_ok_inv in Hsave as (? & wa & Hev & Hsave).
  apply bind_ok_inv in Hsave as (? & wb & [Hio Hwb]%check_ok_inv & Hsave).
  unfold emit in Hev. injection Hev as Hwa. injection Hsave as Hw1.
  eapply save_data_api_design_ok in Hd as [Hw2 Hq1]; [|exact Hc].
  eapply save_seq_flow_ok in Hs as [Hw3 Hq2]; [|exact Hc].
  unfold _save_pdf, repo_save_pdf, new_file_repository in Hpdf.
  apply bind_ok_inv in Hpdf as (? & wc & [= <- Hwc] & Hpdf).
  apply bind_ok_inv in Hpdf as (? & wd & Hev & [Hio2 Hwd]%check_ok_inv).
  unfold emit in Hev. injection Hev as Hwd'.
  subst. simpl in *. split; [done|]. split.
  - by rewrite <- !app_assoc.
  - unfold quiet in *. constructor; [done|].
    rewrite !Forall_app. repeat split; try done.
    repeat constructor; done.
Qed.

Lemma update_ok_inv file w doc w' :
  _update_system_design file prds_repo designs_repo w = (Ok doc, w') ->
  exists prd_text prompt out approach raw_name file_list classes flow unclear,
    let name := strip_quotes raw_name in
    let prd := mkDocument PRDS_FILE_REPO file prd_text in
    let evs :=
      [EvAsk (llm_calls w) prompt OUTPUT_MAPPING prompt_format]
      ++ design_renames w file name
      ++ persist_events (design_root w file name) file doc (root_relative_path prd)
           classes flow in
    files w !! (PRDS_FILE_REPO, file) = Some prd_text
    /\ design_prompt w file prd_text = Ok prompt
    /\ aask_v1_result (llm_calls w) prompt OUTPUT_MAPPING prompt_format = Ok out
    /\ instruct_content out = six_fields approach raw_name file_list classes flow unclear
    /\ doc = mkDocument SYSTEM_DESIGN_FILE_REPO file
               (json_dumps (JObj (six_fields approach name file_list classes flow unclear)))
    /\ w' = mkWorld (<[(SYSTEM_DESIGN_FILE_REPO, file) := content doc]> (files w))
                    (changed w) (design_root w file name) (WORKDIR w) (S (llm_calls w))
                    (trace w ++ evs)
    /\ quiet evs.
Proof.
  unfold _update_system_design, prds_repo, designs_repo. intros H.
  apply bind_ok_inv in H as (prd & w1 & Hprd & H).
  apply bind_ok_inv in H as (old & w2 & Hold & H).
  unfold repo_get in Hprd, Hold. simpl in Hprd, Hold.
  injection Hprd as <- <-. injection Hold as <- <-.
  apply bind_ok_inv in H as (doc0 & w3 & Hdoc & H).
  apply bind_ok_inv in H as (dep & w4 & [Hdep ->]%lift_ok_inv & H).
  destruct (files w !! (PRDS_FILE_REPO, file)) as [prd_text|] eqn:Hp; [|done].
  simpl in Hdep. injection Hdep as <-.
  unfold design_prompt, design_renames, design_root.
  destruct (files w !! (SYSTEM_DESIGN_FILE_REPO, file)) as [old|] eqn:Ho.
  - apply merge_ok in Hdoc
      as (prd & out & a & n & fl & cl & fw & un & [= <-] & Hres & Hic & -> & -> & Hq).
    eapply (persist_ok file
              (mkDocument SYSTEM_DESIGN_FILE_REPO file
                 (json_dumps (JObj (six_fields a (strip_quotes n) fl cl fw un)))))
      in H as (-> & -> & Hq2); [|reflexivity..].
    exists prd_text, (format2 MERGE_PROMPT old prd_text), out, a, n, fl, cl, fw, un.
    simpl. repeat split; [done..| |].
    + by rewrite <- app_assoc.
    + constructor; done.
  - apply bind_ok_inv in Hdoc as (ctx & w1 & [[= <-] ->]%lift_ok_inv & Hdoc).
    apply bind_ok_inv in Hdoc as (sd & w1 & Hnew & Hdoc).
    apply new_system_design_ok in Hnew
      as (pf & out & a & n & fl & cl & fw & un & Hpf & Hres & Hic & Hsd & -> & Hq).
    unfold ret in Hdoc. injection Hdoc as <- <-. rewrite Hsd in H.
    eapply (persist_ok file
              (mkDocument SYSTEM_DESIGN_FILE_REPO file
                 (json_dumps (JObj (six_fields a (strip_quotes n) fl cl fw un)))))
      in H as (-> & -> & Hq2); [|reflexivity..].
    exists prd_text, (format2 pf.1 prd_text pf.2), out, a, n, fl, cl, fw, un.
    simpl. rewrite Hpf. repeat split; [done..| |].
    + by rewrite <- !app_assoc.
    + unfold quiet in *. apply Forall_cons in Hq as [Hq Hq'].
      apply Forall_cons. split; [done|]. apply Forall_app. by split.
Qed.

(** ** Any outcome: failing calls, saves and the frame *)

Lemma clean_nil {A} (r : result A) : clean r [].
Proof. intros p ev q e H. by destruct p. Qed.

Lemma clean_raise {A B} e evs : clean (@Raise A e) evs -> clean (@Raise B e) evs.
Proof.
  intros H p ev q e' Heq Hv. destruct (H p ev q e' Heq Hv) as [[= <-] ->]. done.
Qed.

Lemma clean_app {A B} (a : A) (r : result B) evs1 evs2 :
  clean (Ok a) evs1 -> clean r evs2 -> clean r (evs1 ++ evs2).
Proof.
  intros H1 H2 p ev q e Heq Hv.
  apply app_eq_inv in Heq as [(k & -> & Hk)|(k & -> & Hk)].
  - destruct k as [|x k]; simpl in Hk.
    + subst evs2. by apply (H2 [] ev q e).
    + injection Hk as <- ->.
      by destruct (H1 p ev k e eq_refl Hv).
  - destruct (H2 k ev q e Hk Hv) as [-> ->]. done.
Qed.

Lemma clean_single {A} (r : result A) ev :
  (forall e, verdict ev = Some e -> r = Raise e) -> clean r [ev].
Proof.
  intros H p ev' q e Heq Hv.
  destruct p as [|x p]; simpl in Heq.
  - injection Heq as <- <-. split; [by apply H|done].
  - injection Heq as _ Heq. by destruct p.
Qed.

Lemma frame_refl file text w : frame file text w w.
Proof. unfold frame. repeat split; auto. Qed.

Lemma frame_same_files file text w w' :
  files w' = files w -> changed w' = changed w -> WORKDIR w' = WORKDIR w ->
  llm_calls w <= llm_calls w' -> frame file text w w'.
Proof. intros Hf ???. unfold frame. rewrite Hf. split_and!; auto. Qed.

Lemma frame_trans file text w1 w2 w3 :
  frame file text w1 w2 -> frame file text w2 w3 -> frame file text w1 w3.
Proof.
  intros (Hc1 & HW1 & Hl1 & Hf1 & Hs1) (Hc2 & HW2 & Hl2 & Hf2 & Hs2).
  unfold frame. repeat split.
  - congruence.
  - congruence.
  - lia.
  - intros k Hk. rewrite Hf2, Hf1; done.
  - destruct Hs2 as [-> | ->]; auto.
Qed.

Lemma sound_ret file text {A} (a : A) : sound file text (ret a).
Proof.
  intros w r w' [= <- <-]. exists []. rewrite app_nil_r.
  split_and!; [done|apply clean_nil|constructor|apply frame_refl].
Qed.

Lemma sound_lift file text {A} (r : result A) : sound file text (lift r).
Proof.
  intros w r' w' [= <- <-]. exists []. rewrite app_nil_r.
  split_and!; [done|apply clean_nil|constructor|apply frame_refl].
Qed.

Lemma sound_bind file text {A B} (m : M A) (k : A -> M B) :
  sound file text m -> (forall a, sound file text (k a)) -> sound file text (bind m k).
Proof.
  intros Hm Hk w r w' [(e & H & ->)|(a & w1 & H & H')]%bind_inv.
  - destruct (Hm _ _ _ H) as (evs & Ht & Hc & Hs & Hf).
    exists evs. split_and!; [done|by apply (@clean_raise A B)|done|done].
  - destruct (Hm _ _ _ H) as (evs1 & Ht1 & Hc1 & Hs1 & Hf1).
    destruct (Hk a _ _ _ H') as (evs2 & Ht2 & Hc2 & Hs2 & Hf2).
    exists (evs1 ++ evs2). split_and!.
    + by rewrite Ht2, Ht1, app_assoc.
    + by eapply clean_app.
    + by apply Forall_app.
    + by eapply frame_trans.
Qed.

(** A collaborator call: the event, then its verdict. *)
Lemma sound_call file text {A} ev (k : M A) :
  save_only file text ev -> sound file text k ->
  sound file text (let* _ := emit ev in let* _ := check (verdict ev) in k).
Proof.
  intros Hev Hk w r w' H. unfold bind, emit in H. cbn [check] in H.
  destruct (verdict ev) as [e|] eqn:Hv; cbn [check lift ret] in H.
  - injection H as <- <-. exists [ev]. split_and!.
    + done.
    + apply clean_single. intros e'. rewrite Hv. by intros [= ->].
    + by repeat constructor.
    + by apply frame_same_files.
  - destruct (Hk _ _ _ H) as (evs & Ht & Hc & Hs & Hf).
    exists ([ev] ++ evs). split_and!.
    + rewrite Ht. simpl. by rewrite <- app_assoc.
    + apply (clean_app tt); [|done]. apply clean_single. intros e. by rewrite Hv.
    + by constructor.
    + eapply frame_trans; [|exact Hf]. by apply frame_same_files.
Qed.

Lemma sound_call_last file text ev :
  save_only file text ev ->
  sound file text (let* _ := emit ev in check (verdict ev)).
Proof.
  intros Hev w r w' H. unfold bind, emit in H.
  exists [ev]. destruct (verdict ev) as [e|] eqn:Hv; cbn [check lift ret] in H;
    injection H as <- <-; (split_and!; [done| |by repeat constructor
                                         |by apply frame_same_files]).
  - apply clean_single. intros e'. rewrite Hv. by intros [= ->].
  - apply clean_single. intros e'. by rewrite Hv.
Qed.

Lemma sound_read file text {A} (f : World -> A) :
  sound file text (fun w => (Ok (f w), w)).
Proof.
  intros w r w' [= <- <-]. exists []. rewrite app_nil_r.
  split_and!; [done|apply clean_nil|constructor|apply frame_refl].
Qed.

Lemma sound_aask_v1 file text prompt class_name mapping format :
  sound file text (_aask_v1 prompt class_name mapping format).
Proof.
  intros w r w' [= <- <-]. eexists [_]. split_and!.
  - done.
  - apply clean_single. intros e. simpl.
    by destruct (aask_v1_result _ _ _ _); intros [= ->].
  - by repeat constructor.
  - apply frame_same_files; simpl; auto.
Qed.

Lemma sound_git_rename_root file text ws_name :
  sound file text (git_rename_root ws_name).
Proof.
  intros w r w' H. unfold git_rename_root in H. simpl in H.
  exists [EvRenameRoot (workdir w) ws_name].
  destruct (rename_root (workdir w) ws_name) as [d|e] eqn:Hr;
    injection H as <- <-; (split_and!; [done| |by repeat constructor
                                         |by apply frame_same_files]).
  - apply clean_single. intros e. simpl. by rewrite Hr.
  - apply clean_single. intros e'. simpl. rewrite Hr. by intros [= ->].
Qed.

Lemma sound_rename_workspace file text system_design :
  sound file text (_rename_workspace system_design).
Proof.
  intros w r w' H. unfold _rename_workspace in H.
  destruct (WORKDIR w).
  - by apply (sound_ret file text tt).
  - revert H. apply sound_bind; [apply sound_lift|].
    intros a. apply sound_git_rename_root.
Qed.

Lemma sound_new_system_design file text context format :
  sound file text (_new_system_design context format).
Proof.
  unfold _new_system_design.
  apply sound_bind; [apply sound_lift|]. intros pf.
  apply sound_bind; [apply sound_aask_v1|]. intros out.
  apply sound_bind; [apply sound_lift|]. intros sd.
  apply sound_bind; [apply sound_rename_workspace|]. intros _.
  apply sound_ret.
Qed.

Lemma sound_merge file text prd_doc system_design_doc format :
  sound file text (_merge prd_doc system_design_doc format).
Proof.
  unfold _merge.
  apply sound_bind; [apply sound_lift|]. intros ctx.
  apply sound_bind; [apply sound_aask_v1|]. intros out.
  apply sound_bind; [apply sound_lift|]. intros sd.
  apply sound_ret.
Qed.

Lemma sound_save_mermaid_file file text data root repo :
  sound file text
    (_save_mermaid_file data (path_div (path_div root repo) (with_suffix file ""))).
Proof.
  unfold _save_mermaid_file.
  apply (sound_call file text (EvMkdir _)); [simpl; eauto|].
  apply (sound_call_last file text (EvMermaid data _)). simpl. eauto.
Qed.

Lemma sound_emit_info file text msg : sound file text (emit (EvInfo msg)).
Proof.
  intros w r w' [= <- <-]. exists [EvInfo msg]. split_and!.
  - done.
  - by apply clean_single.
  - by repeat constructor.
  - by apply frame_same_files.
Qed.

Lemma sound_save_data_api_design file text design_doc :
  filename design_doc = file ->
  sound file text (_save_data_api_design design_doc).
Proof.
  intros <-. unfold _save_data_api_design.
  apply sound_bind; [apply sound_lift|]. intros m.
  apply sound_bind; [apply sound_lift|]. intros [data|]; [|apply sound_ret].
  destruct (truthy (Some data)); [|apply sound_ret].
  apply sound_bind; [apply (sound_read _ text workdir)|]. intros root.
  apply sound_bind; [apply sound_save_mermaid_file|]. intros _.
  apply sound_emit_info.
Qed.

Lemma sound_save_seq_flow file text design_doc :
  filename design_doc = file ->
  sound file text (_save_seq_flow design_doc).
Proof.
  intros <-. unfold _save_seq_flow.
  apply sound_bind; [apply sound_lift|]. intros m.
  apply sound_bind; [apply sound_lift|]. intros [data|]; [|apply sound_ret].
  destruct (truthy (Some data)); [|apply sound_ret].
  apply sound_bind; [apply (sound_read _ text workdir)|]. intros root.
  apply sound_bind; [apply sound_save_mermaid_file|]. intros _.
  apply sound_emit_info.
Qed.

Lemma sound_save_pdf file text design_doc :
  filename design_doc = file -> sound file text (_save_pdf design_doc).
Proof.
  intros Hf. unfold _save_pdf.
  apply sound_bind; [apply sound_ret|]. intros repo.
  by apply (sound_call_last file text (EvSavePdf (relative_path repo) design_doc)).
Qed.

Lemma sound_repo_save file text dependencies :
  sound file text (repo_save designs_repo file text dependencies).
Proof.
  unfold repo_save.
  apply (sound_call file text
           (EvSave (relative_path designs_repo) file text dependencies)); [done|].
  intros w r w' [= <- <-]. exists []. rewrite app_nil_r. split_and!.
  - done.
  - apply clean_nil.
  - constructor.
  - unfold frame. simpl. split_and!; auto.
    + intros k Hk. by rewrite lookup_insert_ne.
    + right. by rewrite lookup_insert_eq.
Qed.

(** The second half of [_update_system_design], for a produced document. *)
Lemma sound_persist file doc dependency :
  filename doc = file ->
  sound file (content doc)
    (let* _ := repo_save designs_repo file (content doc) [dependency] in
     let* _ := _save_data_api_design doc in
     let* _ := _save_seq_flow doc in
     let* _ := _save_pdf doc in
     ret doc).
Proof.
  intros Hf.
  apply sound_bind; [apply sound_repo_save|]. intros _.
  apply sound_bind; [by apply sound_save_data_api_design|]. intros _.
  apply sound_bind; [by apply sound_save_seq_flow|]. intros _.
  apply sound_bind; [by apply sound_save_pdf|]. intros _.
  apply sound_ret.
Qed.

(** Whatever the outcome of processing one file: the calls are appended,
    a failing call is the last one and its exception is the result, the
    only text saved is a serialised six-field object, under the name of
    the file, and nothing else in the repositories changes. *)
Lemma update_any file w r w' :
  _update_system_design file prds_repo designs_repo w = (r, w') ->
  exists approach name file_list classes flow unclear evs,
    let text :=
      json_dumps (JObj (six_fields approach name file_list classes flow unclear)) in
    trace w' = trace w ++ evs
    /\ clean r evs
    /\ Forall (save_only file text) evs
    /\ frame file text w w'.
Proof.
  unfold _update_system_design. intros H.
  apply bind_inv in H as [(e & [=] & _)|(prd & w1 & Hprd & H)].
  injection Hprd as _ <-.
  apply bind_inv in H as [(e & [=] & _)|(old & w1 & Hold & H)].
  injection Hold as Hold <-.
  match type of H with bind ?d _ _ = _ => set (design := d) in H end.
  assert (Hdesign : forall text, sound file text design).
  { intros text. unfold design. destruct old; [apply sound_merge|].
    apply sound_bind; [apply sound_lift|]. intros ctx.
    apply sound_bind; [apply sound_new_system_design|]. intros sd.
    apply sound_ret. }
  apply bind_inv in H as [(e & H & ->)|(doc & w1 & Hd & H)].
  - exists "", "", [], "", "", "". by apply Hdesign.
  - assert (Hdoc : filename doc = file
                   /\ exists a n fl cl fw un,
                        content doc = json_dumps (JObj (six_fields a n fl cl fw un))).
    { unfold design in Hd. simpl in Hold.
      destruct (files w !! (SYSTEM_DESIGN_FILE_REPO, file)); subst old.
      - apply merge_ok in Hd as (? & ? & a & n & fl & cl & fw & un & _ & _ & _ & -> & _).
        split; [done|]. by exists a, (strip_quotes n), fl, cl, fw, un.
      - apply bind_ok_inv in Hd as (ctx & w2 & _ & Hd).
        apply bind_ok_inv in Hd as (sd & w3 & Hnew & Hd).
        apply new_system_design_ok in Hnew
          as (? & ? & a & n & fl & cl & fw & un & _ & _ & _ & Hsd & _).
        unfold ret in Hd. injection Hd as <- _. rewrite Hsd.
        split; [done|]. by exists a, (strip_quotes n), fl, cl, fw, un. }
    destruct Hdoc as (Hf & a & n & fl & cl & fw & un & Hc).
    exists a, n, fl, cl, fw, un. cbv zeta. rewrite <- Hc.
    destruct (Hdesign (content doc) _ _ _ Hd) as (evs1 & Ht1 & Hc1 & Hs1 & Hf1).
    assert (Hrest : sound file (content doc)
              (let* dependency := lift (getattr_root_relative_path prd) in
               let* _ := repo_save designs_repo file (content doc) [dependency] in
               let* _ := _save_data_api_design doc in
               let* _ := _save_seq_flow doc in
               let* _ := _save_pdf doc in
               ret doc)).
    { apply sound_bind; [apply sound_lift|]. intros dep. by apply sound_persist. }
    destruct (Hrest _ _ _ H) as (evs2 & Ht2 & Hc2 & Hs2 & Hf2).
    exists (evs1 ++ evs2). split_and!.
    + by rewrite Ht2, Ht1, app_assoc.
    + by eapply clean_app.
    + by apply Forall_app.
    + by eapply frame_trans.
Qed.

(** ** The two loops of [run] *)

Lemma steps_app w l1 w1 l2 w2 :
  steps w l1 w1 -> steps w1 l2 w2 -> steps w (l1 ++ l2) w2.
Proof.
  induction 1 as [|w f d wa l wb Hu _ IH]; intros H2; [done|].
  simpl. econstructor; [exact Hu|]. by apply IH.
Qed.

Lemma dict_mem_keys {V} (d : pydict V) k :
  dict_mem d k = bool_decide (k ∈ dict_keys d).
Proof.
  unfold dict_mem, dict_keys. induction d as [|[k' v] d IH]; [done|].
  cbn [dict_get]. rewrite fmap_cons. cbn [fst].
  destruct (String.eqb_spec k' k) as [->|Hne].
  - symmetry. apply bool_decide_eq_true_2. left.
  - rewrite IH. apply bool_decide_ext. rewrite elem_of_cons.
    split; [by right|]. by intros [?|?].
Qed.

Lemma dict_get_fresh {V} (d : pydict V) k : k ∉ dict_keys d -> dict_get d k = None.
Proof.
  unfold dict_keys. induction d as [|[k' v] d IH]; simpl; intros Hk; [done|].
  apply not_elem_of_cons in Hk as [Hne Hk].
  destruct (String.eqb_spec k' k) as [->|_]; [done|]. by apply IH.
Qed.

Lemma dict_get_nodup {V} (d : pydict V) k v :
  NoDup (dict_keys d) -> (k, v) ∈ d -> dict_get d k = Some v.
Proof.
  unfold dict_keys. induction d as [|[k' v'] d IH]; simpl; intros Hnd Hin.
  { by apply elem_of_nil in Hin. }
  apply NoDup_cons in Hnd as [Hk' Hnd].
  apply elem_of_cons in Hin as [[= -> ->]|Hin].
  - by rewrite String.eqb_refl.
  - destruct (String.eqb_spec k' k) as [->|_]; [|by apply IH].
    destruct Hk'. by apply (list_elem_of_fmap_2 fst _ (k, v)).
Qed.

Lemma record_docs_fresh l acc :
  NoDup (dict_keys (docs acc) ++ l.*1) ->
  record_docs l acc = mkDocuments (docs acc ++ l).
Proof.
  revert acc. induction l as [|[f d] l IH]; intros acc Hnd; simpl.
  { rewrite app_nil_r. by destruct acc. }
  unfold record_docs. simpl. fold (record_docs l (docs_set acc f d)).
  assert (Hf : f ∉ dict_keys (docs acc)).
  { apply NoDup_app in Hnd as (_ & Hd & _). intros Hin. apply (Hd f Hin). left. }
  unfold docs_set at 1. rewrite dict_set_fresh by done.
  rewrite IH; simpl.
  - by rewrite <- app_assoc.
  - unfold dict_keys in *. rewrite fmap_app. simpl. by rewrite <- app_assoc.
Qed.

Lemma pass1_inv keys acc w r w' :
  for_each keys pass1 acc w = (r, w') ->
  (exists l, steps w l w' /\ l.*1 = keys /\ r = Ok (record_docs l acc))
  \/ (exists l1 f l2 w1 e,
        keys = l1.*1 ++ f :: l2 /\ steps w l1 w1
        /\ _update_system_design f prds_repo designs_repo w1 = (Raise e, w')
        /\ r = Raise e).
Proof.
  revert acc w. induction keys as [|f keys IH]; intros acc w H; simpl in H.
  { injection H as <- <-. left. exists []. split_and!; [constructor|done..]. }
  apply bind_inv in H as [(e & H & ->)|(acc1 & w1 & H & Hrest)].
  - right. unfold pass1 in H.
    apply bind_inv in H as [(e' & H & [= <-])|(? & ? & _ & [=])].
    exists [], f, keys, w, e. split_and!; [done|constructor|done..].
  - unfold pass1 in H. apply bind_ok_inv in H as (doc & w2 & Hu & [= <- <-]).
    destruct (IH _ _ Hrest) as [(l & Hs & Hk & ->)|(l1 & g & l2 & wa & e & -> & Hs & Hg & ->)].
    + left. exists ((f, doc) :: l). split_and!; [by econstructor|by rewrite <- Hk|done].
    + right. exists ((f, doc) :: l1), g, l2, wa, e.
      split_and!; [done|by econstructor|done..].
Qed.

Lemma pass2_inv keys acc w r w' :
  for_each keys pass2 acc w = (r, w') ->
  (exists l, steps w l w'
             /\ l.*1 = pending (dict_keys (docs acc)) keys
             /\ r = Ok (record_docs l acc))
  \/ (exists l1 f l2 w1 e,
        pending (dict_keys (docs acc)) keys = l1.*1 ++ f :: l2 /\ steps w l1 w1
        /\ _update_system_design f prds_repo designs_repo w1 = (Raise e, w')
        /\ r = Raise e).
Proof.
  revert acc w. induction keys as [|f keys IH]; intros acc w H; simpl in H.
  { injection H as <- <-. left. exists []. split_and!; [constructor|done..]. }
  cbn [pending]. unfold pass2 at 1 in H. rewrite dict_mem_keys in H.
  destruct (bool_decide (f ∈ dict_keys (docs acc))) eqn:Hmem.
  { rewrite (bind_ok _ _ _ acc w) in H by done. by apply IH. }
  apply bool_decide_eq_false in Hmem.
  apply bind_inv in H as [(e & H & ->)|(acc1 & w1 & H & Hrest)].
  - right.
    apply bind_inv in H as [(e' & H & [= <-])|(? & ? & _ & [=])].
    exists [], f, (pending (dict_keys (docs acc) ++ [f]) keys), w, e.
    split_and!; [done|constructor|done..].
  - apply bind_ok_inv in H as (doc & w2 & Hu & [= <- <-]).
    assert (Hkeys : dict_keys (docs (docs_set acc f doc)) = dict_keys (docs acc) ++ [f]).
    { unfold docs_set, dict_keys in *. simpl.
      rewrite dict_set_fresh by done. by rewrite fmap_app. }
    destruct (IH _ _ Hrest) as [(l & Hs & Hk & ->)|(l1 & g & l2 & wa & e & Hk & Hs & Hg & ->)];
      rewrite Hkeys in Hk.
    + left. exists ((f, doc) :: l).
      split_and!; [by econstructor|by rewrite <- Hk|done].
    + right. exists ((f, doc) :: l1), g, l2, wa, e.
      split_and!; [by rewrite Hk|by econstructor|done..].
Qed.

Lemma filter_ext_elem {A} (P Q : A -> Prop) `{!forall x, Decision (P x)}
    `{!forall x, Decision (Q x)} (l : list A) :
  (forall x, x ∈ l -> (P x <-> Q x)) -> filter P l = filter Q l.
Proof.
  induction l as [|x l IH]; intros Hext; [done|].
  rewrite !filter_cons.
  assert (Hx : P x <-> Q x) by (apply Hext; left).
  rewrite IH by (intros y Hy; apply Hext; by right).
  destruct (decide (P x)), (decide (Q x)); tauto || done.
Qed.

Lemma pending_filter seen keys :
  NoDup keys -> pending seen keys = filter (fun f => f ∉ seen) keys.
Proof.
  revert seen. induction keys as [|f keys IH]; intros seen Hnd; [done|].
  apply NoDup_cons in Hnd as [Hf Hnd]. cbn [pending]. rewrite filter_cons.
  destruct (decide (f ∈ seen)) as [Hin|Hin].
  - rewrite bool_decide_eq_true_2 by done.
    rewrite decide_False by (intros ?; done). by apply IH.
  - rewrite bool_decide_eq_false_2 by done. rewrite decide_True by done.
    f_equal. rewrite IH by done. apply filter_ext_elem.
    intros x Hx. rewrite elem_of_app, list_elem_of_singleton.
    split; [tauto|]. intros Hn [?| ->]; done.
Qed.

Lemma work_list_nodup w :
  NoDup (dict_keys (changed w PRDS_FILE_REPO)) ->
  NoDup (dict_keys (changed w SYSTEM_DESIGN_FILE_REPO)) ->
  NoDup (work_list w).
Proof.
  intros H1 H2. unfold work_list. apply NoDup_app. split_and!.
  - done.
  - intros x Hx [Hn _]%list_elem_of_filter. done.
  - by apply NoDup_filter.
Qed.

Lemma run_unfold {Msg} (msg : Msg) format w :
  run msg format w
  = (let* changed_files :=
       for_each (dict_keys (changed w PRDS_FILE_REPO)) pass1 (mkDocuments []) in
     let* changed_files :=
       for_each (dict_keys (changed w SYSTEM_DESIGN_FILE_REPO)) pass2 changed_files in
     let* _ :=
       match docs changed_files with
       | [] => emit (EvInfo "Nothing has changed.")
       | _ => ret tt
       end in
     ret (mkActionOutput (Documents_json changed_files) changed_files)) w.
Proof. reflexivity. Qed.

(** [run] on a workspace whose change sets are dicts: either every file of
    the work list was processed, in order, or the processing of one of them
    raised and [run] stopped there with that exception. *)
Lemma run_inv {Msg} (msg : Msg) format w r w' :
  NoDup (dict_keys (changed w PRDS_FILE_REPO)) ->
  NoDup (dict_keys (changed w SYSTEM_DESIGN_FILE_REPO)) ->
  run msg format w = (r, w') ->
  (exists l w1,
      steps w l w1 /\ l.*1 = work_list w
      /\ r = Ok (mkActionOutput (Documents_json (mkDocuments l)) (mkDocuments l))
      /\ w' = match l with
              | [] => mkWorld (files w1) (changed w1) (workdir w1) (WORKDIR w1)
                              (llm_calls w1) (trace w1 ++ [EvInfo "Nothing has changed."])
              | _ => w1
              end)
  \/ (exists l1 f l2 w1 e,
        work_list w = l1.*1 ++ f :: l2 /\ steps w l1 w1
        /\ _update_system_design f prds_repo designs_repo w1 = (Raise e, w')
        /\ r = Raise e).
Proof.
  intros Hnd1 Hnd2. rewrite run_unfold. intros H.
  pose proof (work_list_nodup w Hnd1 Hnd2) as Hnd. unfold work_list in *.
  apply bind_inv in H as [(e & H & ->)|(acc1 & w1 & H & Hrest)].
  { right. apply pass1_inv in H as [(? & _ & _ & [=])|(l1 & f & l2 & wa & e' & Hk & Hs & Hf & [= <-])].
    exists l1, f, (l2 ++ filter (fun f => f ∉ dict_keys (changed w PRDS_FILE_REPO))
                           (dict_keys (changed w SYSTEM_DESIGN_FILE_REPO))), wa, e.
    split_and!; [|done..]. rewrite Hk. by rewrite <- app_assoc. }
  apply pass1_inv in H as [(l1 & Hs1 & Hk1 & [= ->])|(? & ? & ? & ? & ? & _ & _ & _ & [=])].
  rewrite record_docs_fresh in Hrest by (simpl; by rewrite Hk1).
  simpl in Hrest.
  apply bind_inv in Hrest as [(e & H & ->)|(acc2 & w2 & H & Hrest)].
  { right. apply pass2_inv in H as [(? & _ & _ & [=])|(l2 & f & l3 & wa & e' & Hk & Hs & Hf & [= <-])].
    simpl in Hk. unfold dict_keys at 1 in Hk. rewrite Hk1, pending_filter in Hk by done.
    exists (l1 ++ l2), f, l3, wa, e.
    split_and!; [|by eapply steps_app|done..].
    rewrite Hk, fmap_app, Hk1. by rewrite <- app_assoc. }
  apply pass2_inv in H as [(l2 & Hs2 & Hk2 & [= ->])|(? & ? & ? & ? & ? & _ & _ & _ & [=])].
  simpl in Hk2. unfold dict_keys at 1 in Hk2. rewrite Hk1, pending_filter in Hk2 by done.
  rewrite record_docs_fresh in Hrest
    by (simpl; unfold dict_keys at 1; by rewrite Hk1, Hk2).
  simpl in Hrest. left. exists (l1 ++ l2).
  assert (Hkeys : (l1 ++ l2).*1
                  = dict_keys (changed w PRDS_FILE_REPO)
                    ++ filter (fun f => f ∉ dict_keys (changed w PRDS_FILE_REPO))
                         (dict_keys (changed w SYSTEM_DESIGN_FILE_REPO)))
    by (by rewrite fmap_app, Hk1, Hk2).
  destruct (l1 ++ l2) as [|fd l] eqn:Hl.
  - unfold bind, emit, ret in Hrest. injection Hrest as <- <-.
    exists w2. split_and!; [|done..]. rewrite <- Hl. by eapply steps_app.
  - unfold bind, ret in Hrest. injection Hrest as <- <-.
    exists w2. split_and!; [|done..]. rewrite <- Hl. by eapply steps_app.
Qed.

(** ** Calls of a whole run *)

Lemma appends_ret Q {A} (a : A) : appends Q (ret a).
Proof.
  intros w r w' [= <- <-]. exists []. rewrite app_nil_r.
  split_and!; [done|apply clean_nil|constructor].
Qed.

Lemma appends_bind Q {A B} (m : M A) (k : A -> M B) :
  appends Q m -> (forall a, appends Q (k a)) -> appends Q (bind m k).
Proof.
  intros Hm Hk w r w' [(e & H & ->)|(a & w1 & H & H')]%bind_inv.
  - destruct (Hm _ _ _ H) as (evs & Ht & Hc & Hs).
    exists evs. split_and!; [done|by apply (@clean_raise A B)|done].
  - destruct (Hm _ _ _ H) as (evs1 & Ht1 & Hc1 & Hs1).
    destruct (Hk a _ _ _ H') as (evs2 & Ht2 & Hc2 & Hs2).
    exists (evs1 ++ evs2). split_and!.
    + by rewrite Ht2, Ht1, app_assoc.
    + by eapply clean_app.
    + by apply Forall_app.
Qed.

Lemma appends_for_each Q {A S} (l : list A) (body : A -> S -> M S) acc :
  (forall x a, appends Q (body x a)) -> appends Q (for_each l body acc).
Proof.
  intros Hb. revert acc. induction l as [|x l IH]; intros acc; simpl.
  - apply appends_ret.
  - apply appends_bind; [apply Hb|]. intros a. apply IH.
Qed.

Lemma save_only_six file approach name file_list classes flow unclear ev :
  save_only file
    (json_dumps (JObj (six_fields approach name file_list classes flow unclear))) ev ->
  saves_six ev.
Proof.
  destruct ev; simpl; try done. intros (_ & _ & ->). by repeat eexists.
Qed.

Lemma appends_update file :
  appends saves_six (_update_system_design file prds_repo designs_repo).
Proof.
  intros w r w' H.
  apply update_any in H as (a & n & fl & cl & fw & un & evs & Ht & Hc & Hs & _).
  exists evs. split_and!; [done..|].
  eapply Forall_impl; [exact Hs|]. intros ev. apply save_only_six.
Qed.

Lemma appends_run {Msg} (msg : Msg) format : appends saves_six (run msg format).
Proof.
  intros w r w'. rewrite run_unfold. revert w r w'.
  assert (H1 : forall f acc, appends saves_six (pass1 f acc)).
  { intros f acc. apply appends_bind; [apply appends_update|].
    intros doc. apply appends_ret. }
  assert (H2 : forall f acc, appends saves_six (pass2 f acc)).
  { intros f acc. unfold pass2. destruct (dict_mem _ _); [apply appends_ret|].
    apply appends_bind; [apply appends_update|]. intros doc. apply appends_ret. }
  intros w. apply appends_bind; [by apply appends_for_each|]. intros acc1.
  apply appends_bind; [by apply appends_for_each|]. intros acc2.
  apply appends_bind; [|intros _; apply appends_ret].
  destruct (docs acc2); [|apply appends_ret].
  intros w0 r w' [= <- <-]. exists [EvInfo "Nothing has changed."].
  split_and!; [done|by apply clean_single|by repeat constructor].
Qed.

Lemma update_block file w doc w' :
  _update_system_design file prds_repo designs_repo w = (Ok doc, w') ->
  exists block, file_block file doc block /\ trace w' = trace w ++ block
                /\ quiet block
                /\ files w' = <[(SYSTEM_DESIGN_FILE_REPO, file) := content doc]> (files w)
                /\ changed w' = changed w.
Proof.
  intros H. apply update_ok_inv in H
    as (prd_text & prompt & out & a & rn & fl & cl & fw & un & H).
  cbv zeta in H. destruct H as (Hp & Hprompt & Hres & Hic & Hdoc & -> & Hq).
  eexists. split_and!; [|reflexivity|exact Hq|done..].
  exists (llm_calls w), prompt, (design_renames w file (strip_quotes rn)),
         (design_root w file (strip_quotes rn)),
         (root_relative_path (mkDocument PRDS_FILE_REPO file prd_text)),
         a, (strip_quotes rn), fl, cl, fw, un.
  split_and!; [done| |done].
  unfold design_renames, rename_events.
  destruct (files w !! (SYSTEM_DESIGN_FILE_REPO, file)); [constructor|].
  destruct (WORKDIR w); by repeat constructor.
Qed.

(** The trace of a sequence of processed files is the sequence of their
    blocks: the calls of two files never interleave. *)
Lemma steps_blocks w l w' :
  steps w l w' ->
  exists blocks,
    Forall2 (fun fd block => file_block fd.1 fd.2 block) l blocks
    /\ trace w' = trace w ++ concat blocks
    /\ quiet (concat blocks)
    /\ changed w' = changed w.
Proof.
  induction 1 as [w|w f d w1 l w2 Hu _ (blocks & Hb & Ht & Hq & Hc)].
  - exists []. rewrite app_nil_r. split_and!; [constructor|done|constructor|done].
  - apply update_block in Hu as (block & Hfb & Ht1 & Hq1 & _ & Hc1).
    exists (block :: blocks). split_and!.
    + by constructor.
    + simpl. by rewrite Ht, Ht1, app_assoc.
    + simpl. by apply Forall_app.
    + congruence.
Qed.

(** ** The claims *)

Lemma update_design_inv file w doc w' :
  _update_system_design file prds_repo designs_repo w = (Ok doc, w') ->
  exists prd_text,
    files w !! (PRDS_FILE_REPO, file) = Some prd_text
    /\ match files w !! (SYSTEM_DESIGN_FILE_REPO, file) with
       | None =>
           exists system_design w1,
             _new_system_design prd_text prompt_format w = (Ok system_design, w1)
             /\ doc = mkDocument SYSTEM_DESIGN_FILE_REPO file
                        (json_dumps (JObj (instruct_content system_design)))
       | Some old =>
           exists w1,
             _merge (Some (mkDocument PRDS_FILE_REPO file prd_text))
                    (mkDocument SYSTEM_DESIGN_FILE_REPO file old) prompt_format w
             = (Ok doc, w1)
       end.
Proof.
  intros H.
  destruct (update_ok_inv _ _ _ _ H)
    as (prd_text & prompt & out & a & rn & fl & cl & fw & un & Hp & _ & _ & _ & Hdoc & _).
  exists prd_text. split; [done|].
  unfold _update_system_design, prds_repo, designs_repo in H.
  apply bind_ok_inv in H as (prd & w1 & Hprd & H).
  apply bind_ok_inv in H as (old & w2 & Hold & H).
  unfold repo_get in Hprd, Hold. simpl in Hprd, Hold. rewrite Hp in Hprd.
  injection Hprd as <- <-. injection Hold as <- <-.
  apply bind_ok_inv in H as (doc0 & w3 & Hd & H).
  destruct (files w !! (SYSTEM_DESIGN_FILE_REPO, file)) as [old|].
  - destruct (merge_ok _ _ _ _ _ _ Hd)
      as (? & ? & a' & n' & fl' & cl' & fw' & un' & _ & _ & _ & Hd0 & _).
    apply bind_ok_inv in H as (dep & w4 & _ & H).
    eapply (persist_ok file doc0) in H as (-> & _); [by exists w3|by rewrite Hd0..].
  - apply bind_ok_inv in Hd as (ctx & w4 & [[= <-] ->]%lift_ok_inv & Hd).
    apply bind_ok_inv in Hd as (sd & w5 & Hnew & [= <- <-]).
    destruct (new_system_design_ok _ _ _ _ _ Hnew)
      as (? & ? & a' & n' & fl' & cl' & fw' & un' & _ & _ & _ & Hsd & _).
    apply bind_ok_inv in H as (dep & w6 & _ & H).
    eapply (persist_ok file (mkDocument _ _ _)) in H as (-> & _);
      [by exists sd, w5|simpl; by rewrite Hsd|done].
Qed.

(** C1.  Processing a changed file name takes one of two branches, decided
    by the presence of a prior design document: with no prior design, the
    model is asked the new-design prompt built from the PRD text and the
    answer is wrapped in a new document; with a prior design, the model is
    asked the merge prompt over the prior design and the PRD text, and the
    result is the merged document.  On either branch the content of the
    document is the serialised answer of the model to that prompt, its six
    validated fields in order with the package name stripped, and this
    document is what the design repository holds afterwards. *)
Theorem update_new_or_merge file w doc w' :
  _update_system_design file prds_repo designs_repo w = (Ok doc, w') ->
  exists prd_text prompt evs answer approach raw file_list classes flow unclear,
    files w !! (PRDS_FILE_REPO, file) = Some prd_text
    /\ trace w' = trace w ++ EvAsk (llm_calls w) prompt OUTPUT_MAPPING prompt_format :: evs
    /\ llm_calls w' = S (llm_calls w)
    /\ aask_v1_result (llm_calls w) prompt OUTPUT_MAPPING prompt_format = Ok answer
    /\ instruct_content answer
       = six_fields approach raw file_list classes flow unclear
    /\ doc = mkDocument SYSTEM_DESIGN_FILE_REPO file
               (json_dumps
                  (JObj (six_fields approach
                           (strip_char dquote (strip_char squote (strip raw)))
                           file_list classes flow unclear)))
    /\ files w' !! (SYSTEM_DESIGN_FILE_REPO, file) = Some (content doc)
    /\ match files w !! (SYSTEM_DESIGN_FILE_REPO, file) with
       | None =>
           (exists pf, get_template templates prompt_format = Ok pf
                       /\ prompt = format2 pf.1 prd_text pf.2)
           /\ exists system_design w1,
               _new_system_design prd_text prompt_format w = (Ok system_design, w1)
               /\ doc = mkDocument SYSTEM_DESIGN_FILE_REPO file
                          (json_dumps (JObj (instruct_content system_design)))
       | Some old =>
           prompt = format2 MERGE_PROMPT old prd_text
           /\ exists w1,
               _merge (Some (mkDocument PRDS_FILE_REPO file prd_text))
                      (mkDocument SYSTEM_DESIGN_FILE_REPO file old) prompt_format w
               = (Ok doc, w1)
       end.
Proof.
  intros H.
  destruct (update_design_inv _ _ _ _ H) as (prd_text & Hp & Hbranch).
  destruct (update_ok_inv _ _ _ _ H)
    as (prd_text' & prompt & out & a & rn & fl & cl & fw & un & Hp' & Hprompt & Hres & Hic
        & Hdoc & -> & _).
  rewrite Hp in Hp'. injection Hp' as <-.
  exists prd_text, prompt. eexists. exists out, a, rn, fl, cl, fw, un.
  split_and!; [done|reflexivity|done|done|done|done| |].
  { simpl. by rewrite lookup_insert_eq. }
  unfold design_prompt in Hprompt.
  destruct (files w !! (SYSTEM_DESIGN_FILE_REPO, file)) as [old|].
  - injection Hprompt as <-. by split.
  - split; [|done]. destruct (get_template templates prompt_format) as [pf|]; [|done].
    injection Hprompt as <-. by exists pf.
Qed.

(** C7.  With no changed PRD and no changed design, [run] calls the model
    zero times, saves nothing and returns an empty document collection: the
    only call is the log line. *)
Theorem run_nothing_changed {Msg} (msg : Msg) format w :
  changed w PRDS_FILE_REPO = [] ->
  changed w SYSTEM_DESIGN_FILE_REPO = [] ->
  exists out w',
    run msg format w = (Ok out, w')
    /\ docs (instruct_content out) = []
    /\ llm_calls w' = llm_calls w
    /\ files w' = files w
    /\ trace w' = trace w ++ [EvInfo "Nothing has changed."].
Proof.
  intros H1 H2. rewrite run_unfold, H1, H2. by repeat eexists.
Qed.

(** C10.  In the merge branch the merged document keeps the file name and
    the root path of the prior design document, only its content is new,
    and it is saved back under that file name in the design repository. *)
Theorem merge_keeps_name_and_root file w old doc w' :
  files w !! (SYSTEM_DESIGN_FILE_REPO, file) = Some old ->
  _update_system_design file prds_repo designs_repo w = (Ok doc, w') ->
  let prior := mkDocument SYSTEM_DESIGN_FILE_REPO file old in
  (exists prd w1, _merge (Some prd) prior prompt_format w = (Ok doc, w1))
  /\ filename doc = filename prior
  /\ root_path doc = root_path prior
  /\ (exists dependency,
        EvSave (root_path prior) (filename prior) (content doc) [dependency] ∈ trace w')
  /\ files w' !! (root_path prior, filename prior) = Some (content doc).
Proof.
  intros Hold H. cbv zeta.
  destruct (update_design_inv _ _ _ _ H) as (prd_text & Hp & Hbranch).
  rewrite Hold in Hbranch. destruct Hbranch as [w1 Hm].
  destruct (update_ok_inv _ _ _ _ H)
    as (prd_text' & prompt & out & a & rn & fl & cl & fw & un & _ & _ & _ & _ & Hdoc
        & -> & _).
  split_and!.
  - eauto.
  - by rewrite Hdoc.
  - by rewrite Hdoc.
  - eexists. simpl. apply elem_of_app. right. apply elem_of_cons. right.
    apply elem_of_app. right. unfold persist_events. apply elem_of_cons. by left.
  - simpl. by rewrite lookup_insert_eq.
Qed.

(** C2.  Whatever [run] returns, every text it saves decodes to an object
    with exactly the six fields of [OUTPUT_MAPPING], each of its type, and
    encoding that object gives the saved text back. *)
Theorem persisted_content_round_trips {Msg} (msg : Msg) format w r w' :
  run msg format w = (r, w') ->
  exists evs,
    trace w' = trace w ++ evs
    /\ forall repo file text dependencies,
        EvSave repo file text dependencies ∈ evs ->
        exists approach name file_list classes flow unclear,
          let fields := six_fields approach name file_list classes flow unclear in
          json_loads text = Some (JObj fields) /\ json_dumps (JObj fields) = text.
Proof.
  intros H. destruct (appends_run msg format _ _ _ H) as (evs & Ht & _ & Hs).
  exists evs. split; [done|]. intros repo file text deps Hin.
  rewrite Forall_forall in Hs. specialize (Hs _ Hin). simpl in Hs.
  destruct Hs as (a & n & fl & cl & fw & un & ->).
  exists a, n, fl, cl, fw, un. cbv zeta. split; [|done].
  apply json_loads_dumps, json_wf_six.
Qed.

(** C4.  [run] handles no exception: whatever it returns, a call to the
    model (invocation or parsing of its answer), to the file system or to a
    renderer that raises is the last call [run] makes, and the exception it
    raised is the outcome of [run]; nothing is retried and no later file is
    processed. *)
Theorem run_propagates_failures {Msg} (msg : Msg) format w r w' :
  run msg format w = (r, w') ->
  exists evs,
    trace w' = trace w ++ evs
    /\ forall evs1 ev evs2 e,
        evs = evs1 ++ ev :: evs2 -> verdict ev = Some e ->
        r = Raise e /\ evs2 = [].
Proof.
  intros H. destruct (appends_run msg format _ _ _ H) as (evs & Ht & Hc & _).
  exists evs. split; [done|]. exact Hc.
Qed.

(** C8.  Whatever the outcome of processing a file: the only save is that
    of one whole text under the name of the file, renderings and the PDF
    export are those of the file, every other stored file is unchanged, and
    the design of the file is either untouched or that text; on success the
    stored design of the file is the content of the returned document. *)
Theorem update_writes_only_its_file file w r w' :
  _update_system_design file prds_repo designs_repo w = (r, w') ->
  exists text evs,
    trace w' = trace w ++ evs
    /\ Forall (save_only file text) evs
    /\ (forall k, k <> (SYSTEM_DESIGN_FILE_REPO, file) -> files w' !! k = files w !! k)
    /\ (files w' !! (SYSTEM_DESIGN_FILE_REPO, file)
        = files w !! (SYSTEM_DESIGN_FILE_REPO, file)
        \/ files w' !! (SYSTEM_DESIGN_FILE_REPO, file) = Some text)
    /\ (forall doc, r = Ok doc ->
          content doc = text /\ filename doc = file
          /\ files w' = <[(SYSTEM_DESIGN_FILE_REPO, file) := text]> (files w)).
Proof.
  intros H.
  destruct (update_any _ _ _ _ H)
    as (a & n & fl & cl & fw & un & evs & Ht & _ & Hs & _ & _ & _ & Hk & Hf).
  cbv zeta in *. eexists _, evs. split_and!; [done..|].
  intros doc ->.
  destruct (update_block _ _ _ _ H) as (block & Hb & Ht' & _ & Hfiles & _).
  rewrite Ht in Ht'. apply app_inv_head in Ht'. subst evs.
  destruct Hb as (call & prompt & renames & root & dep & a' & n' & fl' & cl' & fw' & un'
                  & Hdoc & _ & ->).
  apply Forall_app in Hs as [_ Hs]. apply Forall_app in Hs as [_ Hs].
  unfold persist_events in Hs. apply Forall_cons in Hs as [(_ & _ & Hc) _].
  split_and!; [done|by rewrite Hdoc|by rewrite Hfiles, Hc].
Qed.

(** *** The package-name fix *)

Lemma lstrip_first p s c : first_char (lstrip p s) = Some c -> p c = false.
Proof.
  induction s as [|a s IH]; simpl; [done|].
  destruct (p a) eqn:Hp; [done|]. simpl. by intros [= <-].
Qed.

Lemma rstrip_first p s :
  (forall c, first_char s = Some c -> p c = false) ->
  first_char (rstrip p s) = first_char s.
Proof.
  destruct s as [|a s]; simpl; [done|]. intros H.
  destruct (rstrip p s); [|done]. by rewrite (H a).
Qed.

Lemma rstrip_last p s c : last_char (rstrip p s) = Some c -> p c = false.
Proof.
  induction s as [|a s IH]; simpl; [done|].
  destruct (rstrip p s) as [|b r] eqn:Hr.
  - destruct (p a) eqn:Hp; [done|]. simpl. by intros [= <-].
  - intros H. apply IH. exact H.
Qed.

Lemma strip_char_ends q s :
  first_char (strip_char q s) <> Some q /\ last_char (strip_char q s) <> Some q.
Proof.
  unfold strip_char. split.
  - rewrite rstrip_first by apply lstrip_first.
    intros H%lstrip_first. by rewrite Ascii.eqb_refl in H.
  - intros H%rstrip_last. by rewrite Ascii.eqb_refl in H.
Qed.

Example strip_quotes_single : strip_quotes " 'snake_game' " = "snake_game".
Proof. reflexivity. Qed.

Example strip_quotes_triple :
  strip_quotes (String dquote (String dquote (String dquote
                  ("snake_game" +:+ String dquote (String dquote (String dquote ""))))))
  = "snake_game".
Proof. reflexivity. Qed.

Example strip_quotes_nested :
  strip_quotes nested_quotes = String squote (String "x" (String squote "")).
Proof. reflexivity. Qed.

Example strip_quotes_inner_space : strip_quotes "' x '" = " x ".
Proof. reflexivity. Qed.

(** C9 (amended).  On both paths the persisted package name is the model's
    value after three strips applied in this order: white space, then
    single quotes, then double quotes; it never begins or ends with a
    double quote. *)
Theorem persisted_package_name file w doc w' :
  _update_system_design file prds_repo designs_repo w = (Ok doc, w') ->
  exists prompt out raw fields,
    let name := strip_char dquote (strip_char squote (strip raw)) in
    design_prompt w file
      (default "" (files w !! (PRDS_FILE_REPO, file))) = Ok prompt
    /\ aask_v1_result (llm_calls w) prompt OUTPUT_MAPPING prompt_format = Ok out
    /\ dict_get (instruct_content out) "Python package name" = Some (JStr raw)
    /\ files w' !! (SYSTEM_DESIGN_FILE_REPO, file) = Some (content doc)
    /\ json_loads (content doc) = Some (JObj fields)
    /\ dict_get fields "Python package name" = Some (JStr name)
    /\ first_char name <> Some dquote
    /\ last_char name <> Some dquote.
Proof.
  intros H.
  destruct (update_ok_inv _ _ _ _ H)
    as (prd_text & prompt & out & a & rn & fl & cl & fw & un & Hp & Hprompt & Hres & Hic
        & Hdoc & -> & _).
  exists prompt, out, rn, (six_fields a (strip_quotes rn) fl cl fw un).
  cbv zeta. rewrite Hp. split_and!.
  - done.
  - done.
  - by rewrite Hic.
  - simpl. by rewrite lookup_insert_eq.
  - rewrite Hdoc. simpl. apply json_loads_dumps, json_wf_six.
  - done.
  - apply strip_char_ends.
  - apply strip_char_ends.
Qed.

(** *** Whole runs *)

Lemma work_list_elem w file :
  file ∈ work_list w
  <-> file ∈ dict_keys (changed w PRDS_FILE_REPO)
      \/ file ∈ dict_keys (changed w SYSTEM_DESIGN_FILE_REPO).
Proof.
  unfold work_list. rewrite elem_of_app, list_elem_of_filter.
  destruct (decide (file ∈ dict_keys (changed w PRDS_FILE_REPO))); tauto.
Qed.

Lemma blocks_split l blocks file doc :
  Forall2 (fun fd block => file_block fd.1 fd.2 block) l blocks ->
  (file, doc) ∈ l ->
  exists pre block post,
    file_block file doc block /\ concat blocks = pre ++ block ++ post.
Proof.
  intros HF Hin. apply list_elem_of_split in Hin as (la & lb & ->).
  apply Forall2_app_inv_l in HF as (ba & bb' & Ha & Hb & ->).
  apply Forall2_cons_inv_l in Hb as (block & bb & Hblock & Hb & ->).
  exists (concat ba), block, (concat bb). split; [done|].
  by rewrite concat_app.
Qed.

Lemma saves_of_app file evs1 evs2 :
  saves_of file (evs1 ++ evs2) = saves_of file evs1 + saves_of file evs2.
Proof. induction evs1 as [|ev evs1 IH]; simpl; [done|]. rewrite IH. lia. Qed.

Lemma saves_of_renames file renames : Forall is_rename renames -> saves_of file renames = 0.
Proof.
  induction 1 as [|ev l Hev _ IH]; [done|]. simpl. rewrite IH. by destruct ev.
Qed.

Lemma saves_of_diagram file root repo f data msg :
  saves_of file (diagram_events root repo f data msg) = 0.
Proof. unfold diagram_events. by destruct (String.eqb data ""). Qed.

Lemma saves_of_block file f doc block :
  file_block f doc block -> saves_of file block = if String.eqb f file then 1 else 0.
Proof.
  intros (call & prompt & renames & root & dep & a & n & fl & cl & fw & un & _ & Hren & ->).
  unfold persist_events.
  rewrite !saves_of_app, (saves_of_renames _ renames Hren), !saves_of_diagram.
  simpl. rewrite String.eqb_refl. simpl. destruct (String.eqb f file); lia.
Qed.

Lemma saves_of_blocks file l blocks :
  Forall2 (fun fd block => file_block fd.1 fd.2 block) l blocks ->
  NoDup l.*1 ->
  saves_of file (concat blocks) = if bool_decide (file ∈ l.*1) then 1 else 0.
Proof.
  induction 1 as [|[f d] block l blocks Hb _ IH]; intros Hnd; [done|].
  rewrite fmap_cons in *. apply NoDup_cons in Hnd as [Hf Hnd]. simpl in *.
  rewrite saves_of_app, (saves_of_block _ _ _ _ Hb), IH by done.
  destruct (String.eqb_spec f file) as [->|Hne].
  - rewrite (bool_decide_eq_false_2 _ Hf).
    rewrite bool_decide_eq_true_2 by left. done.
  - destruct (decide (file ∈ l.*1)) as [Hin|Hin].
    + rewrite !bool_decide_eq_true_2; [done|by right|done].
    + rewrite !bool_decide_eq_false_2; [done| |done].
      intros [?|?]%elem_of_cons; congruence.
Qed.

(** C5.  When [run] completes, the file names of the returned collection
    are the changed PRDs followed by the changed designs that are not
    changed PRDs, without repetition; each of them was saved exactly once
    and no other file was; a name in both change sets sits among the PRDs;
    and the collection gives each name one document. *)
Theorem run_processes_each_file_once {Msg} (msg : Msg) format w out w' :
  NoDup (dict_keys (changed w PRDS_FILE_REPO)) ->
  NoDup (dict_keys (changed w SYSTEM_DESIGN_FILE_REPO)) ->
  run msg format w = (Ok out, w') ->
  let prds := dict_keys (changed w PRDS_FILE_REPO) in
  let designs := dict_keys (changed w SYSTEM_DESIGN_FILE_REPO) in
  let names := dict_keys (docs (instruct_content out)) in
  names = prds ++ filter (fun f => f ∉ prds) designs
  /\ NoDup names
  /\ (exists evs,
        trace w' = trace w ++ evs
        /\ forall file,
            saves_of file evs = if bool_decide (file ∈ names) then 1 else 0)
  /\ (forall file, file ∈ prds -> file ∈ designs ->
        exists i, i < length prds /\ names !! i = Some file)
  /\ (forall file doc,
        (file, doc) ∈ docs (instruct_content out) ->
        dict_get (docs (instruct_content out)) file = Some doc).
Proof.
  intros Hnd1 Hnd2 H. cbv zeta.
  pose proof (work_list_nodup w Hnd1 Hnd2) as Hnd.
  apply run_inv in H as [(l & w1 & Hs & Hk & [= ->] & Hw')|(? & ? & ? & ? & ? & _ & _ & _ & [=])];
    [|done..].
  simpl. assert (Hnames : dict_keys l = work_list w) by exact Hk. rewrite !Hnames.
  apply steps_blocks in Hs as (blocks & HF & Ht & _ & _).
  split_and!; [done|done| | |].
  - exists (concat blocks ++ match l with [] => [EvInfo "Nothing has changed."] | _ => [] end).
    split.
    + subst w'. destruct l; simpl; rewrite Ht; [by rewrite app_assoc|by rewrite app_nil_r].
    + intros file. rewrite saves_of_app, (saves_of_blocks _ _ _ HF) by (by rewrite Hk).
      rewrite Hk. by destruct l; simpl; rewrite Nat.add_0_r.
  - intros file Hin _. apply list_elem_of_lookup in Hin as [i Hi].
    exists i. split; [by eapply lookup_lt_Some|].
    unfold work_list. by apply lookup_app_l_Some.
  - intros file doc Hin. apply dict_get_nodup; [|done]. by rewrite Hnames.
Qed.

(** C6.  [run] processes the work list strictly in order, the changed
    PRDs first and then the remaining changed designs: each file is
    processed in the workspace the previous one left, the trace is the
    sequence of the blocks of the processed files, and [run] either
    processes the whole list or stops at the first file whose processing
    raises. *)
Theorem run_is_sequential {Msg} (msg : Msg) format w r w' :
  NoDup (dict_keys (changed w PRDS_FILE_REPO)) ->
  NoDup (dict_keys (changed w SYSTEM_DESIGN_FILE_REPO)) ->
  run msg format w = (r, w') ->
  let prds := dict_keys (changed w PRDS_FILE_REPO) in
  let designs := dict_keys (changed w SYSTEM_DESIGN_FILE_REPO) in
  exists l w1 blocks,
    steps w l w1
    /\ Forall2 (fun fd block => file_block fd.1 fd.2 block) l blocks
    /\ trace w1 = trace w ++ concat blocks
    /\ ((l.*1 = prds ++ filter (fun f => f ∉ prds) designs
         /\ r = Ok (mkActionOutput (Documents_json (mkDocuments l)) (mkDocuments l))
         /\ exists tail, trace w' = trace w1 ++ tail /\ Forall (fun ev => is_ask ev = false) tail)
        \/ (exists file rest e tail,
              prds ++ filter (fun f => f ∉ prds) designs = l.*1 ++ file :: rest
              /\ _update_system_design file prds_repo designs_repo w1 = (Raise e, w')
              /\ r = Raise e
              /\ trace w' = trace w1 ++ tail)).
Proof.
  intros Hnd1 Hnd2 H. cbv zeta.
  apply (run_inv _ _ _ _ _ Hnd1 Hnd2) in H
    as [(l & w1 & Hs & Hk & -> & Hw')|(l & f & rest & w1 & e & Hk & Hs & Hf & ->)].
  - destruct (steps_blocks _ _ _ Hs) as (blocks & HF & Ht & _ & _).
    exists l, w1, blocks. split_and!; [done..|]. left. split_and!; [done..|].
    subst w'. destruct l.
    + eexists [_]. split; [done|]. by repeat constructor.
    + exists []. by rewrite app_nil_r.
  - destruct (steps_blocks _ _ _ Hs) as (blocks & HF & Ht & _ & _).
    exists l, w1, blocks. split_and!; [done..|]. right.
    destruct (update_any _ _ _ _ Hf) as (? & ? & ? & ? & ? & ? & tail & Htail & _).
    exists f, rest, e, tail. by split_and!.
Qed.

End Proofs.

(** * The theorems at a concrete workspace *)

Lemma pair_eta {A B} (p : A * B) : p = (p.1, p.2).
Proof. by destruct p. Qed.

Lemma pair_ok {A B} (p : result A * B) a : p.1 = Ok a -> p = (Ok a, p.2).
Proof. destruct p. simpl. by intros ->. Qed.

Ltac by_decision := apply (bool_decide_unpack _); vm_compute; exact I.

Lemma update_new_or_merge_witness :
  exists doc prd_text prompt evs answer,
    update_a.1 = Ok doc
    /\ files w_demo !! (@PRDS_FILE_REPO demo, "a.md") = Some prd_text
    /\ trace update_a.2
       = trace w_demo
         ++ EvAsk (llm_calls w_demo) prompt OUTPUT_MAPPING (@prompt_format demo) :: evs
    /\ @aask_v1_result demo (llm_calls w_demo) prompt OUTPUT_MAPPING (@prompt_format demo)
       = Ok answer
    /\ files update_a.2 !! (@SYSTEM_DESIGN_FILE_REPO demo, "a.md") = Some (content doc).
Proof.
  assert (H1 : exists doc, update_a.1 = Ok doc) by (eexists; vm_compute; reflexivity).
  destruct H1 as [doc H1].
  destruct (@update_new_or_merge demo "a.md" w_demo doc update_a.2 (pair_ok _ _ H1))
    as (prd_text & prompt & evs & answer & a & raw & fl & cl & fw & un
        & Hp & Ht & _ & Hres & _ & _ & Hstored & _).
  exists doc, prd_text, prompt, evs, answer.
  exact (conj H1 (conj Hp (conj Ht (conj Hres Hstored)))).
Defined.

Lemma persisted_content_round_trips_witness :
  (exists out, run_demo.1 = Ok out)
  /\ exists evs,
      trace run_demo.2 = trace w_demo ++ evs
      /\ forall repo file text dependencies,
          EvSave repo file text dependencies ∈ evs ->
          exists approach name file_list classes flow unclear,
            let fields := six_fields approach name file_list classes flow unclear in
            json_loads text = Some (JObj fields) /\ json_dumps (JObj fields) = text.
Proof.
  split; [eexists; vm_compute; reflexivity|].
  exact (@persisted_content_round_trips demo unit tt "json" w_demo run_demo.1 run_demo.2
           (pair_eta run_demo)).
Defined.

Lemma run_propagates_failures_witness :
  run_failing.1 = Raise (ExternalError "rate limit")
  /\ exists evs,
      trace run_failing.2 = trace w_failing ++ evs
      /\ forall evs1 ev evs2 e,
          evs = evs1 ++ ev :: evs2 -> @verdict demo_failing ev = Some e ->
          run_failing.1 = Raise e /\ evs2 = [].
Proof.
  split; [vm_compute; reflexivity|].
  exact (@run_propagates_failures demo_failing unit tt "json" w_failing
           run_failing.1 run_failing.2 (pair_eta run_failing)).
Defined.

Lemma run_processes_each_file_once_witness :
  exists out,
    run_demo.1 = Ok out
    /\ NoDup (dict_keys (docs (instruct_content out)))
    /\ exists evs,
        trace run_demo.2 = trace w_demo ++ evs
        /\ forall file,
            @saves_of demo file evs
            = if bool_decide (file ∈ dict_keys (docs (instruct_content out)))
              then 1 else 0.
Proof.
  assert (H1 : exists out, run_demo.1 = Ok out) by (eexists; vm_compute; reflexivity).
  destruct H1 as [out H1].
  assert (Hnd1 : NoDup (dict_keys (changed w_demo (@PRDS_FILE_REPO demo)))) by by_decision.
  assert (Hnd2 : NoDup (dict_keys (changed w_demo (@SYSTEM_DESIGN_FILE_REPO demo))))
    by by_decision.
  destruct (@run_processes_each_file_once demo unit tt "json" w_demo out run_demo.2
              Hnd1 Hnd2 (pair_ok run_demo out H1))
    as (_ & Hnd & Hsaves & _).
  exists out. exact (conj H1 (conj Hnd Hsaves)).
Defined.

Lemma run_is_sequential_witness :
  exists l w1 blocks,
    @steps demo w_demo l w1
    /\ Forall2 (fun fd block => @file_block demo fd.1 fd.2 block) l blocks
    /\ trace w1 = trace w_demo ++ concat blocks.
Proof.
  assert (Hnd1 : NoDup (dict_keys (changed w_demo (@PRDS_FILE_REPO demo)))) by by_decision.
  assert (Hnd2 : NoDup (dict_keys (changed w_demo (@SYSTEM_DESIGN_FILE_REPO demo))))
    by by_decision.
  destruct (@run_is_sequential demo unit tt "json" w_demo run_demo.1 run_demo.2
              Hnd1 Hnd2 (pair_eta run_demo))
    as (l & w1 & blocks & Hs & HF & Ht & _).
  exists l, w1, blocks. exact (conj Hs (conj HF Ht)).
Defined.

Lemma run_nothing_changed_witness :
  exists out w',
    @run demo unit tt "json" w_quiet = (Ok out, w')
    /\ docs (instruct_content out) = []
    /\ llm_calls w' = llm_calls w_quiet
    /\ files w' = files w_quiet
    /\ trace w' = trace w_quiet ++ [EvInfo "Nothing has changed."].
Proof.
  exact (@run_nothing_changed demo unit tt "json" w_quiet eq_refl eq_refl).
Defined.

Lemma update_writes_only_its_file_witness :
  (exists doc, update_b.1 = Ok doc)
  /\ exists text evs,
      trace update_b.2 = trace w_demo ++ evs
      /\ Forall (@save_only demo "b.md" text) evs.
Proof.
  split; [eexists; vm_compute; reflexivity|].
  destruct (@update_writes_only_its_file demo "b.md" w_demo update_b.1 update_b.2
              (pair_eta update_b))
    as (text & evs & Ht & Hs & _).
  exists text, evs. exact (conj Ht Hs).
Defined.

Lemma persisted_package_name_witness :
  exists doc raw fields,
    let name := strip_char dquote (strip_char squote (strip raw)) in
    update_a.1 = Ok doc
    /\ json_loads (content doc) = Some (JObj fields)
    /\ dict_get fields "Python package name" = Some (JStr name)
    /\ first_char name <> Some dquote
    /\ last_char name <> Some dquote.
Proof.
  assert (H1 : exists doc, update_a.1 = Ok doc) by (eexists; vm_compute; reflexivity).
  destruct H1 as [doc H1].
  destruct (@persisted_package_name demo "a.md" w_demo doc update_a.2 (pair_ok _ _ H1))
    as (prompt & out & raw & fields & _ & _ & _ & _ & Hl & Hn & Hf & Hlast).
  exists doc, raw, fields. exact (conj H1 (conj Hl (conj Hn (conj Hf Hlast)))).
Defined.

Lemma merge_keeps_name_and_root_witness :
  exists doc,
    update_b.1 = Ok doc
    /\ files w_demo !! (@SYSTEM_DESIGN_FILE_REPO demo, "b.md") = Some "old design of b"
    /\ filename doc = "b.md"
    /\ root_path doc = @SYSTEM_DESIGN_FILE_REPO demo.
Proof.
  assert (H1 : exists doc, update_b.1 = Ok doc) by (eexists; vm_compute; reflexivity).
  destruct H1 as [doc H1].
  assert (Hold : files w_demo !! (@SYSTEM_DESIGN_FILE_REPO demo, "b.md")
                 = Some "old design of b") by (vm_compute; reflexivity).
  destruct (@merge_keeps_name_and_root demo "b.md" w_demo "old design of b" doc update_b.2
              Hold (pair_ok _ _ H1))
    as (_ & Hf & Hr & _).
  exists doc. exact (conj H1 (conj Hold (conj Hf Hr))).
Defined.

(** C3, as stated, fails: the changed file [a.md] is processed to the end,
    yet a single diagram is rendered, the class diagram; the model left the
    call flow empty and no sequence diagram is derived. *)
Lemma run_skips_empty_call_flow :
  (exists out, run_no_flow.1 = Ok out)
  /\ dict_keys (changed w_no_flow (@PRDS_FILE_REPO demo_no_flow)) = ["a.md"]
  /\ List.filter is_render (trace run_no_flow.2)
     = [EvMermaid (JStr "classDiagram") "/ws/snake_game/resources/data_api_design/a.md"]
  /\ List.filter (is_save_of "docs/system_design" "a.md")
       (trace run_no_flow.2) <> [].
Proof.
  split; [eexists; vm_compute; reflexivity|].
  split; [vm_compute; reflexivity|].
  split; [vm_compute; reflexivity|].
  vm_compute. discriminate.
Qed.

(** C9, as stated, fails: for the model value of [nested_quotes] the
    persisted package name begins and ends with a single quote. *)
Lemma package_name_keeps_inner_quotes :
  exists doc fields,
    update_nested.1 = Ok doc
    /\ files update_nested.2 !! (@SYSTEM_DESIGN_FILE_REPO demo_nested, "a.md")
       = Some (content doc)
    /\ json_loads (content doc) = Some (JObj fields)
    /\ dict_get fields "Python package name"
       = Some (JStr (String squote (String "x" (String squote ""))))
    /\ first_char (String squote (String "x" (String squote ""))) = Some squote
    /\ last_char (String squote (String "x" (String squote ""))) = Some squote.
Proof.
  eexists _, _.
  split; [vm_compute; reflexivity|].
  split; [vm_compute; reflexivity|].
  split; [vm_compute; reflexivity|].
  split; [vm_compute; reflexivity|].
  split; reflexivity.
Qed.

(** * Further properties of [WriteDesign] *)

Section Further.
Context `{C : Collaborators}.

Local Arguments json_dumps : simpl never.

(** ** A small invariant logic *)

Section Keeps.
Variable P : World -> Prop.
Variable Q : event -> Prop.
Variable R : World -> World -> Prop.
Hypothesis R_store : forall w w', same_store w w' -> R w w'.
Hypothesis P_store : forall w w', same_store w w' -> P w -> P w'.
Hypothesis R_trans : forall w1 w2 w3, R w1 w2 -> R w2 w3 -> R w1 w3.

Lemma same_store_refl w : same_store w w.
Proof. by repeat split. Qed.

Lemma keeps_ret {A} (a : A) : keeps P Q R (ret a).
Proof.
  intros w r w' HP [= <- <-]. exists []. rewrite app_nil_r.
  split_and!; [done|constructor|apply R_store, same_store_refl|done].
Qed.

Lemma keeps_lift {A} (r : result A) : keeps P Q R (lift r).
Proof.
  intros w r' w' HP [= <- <-]. exists []. rewrite app_nil_r.
  split_and!; [done|constructor|apply R_store, same_store_refl|done].
Qed.

Lemma keeps_read {A} (f : World -> A) : keeps P Q R (fun w => (Ok (f w), w)).
Proof.
  intros w r' w' HP [= <- <-]. exists []. rewrite app_nil_r.
  split_and!; [done|constructor|apply R_store, same_store_refl|done].
Qed.

Lemma keeps_check (o : option exn) : keeps P Q R (check o).
Proof. destruct o; [apply keeps_lift|apply keeps_ret]. Qed.

Lemma keeps_bind {A B} (m : M A) (k : A -> M B) :
  keeps P Q R m -> (forall a, keeps P Q R (k a)) -> keeps P Q R (bind m k).
Proof.
  intros Hm Hk w r w' HP [(e & H & ->)|(a & w1 & H & H')]%bind_inv.
  - destruct (Hm _ _ _ HP H) as (evs & Ht & Hs & HR & HP').
    exists evs. by split_and!.
  - destruct (Hm _ _ _ HP H) as (evs1 & Ht1 & Hs1 & HR1 & HP1).
    destruct (Hk a _ _ _ HP1 H') as (evs2 & Ht2 & Hs2 & HR2 & HP2).
    exists (evs1 ++ evs2). split_and!.
    + by rewrite Ht2, Ht1, app_assoc.
    + by apply Forall_app.
    + by eapply R_trans.
    + done.
Qed.

Lemma keeps_emit ev : Q ev -> keeps P Q R (emit ev).
Proof.
  intros HQ w r w' HP [= <- <-]. exists [ev].
  assert (Hs : same_store w
                 (mkWorld (files w) (changed w) (workdir w) (WORKDIR w) (llm_calls w)
                          (trace w ++ [ev]))) by (by repeat split).
  split_and!; [done|by repeat constructor|by apply R_store|by eapply P_store].
Qed.

Lemma keeps_aask_v1 prompt class_name mapping format :
  (forall call, Q (EvAsk call prompt mapping format)) ->
  keeps P Q R (_aask_v1 prompt class_name mapping format).
Proof.
  intros HQ w r w' HP [= <- <-]. eexists [_].
  assert (Hs : same_store w
                 (mkWorld (files w) (changed w) (workdir w) (WORKDIR w) (S (llm_calls w))
                    (trace w ++ [EvAsk (llm_calls w) prompt mapping format])))
    by (by repeat split).
  split_and!; [done|by repeat constructor|by apply R_store|by eapply P_store].
Qed.

Lemma keeps_merge prd_doc system_design_doc format :
  (forall call prompt, Q (EvAsk call prompt OUTPUT_MAPPING format)) ->
  keeps P Q R (_merge prd_doc system_design_doc format).
Proof.
  intros HQ. unfold _merge.
  apply keeps_bind; [apply keeps_lift|]. intros ctx.
  apply keeps_bind; [by apply keeps_aask_v1|]. intros out.
  apply keeps_bind; [apply keeps_lift|]. intros sd.
  apply keeps_ret.
Qed.

Lemma keeps_save_mermaid_file data pathname :
  Q (EvMkdir (path_parent pathname)) -> Q (EvMermaid data pathname) ->
  keeps P Q R (_save_mermaid_file data pathname).
Proof.
  intros H1 H2. unfold _save_mermaid_file.
  apply keeps_bind; [by apply keeps_emit|]. intros _.
  apply keeps_bind; [apply keeps_check|]. intros _.
  apply keeps_bind; [by apply keeps_emit|]. intros _.
  apply keeps_check.
Qed.

Lemma keeps_save_data_api_design design_doc :
  (forall ev, is_output_call ev -> Q ev) ->
  keeps P Q R (_save_data_api_design design_doc).
Proof.
  intros HQ. unfold _save_data_api_design.
  apply keeps_bind; [apply keeps_lift|]. intros m.
  apply keeps_bind; [apply keeps_lift|]. intros [data|]; [|apply keeps_ret].
  destruct (truthy (Some data)); [|apply keeps_ret].
  apply keeps_bind; [apply (keeps_read workdir)|]. intros root.
  apply keeps_bind; [apply keeps_save_mermaid_file; by apply HQ|]. intros _.
  apply keeps_emit. by apply HQ.
Qed.

Lemma keeps_save_seq_flow design_doc :
  (forall ev, is_output_call ev -> Q ev) ->
  keeps P Q R (_save_seq_flow design_doc).
Proof.
  intros HQ. unfold _save_seq_flow.
  apply keeps_bind; [apply keeps_lift|]. intros m.
  apply keeps_bind; [apply keeps_lift|]. intros [data|]; [|apply keeps_ret].
  destruct (truthy (Some data)); [|apply keeps_ret].
  apply keeps_bind; [apply (keeps_read workdir)|]. intros root.
  apply keeps_bind; [apply keeps_save_mermaid_file; by apply HQ|]. intros _.
  apply keeps_emit. by apply HQ.
Qed.

Lemma keeps_save_pdf design_doc :
  (forall ev, is_output_call ev -> Q ev) ->
  keeps P Q R (_save_pdf design_doc).
Proof.
  intros HQ. unfold _save_pdf, repo_save_pdf.
  apply keeps_bind; [apply keeps_ret|]. intros repo.
  apply keeps_bind; [by apply keeps_emit, HQ|]. intros _.
  apply keeps_check.
Qed.

Lemma keeps_derive_outputs doc :
  (forall ev, is_output_call ev -> Q ev) ->
  keeps P Q R (derive_outputs doc).
Proof.
  intros HQ. unfold derive_outputs.
  apply keeps_bind; [by apply keeps_save_data_api_design|]. intros _.
  apply keeps_bind; [by apply keeps_save_seq_flow|]. intros _.
  apply keeps_bind; [by apply keeps_save_pdf|]. intros _.
  apply keeps_ret.
Qed.

Lemma keeps_new_system_design context format :
  (forall call prompt, Q (EvAsk call prompt OUTPUT_MAPPING format)) ->
  (forall system_design, keeps P Q R (_rename_workspace system_design)) ->
  keeps P Q R (_new_system_design context format).
Proof.
  intros HQ Hren. unfold _new_system_design.
  apply keeps_bind; [apply keeps_lift|]. intros pf.
  apply keeps_bind; [by apply keeps_aask_v1|]. intros out.
  apply keeps_bind; [apply keeps_lift|]. intros sd.
  apply keeps_bind; [apply Hren|]. intros _.
  apply keeps_ret.
Qed.

(** What follows the production of the design document. *)
Lemma keeps_persist prd file doc :
  (forall ev, is_output_call ev -> Q ev) ->
  (forall text dependencies,
      keeps P Q R (repo_save designs_repo file text dependencies)) ->
  keeps P Q R
    (let* dependency := lift (getattr_root_relative_path prd) in
     let* _ := repo_save designs_repo file (content doc) [dependency] in
     derive_outputs doc).
Proof.
  intros HQ Hsave.
  apply keeps_bind; [apply keeps_lift|]. intros dep.
  apply keeps_bind; [apply Hsave|]. intros _.
  by apply keeps_derive_outputs.
Qed.

Lemma keeps_update file :
  (forall call prompt, Q (EvAsk call prompt OUTPUT_MAPPING prompt_format)) ->
  (forall ev, is_output_call ev -> Q ev) ->
  (forall system_design, keeps P Q R (_rename_workspace system_design)) ->
  (forall text dependencies,
      keeps P Q R (repo_save designs_repo file text dependencies)) ->
  keeps P Q R (_update_system_design file prds_repo designs_repo).
Proof.
  intros Hask Hout Hren Hsave. unfold _update_system_design.
  apply keeps_bind; [apply (keeps_read (fun w => _))|]. intros prd.
  apply keeps_bind; [apply (keeps_read (fun w => _))|]. intros old.
  apply keeps_bind.
  { destruct old; [by apply keeps_merge|].
    apply keeps_bind; [apply keeps_lift|]. intros ctx.
    apply keeps_bind; [by apply keeps_new_system_design|]. intros sd.
    apply keeps_ret. }
  intros doc. by apply (keeps_persist prd file doc).
Qed.

End Keeps.

(** ** Processing one file *)

Lemma update_unfold file w :
  _update_system_design file prds_repo designs_repo w
  = (let prd :=
       match files w !! (PRDS_FILE_REPO, file) with
       | Some text => Some (mkDocument PRDS_FILE_REPO file text)
       | None => None
       end in
     let* doc :=
       match files w !! (SYSTEM_DESIGN_FILE_REPO, file) with
       | Some old =>
           _merge prd (mkDocument SYSTEM_DESIGN_FILE_REPO file old) prompt_format
       | None =>
           let* context := lift (getattr_content prd) in
           let* system_design := _new_system_design context prompt_format in
           ret (mkDocument SYSTEM_DESIGN_FILE_REPO file
                           (json_dumps (JObj (instruct_content system_design))))
       end in
     let* dependency := lift (getattr_root_relative_path prd) in
     let* _ := repo_save designs_repo file (content doc) [dependency] in
     derive_outputs doc) w.
Proof.
  unfold _update_system_design, bind at 1 2, repo_get, prds_repo, designs_repo. simpl.
  by destruct (files w !! (SYSTEM_DESIGN_FILE_REPO, file)).
Qed.

(** X1.  A file without a stored PRD cannot be processed: on either branch
    the first thing read is the content of the missing PRD, so processing
    raises [AttributeError] before any collaborator is called and leaves
    the workspace as it was. *)
Theorem update_without_prd file w :
  files w !! (PRDS_FILE_REPO, file) = None ->
  _update_system_design file prds_repo designs_repo w
  = (Raise (AttributeError "content"), w).
Proof.
  intros Hp. rewrite update_unfold, Hp. cbv zeta.
  by destruct (files w !! (SYSTEM_DESIGN_FILE_REPO, file)).
Qed.

(** X2.  A new design needs a template for the configured prompt format:
    when [get_template] raises, processing a file with a PRD and no prior
    design raises that exception without calling the model and leaves the
    workspace as it was. *)
Theorem new_design_without_template file w prd_text e :
  files w !! (PRDS_FILE_REPO, file) = Some prd_text ->
  files w !! (SYSTEM_DESIGN_FILE_REPO, file) = None ->
  get_template templates prompt_format = Raise e ->
  _update_system_design file prds_repo designs_repo w = (Raise e, w).
Proof.
  intros Hp Ho Ht. rewrite update_unfold, Hp, Ho. cbv zeta.
  unfold _new_system_design, bind, lift. simpl. by rewrite Ht.
Qed.

Lemma keeps_repo_save_root (P : World -> Prop) Q repo file text dependencies :
  (forall w w', WORKDIR w' = WORKDIR w -> workdir w' = workdir w -> P w -> P w') ->
  Q (EvSave (relative_path repo) file text dependencies) ->
  keeps P Q same_root (repo_save repo file text dependencies).
Proof.
  intros HP HQ w r w' HPw H. unfold repo_save, bind, emit in H. simpl in H.
  exists [EvSave (relative_path repo) file text dependencies].
  destruct (save_io (relative_path repo) file text) as [e|]; simpl in H;
    injection H as <- <-;
    (split_and!; [done|by apply Forall_singleton|done|by apply (HP w)]).
Qed.

(** X3.  The workspace root is renamed only for a new design made while
    [CONFIG.WORKDIR] is unset: when [CONFIG.WORKDIR] is set, or when a prior
    design exists (the merge branch), processing a file never calls
    [rename_root] and leaves the root as it was, whatever the outcome. *)
Theorem update_keeps_root file w r w' :
  WORKDIR w = true \/ is_Some (files w !! (SYSTEM_DESIGN_FILE_REPO, file)) ->
  _update_system_design file prds_repo designs_repo w = (r, w') ->
  workdir w' = workdir w
  /\ exists evs, trace w' = trace w ++ evs /\ Forall not_rename evs.
Proof.
  assert (HR : forall w1 w2, same_store w1 w2 -> same_root w1 w2)
    by (by intros ?? (_ & _ & ? & _)).
  assert (HT : forall w1 w2 w3, same_root w1 w2 -> same_root w2 w3 -> same_root w1 w3)
    by (unfold same_root; congruence).
  assert (Hout : forall ev, is_output_call ev -> not_rename ev) by (by intros []).
  intros [HW|[old Hold]] H.
  - assert (HP : forall w1 w2, same_store w1 w2 ->
                   WORKDIR w1 = true -> WORKDIR w2 = true)
      by (intros ?? (_ & _ & _ & ->); done).
    destruct (keeps_update (fun w0 => WORKDIR w0 = true) not_rename same_root
                HR HP HT file) with (w := w) (r := r) (w' := w')
      as (evs & Ht & Hs & Hr & _); [done|done| | |done|done|by eauto].
    + intros sd w0 r0 w0' HW0. unfold _rename_workspace. rewrite HW0.
      intros [= <- <-]. exists []. rewrite app_nil_r. by split_and!.
    + intros text deps. apply keeps_repo_save_root; [|done].
      by intros ?? ->.
  - rewrite update_unfold, Hold in H. cbv zeta in H.
    assert (HP : forall w1 w2 : World, same_store w1 w2 -> True -> True) by done.
    revert H. intros H.
    destruct (keeps_bind (fun _ => True) not_rename same_root HT
                (_merge _ (mkDocument SYSTEM_DESIGN_FILE_REPO file old) prompt_format)
                (fun doc => _) (keeps_merge _ _ _ HR HP HT _ _ _ (fun _ _ => I))
                (fun doc => keeps_persist _ _ _ HR HP HT _ file doc Hout
                              (fun text deps =>
                                 keeps_repo_save_root _ _ _ _ _ _ (fun _ _ _ _ _ => I) I))
                w r w' I H)
      as (evs & Ht & Hs & Hr & _).
    by eauto.
Qed.

(** *** The three shapes of a processing *)

Lemma same_store_trans w1 w2 w3 : same_store w1 w2 -> same_store w2 w3 -> same_store w1 w3.
Proof.
  intros (? & ? & ? & ?) (? & ? & ? & ?). unfold same_store. split_and!; congruence.
Qed.

Lemma keeps_rename_workspace_files system_design :
  keeps (fun _ => True) is_design_call same_files (_rename_workspace system_design).
Proof.
  intros w r w' _ H. unfold _rename_workspace in H.
  destruct (WORKDIR w).
  { injection H as <- <-. exists []. rewrite app_nil_r. by split_and!. }
  apply bind_inv in H as [(e & [= He <-] & ->)|(n & w1 & [= Hn <-] & H)].
  { exists []. rewrite app_nil_r. by split_and!. }
  unfold git_rename_root in H. simpl in H.
  exists [EvRenameRoot (workdir w) n].
  destruct (rename_root (workdir w) n); injection H as <- <-;
    (split_and!; [done|by apply Forall_singleton|done|done]).
Qed.

Lemma design_phase_keeps file prd old :
  keeps (fun _ => True) is_design_call same_files
    (match old with
     | Some text =>
         _merge prd (mkDocument SYSTEM_DESIGN_FILE_REPO file text) prompt_format
     | None =>
         let* context := lift (getattr_content prd) in
         let* system_design := _new_system_design context prompt_format in
         ret (mkDocument SYSTEM_DESIGN_FILE_REPO file
                         (json_dumps (JObj (instruct_content system_design))))
     end).
Proof.
  assert (HR : forall w1 w2, same_store w1 w2 -> same_files w1 w2)
    by (by intros ?? (? & _)).
  assert (HP : forall w1 w2 : World, same_store w1 w2 -> True -> True) by done.
  assert (HT : forall w1 w2 w3, same_files w1 w2 -> same_files w2 w3 -> same_files w1 w3)
    by (unfold same_files; congruence).
  destruct old as [text|].
  - by apply keeps_merge.
  - apply keeps_bind; [done|by apply keeps_lift|]. intros ctx.
    apply keeps_bind; [done| |intros sd; by apply keeps_ret].
    apply keeps_new_system_design; [done..|]. apply keeps_rename_workspace_files.
Qed.

Lemma derive_outputs_keeps doc :
  keeps (fun _ => True) is_output_call same_store (derive_outputs doc).
Proof.
  apply keeps_derive_outputs; [done|done|apply same_store_trans|done].
Qed.

(** Whatever the outcome of processing a file, its calls have one of three
    shapes: design calls only (the save was not reached); design calls and
    a save that raised; design calls, a save that succeeded and calls that
    derive the outputs.  The stored files change in the last case only. *)
Lemma update_cases file w r w' :
  _update_system_design file prds_repo designs_repo w = (r, w') ->
  exists evs1,
    Forall is_design_call evs1
    /\ ((exists e, r = Raise e /\ trace w' = trace w ++ evs1 /\ files w' = files w)
        \/ (exists text prd_text e,
              let dependency :=
                root_relative_path (mkDocument PRDS_FILE_REPO file prd_text) in
              r = Raise e
              /\ files w !! (PRDS_FILE_REPO, file) = Some prd_text
              /\ save_io SYSTEM_DESIGN_FILE_REPO file text = Some e
              /\ trace w' = trace w ++ evs1
                            ++ [EvSave SYSTEM_DESIGN_FILE_REPO file text [dependency]]
              /\ files w' = files w)
        \/ (exists text prd_text evs3,
              let dependency :=
                root_relative_path (mkDocument PRDS_FILE_REPO file prd_text) in
              files w !! (PRDS_FILE_REPO, file) = Some prd_text
              /\ save_io SYSTEM_DESIGN_FILE_REPO file text = None
              /\ Forall is_output_call evs3
              /\ trace w' = trace w ++ evs1
                            ++ [EvSave SYSTEM_DESIGN_FILE_REPO file text [dependency]]
                            ++ evs3
              /\ files w' = <[(SYSTEM_DESIGN_FILE_REPO, file) := text]> (files w))).
Proof.
  intros H. rewrite update_unfold in H. cbv zeta in H.
  apply bind_inv in H as [(e & H & ->)|(doc & w1 & H & Hrest)].
  { destruct (design_phase_keeps _ _ _ _ _ _ I H) as (evs1 & Ht & Hs & Hf & _).
    exists evs1. split; [done|]. left. by exists e. }
  destruct (design_phase_keeps _ _ _ _ _ _ I H) as (evs1 & Ht1 & Hs1 & Hf1 & _).
  exists evs1. split; [done|].
  apply bind_inv in Hrest as [(e & [= He <-] & ->)|(dep & w2 & [= Hdep <-] & Hrest)].
  { left. by exists e. }
  destruct (files w !! (PRDS_FILE_REPO, file)) as [prd_text|]; [|done].
  simpl in Hdep. injection Hdep as <-.
  apply bind_inv in Hrest as [(e & Hsave & ->)|(u & w2 & Hsave & Hrest)].
  - unfold repo_save, designs_repo, bind, emit in Hsave. simpl in Hsave.
    destruct (save_io SYSTEM_DESIGN_FILE_REPO file (content doc)) as [e'|] eqn:Hio;
      simpl in Hsave; [|done]. injection Hsave as <- <-.
    right. left. exists (content doc), prd_text, e'. simpl.
    split_and!; [done|done|done|by rewrite Ht1, app_assoc|done].
  - unfold repo_save, designs_repo, bind, emit in Hsave. simpl in Hsave.
    destruct (save_io SYSTEM_DESIGN_FILE_REPO file (content doc)) as [e'|] eqn:Hio;
      simpl in Hsave; [done|]. injection Hsave as <- <-.
    destruct (derive_outputs_keeps _ _ _ _ I Hrest) as (evs3 & Ht3 & Hs3 & Hst & _).
    right. right. exists (content doc), prd_text, evs3.
    destruct Hst as (Hf3 & _). simpl in *.
    split_and!; [done|done|done| |by rewrite Hf3, Hf1].
    rewrite Ht3, Ht1. by rewrite <- !app_assoc.
Qed.

(** X4.  A failed save stores nothing: when processing a file reached the
    save of its design and the file repository refused it, the result is
    the exception of the repository, the stored files are those of before,
    and neither a diagram nor the PDF was produced. *)
Theorem failed_save_stores_nothing file w r w' evs text deps e :
  _update_system_design file prds_repo designs_repo w = (r, w') ->
  trace w' = trace w ++ evs ->
  EvSave SYSTEM_DESIGN_FILE_REPO file text deps ∈ evs ->
  save_io SYSTEM_DESIGN_FILE_REPO file text = Some e ->
  r = Raise e /\ files w' = files w /\ Forall (fun ev => ~ is_output_call ev) evs.
Proof.
  intros H Ht Hin Hio.
  destruct (update_cases _ _ _ _ H) as (evs1 & Hd & Hcases).
  assert (Hnot : forall t d, EvSave SYSTEM_DESIGN_FILE_REPO file t d ∉ evs1).
  { intros t d Hin1. by apply (proj1 (Forall_forall _ _) Hd) in Hin1. }
  assert (Hquiet : Forall (fun ev => ~ is_output_call ev) evs1).
  { eapply Forall_impl; [exact Hd|]. intros [] Hx Hy; simpl in *; done. }
  destruct Hcases as [(e' & -> & Ht' & Hf)
                     |[(t & d & e' & -> & _ & Hio' & Ht' & Hf)
                      |(t & d & evs3 & _ & Hio' & Ho3 & Ht' & _)]];
    rewrite Ht in Ht'; apply app_inv_head in Ht'; subst evs.
  - by apply Hnot in Hin.
  - apply elem_of_app in Hin as [Hin|Hin]; [by apply Hnot in Hin|].
    apply list_elem_of_singleton in Hin. injection Hin as -> ->.
    split_and!; [congruence|done|].
    apply Forall_app. split; [done|]. apply Forall_singleton. by intros [].
  - exfalso.
    apply elem_of_app in Hin as [Hin|Hin]; [by apply Hnot in Hin|].
    apply elem_of_app in Hin as [Hin|Hin].
    + apply list_elem_of_singleton in Hin. injection Hin as -> ->. congruence.
    + by apply (proj1 (Forall_forall _ _) Ho3) in Hin.
Qed.

(** X5.  Nothing is rolled back: a diagram, a log line or the PDF export
    of a file is only ever produced after its design was saved, and the
    saved design stays in the repository whatever happens next; when the
    call that produces the output raises, processing raises that exception
    and the design is stored all the same. *)
Theorem outputs_follow_stored_design file w r w' evs ev :
  _update_system_design file prds_repo designs_repo w = (r, w') ->
  trace w' = trace w ++ evs ->
  ev ∈ evs ->
  is_output_call ev ->
  (exists text deps,
      EvSave SYSTEM_DESIGN_FILE_REPO file text deps ∈ evs
      /\ save_io SYSTEM_DESIGN_FILE_REPO file text = None
      /\ files w' !! (SYSTEM_DESIGN_FILE_REPO, file) = Some text)
  /\ (forall e, verdict ev = Some e -> r = Raise e).
Proof.
  intros H Ht Hin Hout. split.
  - destruct (update_cases _ _ _ _ H) as (evs1 & Hd & Hcases).
    assert (Hnot : ev ∉ evs1).
    { intros Hin1. apply (proj1 (Forall_forall _ _) Hd) in Hin1.
      by destruct ev. }
    destruct Hcases as [(e' & -> & Ht' & Hf)
                       |[(t & d & e' & -> & _ & Hio' & Ht' & Hf)
                        |(t & d & evs3 & _ & Hio' & Ho3 & Ht' & Hf)]];
      rewrite Ht in Ht'; apply app_inv_head in Ht'; subst evs.
    + done.
    + apply elem_of_app in Hin as [Hin|Hin]; [done|].
      apply list_elem_of_singleton in Hin. by subst ev.
    + eexists t, [_]. split_and!; [|done|by rewrite Hf, lookup_insert_eq].
      apply elem_of_app. right. apply elem_of_app. left. by apply list_elem_of_singleton.
  - intros e He.
    destruct (update_any _ _ _ _ H) as (a & n & fl & cl & fw & un & evs' & Hany).
    cbv zeta in Hany. destruct Hany as (Ht' & Hclean & _).
    rewrite Ht in Ht'. apply app_inv_head in Ht'. subst evs'.
    apply list_elem_of_split in Hin as (l1 & l2 & ->).
    by destruct (Hclean l1 ev l2 e eq_refl He).
Qed.

(** ** A whole run *)

Lemma steps_calls w l w' : steps w l w' -> llm_calls w' = llm_calls w + length l.
Proof.
  induction 1 as [w|w f d w1 l w2 Hu _ IH]; [simpl; lia|].
  apply update_ok_inv in Hu as (? & ? & ? & ? & ? & ? & ? & ? & ? & Hu).
  cbv zeta in Hu. destruct Hu as (_ & _ & _ & _ & _ & -> & _).
  simpl in *. lia.
Qed.

Lemma steps_files w l w' :
  steps w l w' -> NoDup l.*1 ->
  (forall f doc, (f, doc) ∈ l ->
     files w' !! (SYSTEM_DESIGN_FILE_REPO, f) = Some (content doc))
  /\ (forall k, (forall f, f ∈ l.*1 -> k <> (SYSTEM_DESIGN_FILE_REPO, f)) ->
       files w' !! k = files w !! k).
Proof.
  induction 1 as [w|w f d w1 l w2 Hu _ IH]; intros Hnd.
  { split; [by intros ?? ?%elem_of_nil|done]. }
  simpl in Hnd. apply NoDup_cons in Hnd as [Hf Hnd].
  destruct (IH Hnd) as [IH1 IH2].
  apply update_block in Hu as (_ & _ & _ & _ & Hfiles & _).
  split.
  - intros f' doc' [[= -> ->]|Hin]%elem_of_cons; [|by apply IH1].
    rewrite IH2, Hfiles; [by rewrite lookup_insert_eq|].
    intros f' Hf' [= ->]. done.
  - intros k Hk. rewrite IH2, Hfiles.
    + rewrite lookup_insert_ne; [done|]. intros <-. apply (Hk f); [|done].
      simpl. apply elem_of_cons. by left.
    + intros f' Hf'. apply Hk. simpl. apply elem_of_cons. by right.
Qed.

Lemma steps_prds w l w' :
  PRDS_FILE_REPO <> SYSTEM_DESIGN_FILE_REPO ->
  steps w l w' ->
  forall f, f ∈ l.*1 -> is_Some (files w !! (PRDS_FILE_REPO, f)).
Proof.
  intros Hne. induction 1 as [w|w f d w1 l w2 Hu _ IH]; intros f' Hin.
  { by apply elem_of_nil in Hin. }
  simpl in Hin. apply elem_of_cons in Hin as [->|Hin].
  - apply update_ok_inv in Hu as (t & ? & ? & ? & ? & ? & ? & ? & ? & Hu).
    cbv zeta in Hu. destruct Hu as (Hp & _). by exists t.
  - apply update_block in Hu as (_ & _ & _ & _ & Hfiles & _).
    specialize (IH f' Hin). rewrite Hfiles, lookup_insert_ne in IH; [done|].
    intros [= ? _]. by apply Hne.
Qed.

(** The saves in the block of a processed file: the one of its design. *)
Lemma block_save file doc block repo f text deps :
  file_block file doc block ->
  EvSave repo f text deps ∈ block ->
  repo = SYSTEM_DESIGN_FILE_REPO /\ f = file /\ text = content doc.
Proof.
  intros (call & prompt & renames & root & dep & a & n & fl & cl & fw & un
          & -> & Hren & ->) Hin.
  apply elem_of_app in Hin as [Hin|Hin].
  { by apply list_elem_of_singleton in Hin. }
  apply elem_of_app in Hin as [Hin|Hin].
  { by apply (proj1 (Forall_forall _ _) Hren) in Hin. }
  unfold persist_events, diagram_events in Hin.
  apply elem_of_app in Hin as [Hin|Hin].
  { apply list_elem_of_singleton in Hin. by injection Hin as -> -> -> _. }
  apply elem_of_app in Hin as [Hin|Hin].
  { destruct (String.eqb cl ""); [by apply elem_of_nil in Hin|].
    repeat (apply elem_of_cons in Hin as [Hin|Hin]; [done|]).
    by apply elem_of_nil in Hin. }
  apply elem_of_app in Hin as [Hin|Hin].
  { destruct (String.eqb fw ""); [by apply elem_of_nil in Hin|].
    repeat (apply elem_of_cons in Hin as [Hin|Hin]; [done|]).
    by apply elem_of_nil in Hin. }
  by apply list_elem_of_singleton in Hin.
Qed.

Lemma elem_of_concat {A} (x : A) (ls : list (list A)) :
  x ∈ concat ls -> exists l, x ∈ l /\ l ∈ ls.
Proof.
  induction ls as [|l ls IH]; simpl; [by intros ?%elem_of_nil|].
  intros [Hin|Hin]%elem_of_app.
  - exists l. split; [done|]. apply elem_of_cons. by left.
  - destruct (IH Hin) as (l' & ? & ?). exists l'. split; [done|].
    apply elem_of_cons. by right.
Qed.

Lemma steps_saves w l w' evs repo f text deps :
  steps w l w' -> NoDup l.*1 ->
  trace w' = trace w ++ evs ->
  EvSave repo f text deps ∈ evs ->
  repo = SYSTEM_DESIGN_FILE_REPO /\ f ∈ l.*1
  /\ files w' !! (SYSTEM_DESIGN_FILE_REPO, f) = Some text.
Proof.
  intros Hs Hnd Ht Hin.
  destruct (steps_blocks _ _ _ Hs) as (blocks & HF & Ht' & _).
  rewrite Ht in Ht'. apply app_inv_head in Ht'. subst evs.
  apply elem_of_concat in Hin as (block & Hin & Hb).
  apply list_elem_of_lookup in Hb as (i & Hi).
  destruct (Forall2_lookup_r _ _ _ _ _ HF Hi) as ([f0 d0] & Hl & Hfb).
  simpl in Hfb.
  destruct (block_save _ _ _ _ _ _ _ Hfb Hin) as (-> & -> & ->).
  apply list_elem_of_lookup_2 in Hl.
  split_and!; [done| |by apply (steps_files _ _ _ Hs Hnd)].
  apply list_elem_of_fmap. by exists (f0, d0).
Qed.

(** X6.  One model call per changed file name: a run that completes asked
    the model exactly as many times as there are distinct changed names,
    a name changed in both repositories counting once. *)
Theorem run_model_calls {Msg} (msg : Msg) format w out w' :
  NoDup (dict_keys (changed w PRDS_FILE_REPO)) ->
  NoDup (dict_keys (changed w SYSTEM_DESIGN_FILE_REPO)) ->
  run msg format w = (Ok out, w') ->
  llm_calls w' = llm_calls w + length (work_list w).
Proof.
  intros Hnd1 Hnd2 H.
  apply (run_inv _ _ _ _ _ Hnd1 Hnd2) in H
    as [(l & w1 & Hs & Hl & _ & ->)|(? & ? & ? & ? & ? & _ & _ & _ & [=])].
  rewrite <- Hl, length_fmap. apply steps_calls in Hs.
  by destruct l.
Qed.

(** X7.  What [run] returns is what it stored: when a run completes, the
    design repository holds, under every file name of the returned
    collection, the content of the document returned for that name. *)
Theorem run_returns_stored_designs {Msg} (msg : Msg) format w out w' f doc :
  NoDup (dict_keys (changed w PRDS_FILE_REPO)) ->
  NoDup (dict_keys (changed w SYSTEM_DESIGN_FILE_REPO)) ->
  run msg format w = (Ok out, w') ->
  (f, doc) ∈ docs (instruct_content out) ->
  files w' !! (SYSTEM_DESIGN_FILE_REPO, f) = Some (content doc)
  /\ filename doc = f /\ root_path doc = SYSTEM_DESIGN_FILE_REPO.
Proof.
  intros Hnd1 Hnd2 H Hin.
  pose proof (work_list_nodup w Hnd1 Hnd2) as Hnd.
  apply (run_inv _ _ _ _ _ Hnd1 Hnd2) in H
    as [(l & w1 & Hs & Hl & [= ->] & ->)|(? & ? & ? & ? & ? & _ & _ & _ & [=])].
  simpl in Hin. rewrite <- Hl in Hnd.
  assert (Hfiles : files w1 !! (SYSTEM_DESIGN_FILE_REPO, f) = Some (content doc))
    by (by apply (steps_files _ _ _ Hs Hnd)).
  split; [by destruct l|].
  destruct (steps_blocks _ _ _ Hs) as (blocks & HF & _).
  destruct (blocks_split _ _ _ _ HF Hin) as (_ & block & _ & Hfb & _).
  destruct Hfb as (? & ? & ? & ? & ? & ? & ? & ? & ? & ? & ? & -> & _). done.
Qed.

(** X8.  [run] writes designs of changed names only: whatever the outcome,
    every stored file other than the design of a changed file name is as
    it was; in particular no PRD is ever written. *)
Theorem run_leaves_other_files {Msg} (msg : Msg) format w r w' k :
  NoDup (dict_keys (changed w PRDS_FILE_REPO)) ->
  NoDup (dict_keys (changed w SYSTEM_DESIGN_FILE_REPO)) ->
  run msg format w = (r, w') ->
  (forall f, f ∈ work_list w -> k <> (SYSTEM_DESIGN_FILE_REPO, f)) ->
  files w' !! k = files w !! k.
Proof.
  intros Hnd1 Hnd2 H Hk.
  pose proof (work_list_nodup w Hnd1 Hnd2) as Hnd.
  apply (run_inv _ _ _ _ _ Hnd1 Hnd2) in H
    as [(l & w1 & Hs & Hl & _ & ->)|(l1 & f & l2 & w1 & e & Hl & Hs & Hu & _)].
  - rewrite <- Hl in Hnd, Hk.
    transitivity (files w1 !! k); [by destruct l|].
    by apply (steps_files _ _ _ Hs Hnd).
  - rewrite Hl in Hnd, Hk. apply NoDup_app in Hnd as (Hnd & _ & _).
    destruct (update_any _ _ _ _ Hu) as (? & ? & ? & ? & ? & ? & ? & Hany).
    cbv zeta in Hany. destruct Hany as (_ & _ & _ & _ & _ & _ & Hfr & _).
    rewrite Hfr.
    + apply (steps_files _ _ _ Hs Hnd). intros f' Hf'. apply Hk.
      apply elem_of_app. by left.
    + apply Hk. apply elem_of_app. right. apply elem_of_cons. by left.
Qed.

(** X9.  [run] does not undo the files it finished: whatever the outcome,
    also when a later file raised, every save the file repository accepted
    during the run is in the repository at the end, under its name and
    with the text that was saved. *)
Theorem run_keeps_accepted_saves {Msg} (msg : Msg) format w r w' evs repo f text deps :
  NoDup (dict_keys (changed w PRDS_FILE_REPO)) ->
  NoDup (dict_keys (changed w SYSTEM_DESIGN_FILE_REPO)) ->
  run msg format w = (r, w') ->
  trace w' = trace w ++ evs ->
  EvSave repo f text deps ∈ evs ->
  save_io repo f text = None ->
  repo = SYSTEM_DESIGN_FILE_REPO /\ f ∈ work_list w /\ files w' !! (repo, f) = Some text.
Proof.
  intros Hnd1 Hnd2 H Ht Hin Hio.
  pose proof (work_list_nodup w Hnd1 Hnd2) as Hnd.
  apply (run_inv _ _ _ _ _ Hnd1 Hnd2) in H
    as [(l & w1 & Hs & Hl & _ & ->)|(l1 & f1 & l2 & w1 & e & Hl & Hs & Hu & _)].
  - rewrite <- Hl in Hnd |- *.
    destruct (steps_blocks _ _ _ Hs) as (blocks & _ & Ht1 & _).
    assert (Hin1 : EvSave repo f text deps ∈ concat blocks).
    { destruct l; simpl in Ht; rewrite Ht1 in Ht.
      - rewrite <- app_assoc in Ht. apply app_inv_head in Ht. subst evs.
        apply elem_of_app in Hin as [Hin|Hin]; [done|].
        by apply list_elem_of_singleton in Hin.
      - apply app_inv_head in Ht. by subst evs. }
    destruct (steps_saves _ _ _ _ _ _ _ _ Hs Hnd Ht1 Hin1) as (-> & Hf & Hfiles).
    split_and!; [done|done|by destruct l].
  - rewrite Hl in Hnd |- *.
    pose proof Hnd as Hnd'. apply NoDup_app in Hnd' as (Hnd1' & Hdisj & Hnd2').
    apply NoDup_cons in Hnd2' as [_ _].
    destruct (steps_blocks _ _ _ Hs) as (blocks & _ & Ht1 & _).
    destruct (update_cases _ _ _ _ Hu) as (evs1 & Hd & Hcases).
    assert (Hnot : EvSave repo f text deps ∉ evs1).
    { intros Hin1. by apply (proj1 (Forall_forall _ _) Hd) in Hin1. }
    assert (Hearlier : EvSave repo f text deps ∈ concat blocks ->
              repo = SYSTEM_DESIGN_FILE_REPO /\ f ∈ l1.*1 ++ f1 :: l2
              /\ files w1 !! (SYSTEM_DESIGN_FILE_REPO, f) = Some text /\ f <> f1).
    { intros Hin1.
      destruct (steps_saves _ _ _ _ _ _ _ _ Hs Hnd1' Ht1 Hin1) as (-> & Hf & Hfiles).
      split_and!; [done|apply elem_of_app; by left|done|].
      intros ->. apply (Hdisj f1 Hf). apply elem_of_cons. by left. }
    assert (Hlater : f1 ∈ l1.*1 ++ f1 :: l2).
    { apply elem_of_app. right. apply elem_of_cons. by left. }
    destruct Hcases as [(e' & _ & Ht' & Hf)
                       |[(t & d & e' & _ & _ & Hio' & Ht' & Hf)
                        |(t & d & evs3 & _ & Hio' & Ho3 & Ht' & Hf)]];
      rewrite Ht1, Ht, <- app_assoc in Ht'; apply app_inv_head in Ht'; subst evs.
    + apply elem_of_app in Hin as [Hin|Hin]; [|done].
      destruct (Hearlier Hin) as (-> & ? & ? & _). rewrite Hf. done.
    + apply elem_of_app in Hin as [Hin|Hin].
      { destruct (Hearlier Hin) as (-> & ? & ? & _). rewrite Hf. done. }
      apply elem_of_app in Hin as [Hin|Hin]; [done|].
      apply list_elem_of_singleton in Hin. injection Hin as -> -> -> _. congruence.
    + apply elem_of_app in Hin as [Hin|Hin].
      { destruct (Hearlier Hin) as (-> & ? & ? & Hne). rewrite Hf.
        split_and!; [done|done|]. rewrite lookup_insert_ne; [done|]. congruence. }
      apply elem_of_app in Hin as [Hin|Hin]; [done|].
      apply elem_of_app in Hin as [Hin|Hin].
      * apply list_elem_of_singleton in Hin. injection Hin as -> -> -> _.
        split_and!; [done|done|]. by rewrite Hf, lookup_insert_eq.
      * by apply (proj1 (Forall_forall _ _) Ho3) in Hin.
Qed.

(** X10.  [run] completes only when every changed file name has a stored
    PRD: a name of either change set without a PRD makes the run raise,
    also a name that is changed in the design repository only. *)
Theorem run_needs_every_prd {Msg} (msg : Msg) format w out w' f :
  PRDS_FILE_REPO <> SYSTEM_DESIGN_FILE_REPO ->
  NoDup (dict_keys (changed w PRDS_FILE_REPO)) ->
  NoDup (dict_keys (changed w SYSTEM_DESIGN_FILE_REPO)) ->
  run msg format w = (Ok out, w') ->
  f ∈ dict_keys (changed w PRDS_FILE_REPO)
  \/ f ∈ dict_keys (changed w SYSTEM_DESIGN_FILE_REPO) ->
  is_Some (files w !! (PRDS_FILE_REPO, f)).
Proof.
  intros Hne Hnd1 Hnd2 H Hf. apply work_list_elem in Hf.
  apply (run_inv _ _ _ _ _ Hnd1 Hnd2) in H
    as [(l & w1 & Hs & Hl & _ & _)|(? & ? & ? & ? & ? & _ & _ & _ & [=])].
  rewrite <- Hl in Hf. by apply (steps_prds _ _ _ Hne Hs).
Qed.

(** X11.  A new design made while [CONFIG.WORKDIR] is unset moves the
    workspace: the root is renamed once, right after the model call and
    before anything is saved, to the package name as it is persisted (the
    stripped one), and the diagrams go under the new root. *)
Theorem new_design_moves_workspace file w doc w' :
  files w !! (SYSTEM_DESIGN_FILE_REPO, file) = None ->
  WORKDIR w = false ->
  _update_system_design file prds_repo designs_repo w = (Ok doc, w') ->
  exists prompt fields name classes flow dependency,
    json_loads (content doc) = Some (JObj fields)
    /\ dict_get fields "Python package name" = Some (JStr name)
    /\ rename_root (workdir w) (JStr name) = Ok (workdir w')
    /\ trace w' = trace w
                  ++ [EvAsk (llm_calls w) prompt OUTPUT_MAPPING prompt_format;
                      EvRenameRoot (workdir w) (JStr name)]
                  ++ persist_events (workdir w') file doc dependency classes flow.
Proof.
  intros Ho HW H.
  destruct (update_ok_inv _ _ _ _ H)
    as (prd_text & prompt & out & a & rn & fl & cl & fw & un & Hp & Hprompt & Hres & Hic
        & Hdoc & -> & Hq).
  unfold design_renames, design_root, rename_events in *. rewrite Ho, HW in *.
  apply Forall_cons in Hq as [_ Hq]. apply Forall_cons in Hq as [Hren _].
  simpl in Hren.
  destruct (rename_root (workdir w) (JStr (strip_quotes rn))) as [d|] eqn:Hd; [|done].
  exists prompt, (six_fields a (strip_quotes rn) fl cl fw un), (strip_quotes rn), cl, fw,
         (root_relative_path (mkDocument PRDS_FILE_REPO file prd_text)).
  split_and!; [|done|done|done].
  rewrite Hdoc. simpl. apply json_loads_dumps, json_wf_six.
Qed.

(** X12.  The only file a processing saves is the design of its file name,
    and the save names exactly one dependency, the stored PRD of the same
    name; this holds for every save in the trace, whatever the outcome. *)
Theorem save_names_prd_dependency file w r w' evs repo f text deps :
  _update_system_design file prds_repo designs_repo w = (r, w') ->
  trace w' = trace w ++ evs ->
  EvSave repo f text deps ∈ evs ->
  repo = SYSTEM_DESIGN_FILE_REPO /\ f = file
  /\ exists prd_text,
      files w !! (PRDS_FILE_REPO, file) = Some prd_text
      /\ deps = [root_relative_path (mkDocument PRDS_FILE_REPO file prd_text)].
Proof.
  intros H Ht Hin.
  destruct (update_cases _ _ _ _ H) as (evs1 & Hd & Hcases).
  assert (Hnot : EvSave repo f text deps ∉ evs1).
  { intros Hin1. by apply (proj1 (Forall_forall _ _) Hd) in Hin1. }
  destruct Hcases as [(e' & _ & Ht' & _)
                     |[(t & p & e' & _ & Hp & _ & Ht' & _)
                      |(t & p & evs3 & Hp & _ & Ho3 & Ht' & _)]];
    rewrite Ht in Ht'; apply app_inv_head in Ht'; subst evs.
  - done.
  - apply elem_of_app in Hin as [Hin|Hin]; [done|].
    apply list_elem_of_singleton in Hin. injection Hin as -> -> -> ->.
    split_and!; [done|done|]. by exists p.
  - apply elem_of_app in Hin as [Hin|Hin]; [done|].
    apply elem_of_app in Hin as [Hin|Hin].
    + apply list_elem_of_singleton in Hin. injection Hin as -> -> -> ->.
      split_and!; [done|done|]. by exists p.
    + by apply (proj1 (Forall_forall _ _) Ho3) in Hin.
Qed.

(** ** Progress *)

Lemma reliable_ret Pre {A} (a : A) (Post : A -> Prop) :
  (Pre -> Post a) -> reliable Pre (ret a) Post.
Proof.
  intros HP w r w' [= <- <-]. exists []. rewrite app_nil_r. split; [done|].
  intros HPre _. exists a. split; [done|]. by apply HP.
Qed.

Lemma reliable_lift Pre {A} (r : result A) (Post : A -> Prop) :
  (Pre -> exists a, r = Ok a /\ Post a) -> reliable Pre (lift r) Post.
Proof.
  intros HP w r' w' [= <- <-]. exists []. rewrite app_nil_r. split; [done|].
  intros HPre _. by apply HP.
Qed.

Lemma reliable_read Pre {A} (f : World -> A) :
  reliable Pre (fun w => (Ok (f w), w)) (fun _ => True).
Proof.
  intros w r w' [= <- <-]. exists []. rewrite app_nil_r. split; [done|].
  intros _ _. by exists (f w).
Qed.

Lemma reliable_emit Pre ev : reliable Pre (emit ev) (fun _ => verdict ev = None).
Proof.
  intros w r w' [= <- <-]. exists [ev]. split; [done|].
  intros _ Hq. apply Forall_inv in Hq. by exists tt.
Qed.

Lemma reliable_check Pre (o : option exn) :
  (Pre -> o = None) -> reliable Pre (check o) (fun _ => True).
Proof.
  intros HP w r w' H. exists []. rewrite app_nil_r.
  destruct o as [e|]; injection H as <- <-; (split; [done|]); intros HPre _.
  - by specialize (HP HPre).
  - by exists tt.
Qed.

Lemma reliable_bind Pre {A B} (m : M A) (k : A -> M B) (Post1 : A -> Prop)
    (Post2 : B -> Prop) :
  reliable Pre m Post1 ->
  (forall a, reliable (Pre /\ Post1 a) (k a) Post2) ->
  reliable Pre (bind m k) Post2.
Proof.
  intros Hm Hk w r w' H.
  apply bind_inv in H as [(e & H & ->)|(a & w1 & H & Hrest)].
  - destruct (Hm _ _ _ H) as (evs & Ht & Hc). exists evs. split; [done|].
    intros HPre Hq. by destruct (Hc HPre Hq) as (? & [=] & _).
  - destruct (Hm _ _ _ H) as (evs1 & Ht1 & Hc1).
    destruct (Hk a _ _ _ Hrest) as (evs2 & Ht2 & Hc2).
    exists (evs1 ++ evs2). split; [by rewrite Ht2, Ht1, app_assoc|].
    intros HPre Hq. apply Forall_app in Hq as [Hq1 Hq2].
    destruct (Hc1 HPre Hq1) as (a' & [= <-] & HP1). by apply Hc2.
Qed.

Lemma reliable_weaken (Pre Pre' : Prop) {A} (m : M A) (Post Post' : A -> Prop) :
  (Pre' -> Pre) -> (forall a, Post a -> Post' a) ->
  reliable Pre m Post -> reliable Pre' m Post'.
Proof.
  intros HPre HPost Hm w r w' H. destruct (Hm _ _ _ H) as (evs & Ht & Hc).
  exists evs. split; [done|]. intros HP' Hq.
  destruct (Hc (HPre HP') Hq) as (a & -> & HP). exists a. split; [done|].
  by apply HPost.
Qed.

Lemma reliable_aask_v1 Pre prompt class_name format :
  reliable Pre (_aask_v1 prompt class_name OUTPUT_MAPPING format) six_output.
Proof.
  intros w r w' [= <- <-]. eexists [_]. split; [done|].
  intros _ Hq. apply Forall_inv in Hq. simpl in Hq.
  destruct (aask_v1_result (llm_calls w) prompt OUTPUT_MAPPING format)
    as [out|] eqn:Hout; [|done].
  exists out. split; [done|]. by apply aask_v1_result_six in Hout.
Qed.

Lemma fix_package_name_ok out :
  six_output out -> exists sd, fix_package_name out = Ok sd /\ six_output sd.
Proof.
  destruct out as [raw ic]. intros (a & n & fl & cl & fw & un & Hic).
  simpl in Hic. subst ic. eexists. split; [apply fix_package_name_six|].
  by repeat eexists.
Qed.

Lemma reliable_rename_workspace Pre sd :
  (Pre -> six_output sd) -> reliable Pre (_rename_workspace (inl sd)) (fun _ => True).
Proof.
  intros HP w r w' H. unfold _rename_workspace in H.
  destruct (WORKDIR w).
  { injection H as <- <-. exists []. rewrite app_nil_r. split; [done|].
    intros _ _. by exists tt. }
  apply bind_inv in H as [(e & [= He <-] & ->)|(n & w1 & [= Hn <-] & H)].
  { exists []. rewrite app_nil_r. split; [done|]. intros HPre _.
    destruct (HP HPre) as (a & n & fl & cl & fw & un & Hic).
    by rewrite Hic in He. }
  unfold git_rename_root in H. simpl in H.
  exists [EvRenameRoot (workdir w) n].
  destruct (rename_root (workdir w) n) as [d|e] eqn:Hd; injection H as <- <-;
    (split; [done|]); intros _ Hq; apply Forall_inv in Hq; simpl in Hq.
  - by exists tt.
  - by rewrite Hd in Hq.
Qed.

Lemma reliable_new_system_design Pre context format :
  (Pre -> exists pf, get_template templates format = Ok pf) ->
  reliable Pre (_new_system_design context format) six_output.
Proof.
  intros HP. unfold _new_system_design.
  eapply reliable_bind with (Post1 := fun _ => True).
  { apply reliable_lift. intros HPre. destruct (HP HPre) as (pf & ->). by exists pf. }
  intros pf. eapply reliable_bind; [apply reliable_aask_v1|]. intros out.
  eapply reliable_bind with (Post1 := six_output).
  { apply reliable_lift. intros (_ & Hout). by apply fix_package_name_ok. }
  intros sd. eapply reliable_bind.
  { apply reliable_rename_workspace. by intros (_ & ?). }
  intros u. apply reliable_ret. by intros ((_ & ?) & _).
Qed.

Lemma reliable_merge Pre prd_doc system_design_doc format :
  (Pre -> is_Some prd_doc) ->
  reliable Pre (_merge prd_doc system_design_doc format)
    (fun doc => six_content (content doc)).
Proof.
  intros HP. unfold _merge.
  eapply reliable_bind with (Post1 := fun _ => True).
  { apply reliable_lift. intros HPre. destruct (HP HPre) as (prd & ->).
    by exists (content prd). }
  intros ctx. eapply reliable_bind; [apply reliable_aask_v1|]. intros out.
  eapply reliable_bind with (Post1 := six_output).
  { apply reliable_lift. intros (_ & Hout). by apply fix_package_name_ok. }
  intros sd. apply reliable_ret.
  intros (_ & (a & n & fl & cl & fw & un & Hic)). simpl. rewrite Hic.
  by exists a, n, fl, cl, fw, un.
Qed.

Lemma reliable_save_mermaid_file Pre data pathname :
  reliable Pre (_save_mermaid_file data pathname) (fun _ => True).
Proof.
  unfold _save_mermaid_file.
  eapply reliable_bind; [apply reliable_emit|]. intros ?.
  eapply reliable_bind; [apply reliable_check; by intros (_ & ?)|]. intros ?.
  eapply reliable_bind; [apply reliable_emit|]. intros ?.
  apply reliable_check. by intros (_ & ?).
Qed.

Lemma reliable_save_data_api_design Pre doc :
  (Pre -> six_content (content doc)) ->
  reliable Pre (_save_data_api_design doc) (fun _ => True).
Proof.
  intros HP. unfold _save_data_api_design.
  eapply reliable_bind with (Post1 := fun m => exists d, m = JObj d).
  { apply reliable_lift. intros HPre.
    destruct (HP HPre) as (a & n & fl & cl & fw & un & ->).
    rewrite loads_six. eexists. split; [done|]. by eexists. }
  intros m. eapply reliable_bind with (Post1 := fun _ => True).
  { apply reliable_lift. intros (_ & d & ->). simpl. by eexists. }
  intros [data|]; [|by apply reliable_ret].
  destruct (truthy (Some data)); [|by apply reliable_ret].
  eapply reliable_bind; [apply (reliable_read _ workdir)|]. intros root.
  eapply reliable_bind; [apply reliable_save_mermaid_file|]. intros ?.
  eapply reliable_weaken; [| |apply reliable_emit]; done.
Qed.

Lemma reliable_save_seq_flow Pre doc :
  (Pre -> six_content (content doc)) ->
  reliable Pre (_save_seq_flow doc) (fun _ => True).
Proof.
  intros HP. unfold _save_seq_flow.
  eapply reliable_bind with (Post1 := fun m => exists d, m = JObj d).
  { apply reliable_lift. intros HPre.
    destruct (HP HPre) as (a & n & fl & cl & fw & un & ->).
    rewrite loads_six. eexists. split; [done|]. by eexists. }
  intros m. eapply reliable_bind with (Post1 := fun _ => True).
  { apply reliable_lift. intros (_ & d & ->). simpl. by eexists. }
  intros [data|]; [|by apply reliable_ret].
  destruct (truthy (Some data)); [|by apply reliable_ret].
  eapply reliable_bind; [apply (reliable_read _ workdir)|]. intros root.
  eapply reliable_bind; [apply reliable_save_mermaid_file|]. intros ?.
  eapply reliable_weaken; [| |apply reliable_emit]; done.
Qed.

Lemma reliable_save_pdf Pre doc : reliable Pre (_save_pdf doc) (fun _ => True).
Proof.
  unfold _save_pdf, repo_save_pdf.
  eapply reliable_bind; [by apply (reliable_ret _ _ (fun _ => True))|]. intros repo.
  eapply reliable_bind; [apply reliable_emit|]. intros ?.
  apply reliable_check. by intros (_ & ?).
Qed.

Lemma reliable_repo_save Pre repo file text dependencies :
  reliable Pre (repo_save repo file text dependencies) (fun _ => True).
Proof.
  intros w r w' H. unfold repo_save, bind, emit in H. simpl in H.
  exists [EvSave (relative_path repo) file text dependencies].
  destruct (save_io (relative_path repo) file text) as [e|] eqn:Hio; simpl in H;
    injection H as <- <-; (split; [done|]); intros _ Hq; apply Forall_inv in Hq;
    simpl in Hq.
  - by rewrite Hio in Hq.
  - by exists tt.
Qed.

Lemma reliable_derive_outputs Pre doc :
  (Pre -> six_content (content doc)) ->
  reliable Pre (derive_outputs doc) (fun _ => True).
Proof.
  intros HP. unfold derive_outputs.
  eapply reliable_bind; [by apply reliable_save_data_api_design|]. intros ?.
  eapply reliable_bind; [apply reliable_save_seq_flow; by intros (? & _); apply HP|].
  intros ?.
  eapply reliable_bind; [apply reliable_save_pdf|]. intros ?.
  by apply reliable_ret.
Qed.

(** With a stored PRD, and a prompt template when there is no prior
    design, processing a file returns a document whenever none of the
    calls it made raised. *)
Lemma update_reliable file w r w' :
  is_Some (files w !! (PRDS_FILE_REPO, file)) ->
  (files w !! (SYSTEM_DESIGN_FILE_REPO, file) = None ->
   exists pf, get_template templates prompt_format = Ok pf) ->
  _update_system_design file prds_repo designs_repo w = (r, w') ->
  exists evs, trace w' = trace w ++ evs /\ (quiet evs -> exists doc, r = Ok doc).
Proof.
  intros [prd_text Hp] Htpl H. rewrite update_unfold, Hp in H. cbv zeta in H.
  assert (Hrel : reliable True
            (let* doc :=
               match files w !! (SYSTEM_DESIGN_FILE_REPO, file) with
               | Some old =>
                   _merge (Some (mkDocument PRDS_FILE_REPO file prd_text))
                          (mkDocument SYSTEM_DESIGN_FILE_REPO file old) prompt_format
               | None =>
                   let* context :=
                     lift (getattr_content
                             (Some (mkDocument PRDS_FILE_REPO file prd_text))) in
                   let* system_design := _new_system_design context prompt_format in
                   ret (mkDocument SYSTEM_DESIGN_FILE_REPO file
                          (json_dumps (JObj (instruct_content system_design))))
               end in
             let* dependency :=
               lift (getattr_root_relative_path
                       (Some (mkDocument PRDS_FILE_REPO file prd_text))) in
             let* _ := repo_save designs_repo file (content doc) [dependency] in
             derive_outputs doc) (fun _ => True)).
  { eapply reliable_bind with (Post1 := fun doc => six_content (content doc)).
    { destruct (files w !! (SYSTEM_DESIGN_FILE_REPO, file)) as [old|].
      - apply reliable_merge. by eauto.
      - eapply reliable_bind with (Post1 := fun _ => True).
        { apply reliable_lift. by eexists. }
        intros ctx. eapply reliable_bind.
        { apply reliable_new_system_design. intros _. by apply Htpl. }
        intros sd. apply reliable_ret.
        intros (_ & (a & n & fl & cl & fw & un & Hic)). simpl. rewrite Hic.
        by exists a, n, fl, cl, fw, un. }
    intros doc. eapply reliable_bind with (Post1 := fun _ => True).
    { apply reliable_lift. by eexists. }
    intros dep. eapply reliable_bind; [apply reliable_repo_save|]. intros ?.
    apply reliable_derive_outputs. by intros (((_ & ?) & _) & _). }
  destruct (Hrel _ _ _ H) as (evs & Ht & Hc). exists evs. split; [done|].
  intros Hq. destruct (Hc I Hq) as (doc & -> & _). by exists doc.
Qed.

(** X13.  Processing a file succeeds unless something outside it fails:
    with a stored PRD, and a prompt template when there is no prior design,
    the processing returns a document whenever none of the calls it made
    raised.  The package-name fix, the decoding of the design and the
    look-up of its fields never raise on a validated answer. *)
Theorem update_succeeds_unless_a_call_raises file w r w' evs :
  is_Some (files w !! (PRDS_FILE_REPO, file)) ->
  (files w !! (SYSTEM_DESIGN_FILE_REPO, file) = None ->
   exists pf, get_template templates prompt_format = Ok pf) ->
  _update_system_design file prds_repo designs_repo w = (r, w') ->
  trace w' = trace w ++ evs ->
  quiet evs ->
  exists doc, r = Ok doc.
Proof.
  intros Hp Htpl H Ht Hq.
  destruct (update_reliable _ _ _ _ Hp Htpl H) as (evs' & Ht' & Hc).
  rewrite Ht in Ht'. apply app_inv_head in Ht'. subst evs'. by apply Hc.
Qed.

Lemma not_quiet evs : ~ quiet evs -> exists evs1 ev evs2 e,
  evs = evs1 ++ ev :: evs2 /\ verdict ev = Some e /\ quiet evs1.
Proof.
  induction evs as [|ev evs IH]; intros Hn.
  { destruct Hn. constructor. }
  destruct (verdict ev) as [e|] eqn:Hv.
  { exists [], ev, evs, e. split_and!; [done|done|constructor]. }
  destruct IH as (evs1 & ev' & evs2 & e & -> & Hv' & Hq1).
  { intros Hq. apply Hn. by constructor. }
  exists (ev :: evs1), ev', evs2, e. split_and!; [done|done|by constructor].
Qed.

Lemma quiet_dec evs : quiet evs \/ ~ quiet evs.
Proof.
  induction evs as [|ev evs [IH|IH]].
  - left. constructor.
  - destruct (verdict ev) as [e|] eqn:Hv.
    + right. intros Hq. apply Forall_inv in Hq. congruence.
    + left. by constructor.
  - right. intros Hq. apply IH. by eapply Forall_inv_tail.
Qed.

(** The exception of a processing that had what it needs is that of its
    last call. *)
Lemma update_blames_last_call file w e w' :
  is_Some (files w !! (PRDS_FILE_REPO, file)) ->
  (files w !! (SYSTEM_DESIGN_FILE_REPO, file) = None ->
   exists pf, get_template templates prompt_format = Ok pf) ->
  _update_system_design file prds_repo designs_repo w = (Raise e, w') ->
  exists evs ev,
    trace w' = trace w ++ evs ++ [ev] /\ verdict ev = Some e /\ quiet evs.
Proof.
  intros Hp Htpl H.
  destruct (update_any _ _ _ _ H) as (? & ? & ? & ? & ? & ? & evs & Hany).
  cbv zeta in Hany. destruct Hany as (Ht & Hclean & _).
  destruct (update_reliable _ _ _ _ Hp Htpl H) as (evs' & Ht' & Hc).
  rewrite Ht in Ht'. apply app_inv_head in Ht'. subst evs'.
  destruct (quiet_dec evs) as [Hq|Hq].
  { by destruct (Hc Hq) as (? & [=]). }
  apply not_quiet in Hq as (evs1 & ev & evs2 & e' & -> & Hv & Hq1).
  destruct (Hclean _ _ _ _ eq_refl Hv) as ([= ->] & ->).
  by exists evs1, ev.
Qed.

(** X14.  The three ways processing a file can raise: the PRD is missing
    ([AttributeError], nothing was called); there is no prior design and
    [get_template] raised (nothing was called); or the last call made
    raised, every call before it having succeeded, and the exception is
    the one of that call.  Nothing else raises. *)
Theorem update_failure_causes file w e w' :
  _update_system_design file prds_repo designs_repo w = (Raise e, w') ->
  (files w !! (PRDS_FILE_REPO, file) = None
   /\ e = AttributeError "content" /\ w' = w)
  \/ (files w !! (SYSTEM_DESIGN_FILE_REPO, file) = None
      /\ get_template templates prompt_format = Raise e /\ w' = w)
  \/ (exists evs ev,
        trace w' = trace w ++ evs ++ [ev] /\ verdict ev = Some e /\ quiet evs).
Proof.
  intros H.
  destruct (files w !! (PRDS_FILE_REPO, file)) as [prd_text|] eqn:Hp.
  2: { left. rewrite update_unfold, Hp in H. cbv zeta in H.
       destruct (files w !! (SYSTEM_DESIGN_FILE_REPO, file));
         by injection H as <- <-. }
  right.
  destruct (files w !! (SYSTEM_DESIGN_FILE_REPO, file)) as [old|] eqn:Ho.
  - right. apply update_blames_last_call in H; [done|by rewrite Hp|by rewrite Ho].
  - destruct (get_template templates prompt_format) as [pf|e'] eqn:Htpl.
    + right. apply update_blames_last_call in H; [done|by rewrite Hp|by eauto].
    + left. rewrite update_unfold, Hp, Ho in H. cbv zeta in H.
      unfold _new_system_design, bind, lift in H. simpl in H. rewrite Htpl in H.
      by injection H as <- <-.
Qed.

(** X15.  [run] succeeds unless something outside it fails: when every
    changed file name has a stored PRD, and a prompt template exists if
    some changed name has no prior design, a run none of whose calls
    raised returns its result. *)
Theorem run_succeeds_unless_a_call_raises {Msg} (msg : Msg) format w r w' evs :
  PRDS_FILE_REPO <> SYSTEM_DESIGN_FILE_REPO ->
  NoDup (dict_keys (changed w PRDS_FILE_REPO)) ->
  NoDup (dict_keys (changed w SYSTEM_DESIGN_FILE_REPO)) ->
  (forall f, f ∈ work_list w -> is_Some (files w !! (PRDS_FILE_REPO, f))) ->
  (forall f, f ∈ work_list w -> files w !! (SYSTEM_DESIGN_FILE_REPO, f) = None ->
             exists pf, get_template templates prompt_format = Ok pf) ->
  run msg format w = (r, w') ->
  trace w' = trace w ++ evs ->
  quiet evs ->
  exists out, r = Ok out.
Proof.
  intros Hne Hnd1 Hnd2 Hprd Htpl H Ht Hq.
  pose proof (work_list_nodup w Hnd1 Hnd2) as Hnd.
  apply (run_inv _ _ _ _ _ Hnd1 Hnd2) in H
    as [(l & w1 & _ & _ & -> & _)|(l1 & f & l2 & w1 & e & Hl & Hs & Hu & ->)];
    [by eexists|exfalso].
  rewrite Hl in Hnd, Hprd, Htpl.
  pose proof Hnd as Hnd'. apply NoDup_app in Hnd' as (Hnd1' & Hdisj & _).
  assert (Hin : f ∈ l1.*1 ++ f :: l2).
  { apply elem_of_app. right. apply elem_of_cons. by left. }
  destruct (steps_files _ _ _ Hs Hnd1') as [_ Hframe].
  destruct (update_blames_last_call f w1 e w') as (evs0 & ev & Ht0 & Hv & _).
  - rewrite Hframe; [by apply Hprd|]. intros f' _ [= ? _]. by apply Hne.
  - rewrite Hframe; [by apply Htpl|]. intros f' Hf' [= ->].
    apply (Hdisj _ Hf'). apply elem_of_cons. by left.
  - done.
  - destruct (steps_blocks _ _ _ Hs) as (blocks & _ & Ht1 & _).
    rewrite Ht1, Ht, <- app_assoc in Ht0. apply app_inv_head in Ht0. subst evs.
    apply Forall_app in Hq as [_ Hq]. apply Forall_app in Hq as [_ Hq].
    apply Forall_inv in Hq. congruence.
Qed.

(** ** The package-name fix on any answer *)

Lemma dict_get_set_eq {V} (d : pydict V) k v : dict_get (dict_set d k v) k = Some v.
Proof.
  induction d as [|[k' v'] d IH]; simpl.
  - by rewrite String.eqb_refl.
  - destruct (String.eqb k' k) eqn:Hk; simpl; by rewrite Hk.
Qed.

Lemma dict_get_set_ne {V} (d : pydict V) k k' v :
  k' <> k -> dict_get (dict_set d k v) k' = dict_get d k'.
Proof.
  intros Hne. induction d as [|[k0 v0] d IH]; simpl.
  - destruct (String.eqb k k') eqn:Hk; [|done]. by apply String.eqb_eq in Hk.
  - destruct (String.eqb k0 k) eqn:Hk; simpl.
    + apply String.eqb_eq in Hk as ->.
      destruct (String.eqb k k') eqn:Hk'; [|done]. by apply String.eqb_eq in Hk'.
    + by rewrite IH.
Qed.

Lemma dict_keys_set {V} (d : pydict V) k v :
  dict_mem d k = true -> dict_keys (dict_set d k v) = dict_keys d.
Proof.
  unfold dict_mem, dict_keys. induction d as [|[k0 v0] d IH]; simpl; [done|].
  destruct (String.eqb k0 k) eqn:Hk; simpl; [done|]. intros H. f_equal. by apply IH.
Qed.

(** X16.  The package-name fix touches one field only.  On any answer on
    which it succeeds, the raw text of the answer, the fields and their
    order are kept, every other field keeps its value, and the package
    name, which was a string, is replaced by its stripped form. *)
Theorem fix_package_name_frame out out' :
  fix_package_name out = Ok out' ->
  out_content out' = out_content out
  /\ dict_keys (instruct_content out') = dict_keys (instruct_content out)
  /\ (forall k, k <> "Python package name" ->
        dict_get (instruct_content out') k = dict_get (instruct_content out) k)
  /\ exists raw,
      dict_get (instruct_content out) "Python package name" = Some (JStr raw)
      /\ dict_get (instruct_content out') "Python package name"
         = Some (JStr (strip_quotes raw)).
Proof.
  unfold fix_package_name, dict_item, setattr.
  destruct (dict_get (instruct_content out) "Python package name") as [v|] eqn:Hv;
    [|done].
  destruct v as [raw| |]; simpl; [|done..].
  destruct (dict_mem (instruct_content out) "Python package name") eqn:Hm; [|done].
  intros [= <-]. simpl. split_and!.
  - done.
  - by apply dict_keys_set.
  - intros k Hk. by apply dict_get_set_ne.
  - exists raw. split; [done|]. apply dict_get_set_eq.
Qed.

(** ** What the three strips undo *)

Lemma lstrip_all p a s : all_chars p a = true -> lstrip p (a +:+ s) = lstrip p s.
Proof.
  induction a as [|c a IH]; simpl; [by rewrite append_nil_l|].
  intros [Hc Ha]%andb_true_iff. rewrite Hc. by apply IH.
Qed.

Lemma lstrip_clean p s : clean_ends p s -> lstrip p s = s.
Proof.
  intros [->|[(c & Hc & Hp) _]]; [done|].
  destruct s as [|a s]; [done|]. simpl in *. injection Hc as ->. by rewrite Hp.
Qed.

Lemma rstrip_all p a : all_chars p a = true -> rstrip p a = "".
Proof.
  induction a as [|c a IH]; simpl; [done|].
  intros [Hc Ha]%andb_true_iff. by rewrite IH, Hc.
Qed.

Lemma rstrip_keeps p s : ends_outside p s -> rstrip p s = s.
Proof.
  induction s as [|c s IH]; intros (x & Hx & Hp); [done|].
  simpl. destruct s as [|c' s'].
  - simpl in *. injection Hx as ->. by rewrite Hp.
  - rewrite IH by (exists x; split; [exact Hx|done]). done.
Qed.

Lemma rstrip_app_keeps p s a :
  ends_outside p s -> all_chars p a = true -> rstrip p (s +:+ a) = s.
Proof.
  intros Hs Ha. induction s as [|c s IH].
  { by destruct Hs as (? & [=] & _). }
  rewrite append_cons. simpl. destruct s as [|c' s'].
  - rewrite append_nil_l, (rstrip_all _ _ Ha).
    destruct Hs as (x & [= ->] & ->). done.
  - rewrite IH.
    + done.
    + destruct Hs as (x & Hx & Hp). by exists x.
Qed.

Lemma rstrip_clean p s a :
  clean_ends p s -> all_chars p a = true -> rstrip p (s +:+ a) = s.
Proof.
  intros [->|[_ Hs]] Ha.
  - rewrite append_nil_l. by apply rstrip_all.
  - by apply rstrip_app_keeps.
Qed.

Lemma strip_wrapped p a s b :
  all_chars p a = true -> all_chars p b = true -> clean_ends p s ->
  rstrip p (lstrip p (a +:+ s +:+ b)) = s.
Proof.
  intros Ha Hb Hs. rewrite lstrip_all by done.
  destruct Hs as [->|Hs].
  - rewrite append_nil_l.
    replace (lstrip p b) with "".
    + done.
    + clear -Hb. induction b as [|c b IH]; [done|]. simpl in *.
      apply andb_true_iff in Hb as [-> Hb]. by apply IH.
  - destruct s as [|c s]; [by destruct Hs as [(? & [=] & _) _]|].
    rewrite append_cons. simpl.
    destruct Hs as [(x & [= ->] & Hx) He]. rewrite Hx.
    rewrite <- append_cons. by apply rstrip_app_keeps.
Qed.

Lemma all_chars_rep p c n : p c = true -> all_chars p (rep c n) = true.
Proof. intros Hc. induction n as [|n IH]; simpl; [done|]. by rewrite Hc, IH. Qed.

Lemma first_char_app s t :
  first_char (s +:+ t) = match first_char s with Some c => Some c | None => first_char t end.
Proof. destruct s; [by rewrite append_nil_l|by rewrite append_cons]. Qed.

Lemma last_char_None s : last_char s = None -> s = "".
Proof.
  induction s as [|c s IH]; [done|]. simpl. destruct s; [done|].
  intros H. by specialize (IH H).
Qed.

Lemma last_char_cons c s :
  last_char (String c s)
  = match last_char s with Some x => Some x | None => Some c end.
Proof.
  destruct s as [|a s]; [done|].
  change (last_char (String c (String a s))) with (last_char (String a s)).
  destruct (last_char (String a s)) eqn:H; [done|]. by apply last_char_None in H.
Qed.

Lemma last_char_app s t :
  last_char (s +:+ t) = match last_char t with Some c => Some c | None => last_char s end.
Proof.
  induction s as [|c s IH].
  - rewrite append_nil_l. by destruct (last_char t).
  - rewrite append_cons, !last_char_cons, IH.
    by destruct (last_char t), (last_char s).
Qed.

Lemma clean_ends_app p s t : clean_ends p s -> clean_ends p t -> clean_ends p (s +:+ t).
Proof.
  intros [->|[(a & Ha & Hpa) (b & Hb & Hpb)]] Ht.
  { by rewrite append_nil_l. }
  destruct Ht as [->|[(c & Hc & Hpc) (d & Hd & Hpd)]].
  { rewrite append_nil_r. right. split; [by exists a|by exists b]. }
  right. split.
  - exists a. by rewrite first_char_app, Ha.
  - exists d. by rewrite last_char_app, Hd.
Qed.

Lemma clean_ends_rep p c n : p c = false -> clean_ends p (rep c n).
Proof.
  intros Hc. destruct n as [|n]; [by left|]. right. split.
  - by exists c.
  - exists c. split; [|done]. induction n as [|n IH]; [done|].
    simpl in *. by destruct (rep c n).
Qed.

Lemma clean_ends_mono (p q : ascii -> bool) s :
  (forall c, p c = true -> q c = true) -> clean_ends q s -> clean_ends p s.
Proof.
  intros Hpq [->|[(a & Ha & Hqa) (b & Hb & Hqb)]]; [by left|].
  right. split.
  - exists a. split; [done|]. destruct (p a) eqn:Hp; [|done].
    apply Hpq in Hp. congruence.
  - exists b. split; [done|]. destruct (p b) eqn:Hp; [|done].
    apply Hpq in Hp. congruence.
Qed.

(** X17.  What the three strips undo: a name that is empty or neither
    begins nor ends with white space or a quote, wrapped in any number of
    double quotes, then of single quotes, then in white space, is given
    back bare. *)
Theorem strip_quotes_unwraps ws1 ws2 n1 n2 m1 m2 name :
  all_chars isspace ws1 = true ->
  all_chars isspace ws2 = true ->
  clean_ends is_wrapper name ->
  strip_quotes (ws1 +:+ (rep squote n1 +:+ (rep dquote m1 +:+ name +:+ rep dquote m2)
                         +:+ rep squote n2) +:+ ws2)
  = name.
Proof.
  intros H1 H2 Hname. unfold strip_quotes, strip, strip_char.
  assert (Hnd : clean_ends (Ascii.eqb dquote) name).
  { eapply clean_ends_mono; [|exact Hname]. intros c Hc. unfold is_wrapper.
    rewrite Hc. by rewrite orb_true_r. }
  assert (Hns : clean_ends (Ascii.eqb squote) name).
  { eapply clean_ends_mono; [|exact Hname]. intros c Hc. unfold is_wrapper.
    rewrite Hc. by rewrite orb_true_r. }
  assert (Hnw : clean_ends isspace name).
  { eapply clean_ends_mono; [|exact Hname]. intros c Hc. unfold is_wrapper.
    by rewrite Hc. }
  assert (Hd : forall k p, p dquote = false -> clean_ends p (rep dquote k))
    by (intros; by apply clean_ends_rep).
  assert (Hs : forall k p, p squote = false -> clean_ends p (rep squote k))
    by (intros; by apply clean_ends_rep).
  rewrite strip_wrapped; [|done|done|].
  2: { repeat apply clean_ends_app; (by apply Hd) || (by apply Hs) || done. }
  rewrite strip_wrapped; [|by apply all_chars_rep, Ascii.eqb_refl..|].
  2: { repeat apply clean_ends_app; (by apply Hd) || done. }
  apply strip_wrapped; [by apply all_chars_rep, Ascii.eqb_refl..|done].
Qed.

(** ** Renames of the workspace *)

Lemma count_renames_app evs1 evs2 :
  count_renames (evs1 ++ evs2) = count_renames evs1 + count_renames evs2.
Proof. induction evs1 as [|ev evs1 IH]; simpl; [done|]. rewrite IH. lia. Qed.

Lemma count_renames_persist root file doc dependency classes flow :
  count_renames (persist_events root file doc dependency classes flow) = 0.
Proof.
  unfold persist_events, diagram_events. rewrite !count_renames_app.
  by destruct (String.eqb classes ""), (String.eqb flow "").
Qed.

Lemma count_new_frame w w' l :
  (forall f, f ∈ l ->
     files w' !! (SYSTEM_DESIGN_FILE_REPO, f) = files w !! (SYSTEM_DESIGN_FILE_REPO, f)) ->
  count_new w' l = count_new w l.
Proof.
  induction l as [|f l IH]; intros H; simpl; [done|].
  rewrite IH by (intros f' Hf'; apply H; apply elem_of_cons; by right).
  unfold no_design. by rewrite H by (apply elem_of_cons; by left).
Qed.

Lemma steps_renames w l w' :
  steps w l w' -> NoDup l.*1 -> WORKDIR w = false ->
  exists evs, trace w' = trace w ++ evs
              /\ count_renames evs = count_new w l.*1.
Proof.
  induction 1 as [w|w f d w1 l w2 Hu _ IH]; intros Hnd HW.
  { exists []. by rewrite app_nil_r. }
  simpl in Hnd. apply NoDup_cons in Hnd as [Hf Hnd].
  apply update_ok_inv in Hu
    as (prd_text & prompt & out & a & rn & fl & cl & fw & un & Hu).
  cbv zeta in Hu. destruct Hu as (_ & _ & _ & _ & _ & -> & _).
  destruct (IH Hnd HW) as (evs & Ht & Hcount). simpl in Ht.
  eexists. split; [rewrite Ht, <- app_assoc; reflexivity|].
  rewrite count_renames_app. simpl.
  rewrite count_renames_app, count_renames_persist, Hcount.
  rewrite (count_new_frame w).
  - unfold design_renames, rename_events, no_design. rewrite HW.
    destruct (files w !! (SYSTEM_DESIGN_FILE_REPO, f)); simpl; reflexivity.
  - intros f' Hf'. simpl. rewrite lookup_insert_ne; [done|].
    intros [= ->]. done.
Qed.

(** X18.  The workspace is renamed once per new design, not once per run:
    while [CONFIG.WORKDIR] is unset, a run that completes has called
    [rename_root] exactly as many times as there are changed file names
    without a prior design.  ([rename_root] is a collaborator; as in the
    whole development it returns the new root and leaves [CONFIG.WORKDIR]
    alone.) *)
Theorem run_renames_per_new_design {Msg} (msg : Msg) format w out w' evs :
  NoDup (dict_keys (changed w PRDS_FILE_REPO)) ->
  NoDup (dict_keys (changed w SYSTEM_DESIGN_FILE_REPO)) ->
  WORKDIR w = false ->
  run msg format w = (Ok out, w') ->
  trace w' = trace w ++ evs ->
  count_renames evs = count_new w (work_list w).
Proof.
  intros Hnd1 Hnd2 HW H Ht.
  pose proof (work_list_nodup w Hnd1 Hnd2) as Hnd.
  apply (run_inv _ _ _ _ _ Hnd1 Hnd2) in H
    as [(l & w1 & Hs & Hl & _ & ->)|(? & ? & ? & ? & ? & _ & _ & _ & [=])].
  rewrite <- Hl in Hnd |- *.
  destruct (steps_renames _ _ _ Hs Hnd HW) as (evs' & Ht' & Hcount).
  destruct l as [|fd l]; simpl in Ht; rewrite Ht' in Ht.
  - rewrite <- app_assoc in Ht. apply app_inv_head in Ht. subst evs.
    rewrite count_renames_app, Hcount. simpl. lia.
  - apply app_inv_head in Ht. by subst evs.
Qed.

(** X19.  Processing a file a second time takes the merge branch: once a
    file was processed its design is stored, so processing it again asks
    the merge prompt over the document just produced and the PRD, renames
    nothing and leaves the workspace root where it is. *)
Theorem reprocessing_merges file w doc w1 doc2 w2 :
  _update_system_design file prds_repo designs_repo w = (Ok doc, w1) ->
  _update_system_design file prds_repo designs_repo w1 = (Ok doc2, w2) ->
  exists prd_text classes flow dependency,
    files w1 !! (PRDS_FILE_REPO, file) = Some prd_text
    /\ workdir w2 = workdir w1
    /\ trace w2 = trace w1
                  ++ [EvAsk (llm_calls w1) (format2 MERGE_PROMPT (content doc) prd_text)
                        OUTPUT_MAPPING prompt_format]
                  ++ persist_events (workdir w1) file doc2 dependency classes flow.
Proof.
  intros H1 H2.
  apply update_block in H1 as (_ & _ & _ & _ & Hfiles & _).
  assert (Hold : files w1 !! (SYSTEM_DESIGN_FILE_REPO, file) = Some (content doc))
    by (by rewrite Hfiles, lookup_insert_eq).
  apply update_ok_inv in H2
    as (prd_text & prompt & out & a & rn & fl & cl & fw & un & Hu).
  cbv zeta in Hu. destruct Hu as (Hp & Hprompt & _ & _ & _ & -> & _).
  unfold design_prompt, design_renames, design_root in *. rewrite Hold in *.
  injection Hprompt as <-.
  by exists prd_text, cl, fw, (root_relative_path (mkDocument PRDS_FILE_REPO file prd_text)).
Qed.

(** X20.  The diagrams are read back from the saved text, and a field
    that is missing or empty is no error: for a design text that
    serialises any object, a diagram whose field is absent, an empty
    string or an empty list is skipped without a call and without an
    exception. *)
Theorem diagrams_skip_empty_fields doc d w :
  content doc = json_dumps (JObj d) ->
  json_wf (JObj d) = true ->
  (truthy (dict_get d "Data structures and interface definitions") = false ->
   _save_data_api_design doc w = (Ok tt, w))
  /\ (truthy (dict_get d "Program call flow") = false ->
      _save_seq_flow doc w = (Ok tt, w)).
Proof.
  intros Hc Hwf.
  assert (Hl : loads (content doc) = Ok (JObj d))
    by (unfold loads; by rewrite Hc, json_loads_dumps).
  split; intros Ht.
  - unfold _save_data_api_design, bind, lift. rewrite Hl. simpl.
    destruct (dict_get d "Data structures and interface definitions"); [|done].
    by rewrite Ht.
  - unfold _save_seq_flow, bind, lift. rewrite Hl. simpl.
    destruct (dict_get d "Program call flow"); [|done].
    by rewrite Ht.
Qed.

(** ** The unit of work of one changed file *)

Lemma steps_split w l1 file doc l2 w' :
  steps w (l1 ++ (file, doc) :: l2) w' ->
  exists wa wb,
    steps w l1 wa
    /\ _update_system_design file prds_repo designs_repo wa = (Ok doc, wb)
    /\ steps wb l2 w'.
Proof.
  revert w. induction l1 as [|[f d] l1 IH]; intros w Hs; simpl in Hs.
  - inversion Hs; subst. exists w. eexists. split_and!; [constructor|done|done].
  - inversion Hs as [|? ? ? w1 ? ? Hu Hrest]; subst.
    destruct (IH _ Hrest) as (wa & wb & Ha & Hb & Hc).
    exists wa, wb. split_and!; [by econstructor|done|done].
Qed.

Lemma steps_flag w l w' : steps w l w' -> WORKDIR w' = WORKDIR w.
Proof.
  induction 1 as [w|w f d w1 l w2 Hu _ IH]; [done|].
  apply update_ok_inv in Hu as (? & ? & ? & ? & ? & ? & ? & ? & ? & Hu).
  cbv zeta in Hu. destruct Hu as (_ & _ & _ & _ & _ & -> & _). exact IH.
Qed.

Lemma steps_appends w l w' : steps w l w' -> exists evs, trace w' = trace w ++ evs.
Proof. intros (blocks & _ & Ht & _)%steps_blocks. by eexists. Qed.

(** C3 (amended).  When [run] completes, every changed file name had its
    unit of work done, at its place in the work list: the prompt was built
    from its PRD (and its prior design, if any), the model was called
    once with it, the six fields of the validated answer, with the package
    name stripped, make the design document that is returned, saved and
    stored, and its PDF was exported; between save and PDF the class
    diagram and the sequence diagram are rendered from these fields, each
    only when its field is not empty.  The workspace is renamed before
    the save exactly when the design is new and [CONFIG.WORKDIR] unset. *)
Theorem run_outputs_per_file {Msg} (msg : Msg) format w out w' file :
  NoDup (dict_keys (changed w PRDS_FILE_REPO)) ->
  NoDup (dict_keys (changed w SYSTEM_DESIGN_FILE_REPO)) ->
  run msg format w = (Ok out, w') ->
  file ∈ dict_keys (changed w PRDS_FILE_REPO)
  \/ file ∈ dict_keys (changed w SYSTEM_DESIGN_FILE_REPO) ->
  exists i prd_text prompt answer approach raw file_list classes flow unclear
         doc name renames root0 root pre post,
    work_list w !! i = Some file
    /\ files w !! (PRDS_FILE_REPO, file) = Some prd_text
    /\ design_prompt w file prd_text = Ok prompt
    /\ aask_v1_result (llm_calls w + i) prompt OUTPUT_MAPPING prompt_format = Ok answer
    /\ instruct_content answer
       = six_fields approach raw file_list classes flow unclear
    /\ name = strip_char dquote (strip_char squote (strip raw))
    /\ dict_get (docs (instruct_content out)) file = Some doc
    /\ doc = mkDocument SYSTEM_DESIGN_FILE_REPO file
               (json_dumps (JObj (six_fields approach name file_list classes flow unclear)))
    /\ files w' !! (SYSTEM_DESIGN_FILE_REPO, file) = Some (content doc)
    /\ Forall is_rename renames
    /\ match files w !! (SYSTEM_DESIGN_FILE_REPO, file), WORKDIR w with
       | None, false =>
           renames = [EvRenameRoot root0 (JStr name)]
           /\ rename_root root0 (JStr name) = Ok root
       | _, _ => renames = [] /\ root = root0
       end
    /\ trace w'
       = trace w ++ pre
         ++ ([EvAsk (llm_calls w + i) prompt OUTPUT_MAPPING prompt_format] ++ renames
             ++ [EvSave SYSTEM_DESIGN_FILE_REPO file (content doc)
                   [root_relative_path (mkDocument PRDS_FILE_REPO file prd_text)]]
             ++ diagram_events root DATA_API_DESIGN_FILE_REPO file classes
                  "Save class view to "
             ++ diagram_events root SEQ_FLOW_FILE_REPO file flow
                  "Saving sequence flow to "
             ++ [EvSavePdf SYSTEM_DESIGN_PDF_FILE_REPO doc])
         ++ post.
Proof.
  intros Hnd1 Hnd2 H Hfile. apply work_list_elem in Hfile.
  pose proof (work_list_nodup w Hnd1 Hnd2) as Hnd.
  apply (run_inv _ _ _ _ _ Hnd1 Hnd2) in H
    as [(l & w1 & Hs & Hk & [= ->] & Hw')|(? & ? & ? & ? & ? & _ & _ & _ & [=])].
  rewrite <- Hk in Hfile, Hnd |- *.
  apply list_elem_of_fmap in Hfile as ([f doc] & -> & Hin). simpl in *.
  assert (Hstored : files w1 !! (SYSTEM_DESIGN_FILE_REPO, f) = Some (content doc))
    by (by apply (steps_files _ _ _ Hs Hnd)).
  assert (Hget : dict_get l f = Some doc) by (by apply dict_get_nodup).
  assert (Hw1 : files w' = files w1 /\ trace w' = trace w1).
  { destruct l; [by apply elem_of_nil in Hin|]. by subst w'. }
  destruct Hw1 as [Hfw' Htw']. rewrite Hfw', Htw'. clear Hw' Hfw' Htw' w'.
  pose proof Hin as Hsplit. apply list_elem_of_split in Hsplit as (l1 & l2 & ->).
  rewrite fmap_app in Hnd. simpl in Hnd.
  apply NoDup_app in Hnd as (Hnd1' & Hdisj & _).
  assert (Hfresh : f ∉ l1.*1).
  { intros Hf. apply (Hdisj _ Hf). apply elem_of_cons. by left. }
  apply steps_split in Hs as (wa & wb & Ha & Hu & Hb).
  destruct (steps_files _ _ _ Ha Hnd1') as [_ Hframe].
  assert (Hprd : files wa !! (PRDS_FILE_REPO, f) = files w !! (PRDS_FILE_REPO, f)).
  { apply Hframe. intros f' Hf' [= _ ->]. done. }
  assert (Hold : files wa !! (SYSTEM_DESIGN_FILE_REPO, f)
                 = files w !! (SYSTEM_DESIGN_FILE_REPO, f)).
  { apply Hframe. intros f' Hf' [= ->]. done. }
  pose proof (steps_flag _ _ _ Ha) as HW.
  pose proof (steps_calls _ _ _ Ha) as Hcalls.
  destruct (steps_appends _ _ _ Ha) as (pre & Hpre).
  destruct (steps_appends _ _ _ Hb) as (post & Hpost).
  apply update_ok_inv in Hu
    as (prd_text & prompt & answer & a & rn & fl & cl & fw & un & Hu).
  cbv zeta in Hu. destruct Hu as (Hp & Hprompt & Hres & Hic & Hdoc & -> & Hq).
  simpl in Hpost.
  assert (Hprompt' : design_prompt w f prd_text = Ok prompt).
  { revert Hprompt. unfold design_prompt. by rewrite Hold. }
  assert (Hi : (l1 ++ (f, doc) :: l2).*1 !! length l1 = Some f).
  { rewrite fmap_app. simpl. rewrite <- (length_fmap fst l1).
    by apply list_lookup_middle. }
  rewrite Hcalls in *.
  exists (length l1), prd_text, prompt, answer, a, rn, fl, cl, fw, un, doc,
         (strip_quotes rn), (design_renames wa f (strip_quotes rn)), (workdir wa),
         (design_root wa f (strip_quotes rn)), pre, post.
  split_and!; [done|by rewrite <- Hprd|done|done|done|done|done|done|done| | |].
  - unfold design_renames, rename_events.
    destruct (files wa !! (SYSTEM_DESIGN_FILE_REPO, f)); [constructor|].
    destruct (WORKDIR wa); by repeat constructor.
  - apply Forall_cons in Hq as [_ Hq]. apply Forall_app in Hq as [Hq _].
    unfold design_renames, design_root, rename_events in *.
    rewrite Hold, HW in *.
    destruct (files w !! (SYSTEM_DESIGN_FILE_REPO, f)); [done|].
    destruct (WORKDIR w); [done|].
    apply Forall_inv in Hq. simpl in Hq.
    by destruct (rename_root (workdir wa) (JStr (strip_quotes rn))).
  - rewrite Hpost, Hpre. unfold persist_events.
    do 3 (rewrite <- ?app_assoc; simpl). reflexivity.
Qed.

Lemma quietb_quiet evs : quietb evs = true -> quiet evs.
Proof.
  induction evs as [|ev evs IH]; simpl; [constructor|].
  intros [Hv Hq]%andb_true_iff. constructor; [|by apply IH].
  by destruct (verdict ev).
Qed.

End Further.

(** * The further properties at concrete workspaces *)

Lemma pair_raise {A B} (p : result A * B) e : p.1 = Raise e -> p = (Raise e, p.2).
Proof. destruct p as [r b]. simpl. by intros ->. Qed.

Lemma update_without_prd_witness :
  files w_orphan !! (@PRDS_FILE_REPO demo, "c.md") = None
  /\ @_update_system_design demo "c.md" (@prds_repo demo) (@designs_repo demo) w_orphan
     = (Raise (AttributeError "content"), w_orphan).
Proof.
  assert (Hp : files w_orphan !! (@PRDS_FILE_REPO demo, "c.md") = None)
    by (vm_compute; reflexivity).
  exact (conj Hp (@update_without_prd demo "c.md" w_orphan Hp)).
Defined.

Lemma new_design_without_template_witness :
  @get_template demo_yaml (@templates demo_yaml) (@prompt_format demo_yaml)
  = Raise (ValueError "yaml")
  /\ @_update_system_design demo_yaml "a.md" (@prds_repo demo_yaml)
       (@designs_repo demo_yaml) w_yaml
     = (Raise (ValueError "yaml"), w_yaml).
Proof.
  assert (Hp : files w_yaml !! (@PRDS_FILE_REPO demo_yaml, "a.md") = Some "PRD of a")
    by (vm_compute; reflexivity).
  assert (Ho : files w_yaml !! (@SYSTEM_DESIGN_FILE_REPO demo_yaml, "a.md") = None)
    by (vm_compute; reflexivity).
  assert (Ht : @get_template demo_yaml (@templates demo_yaml) (@prompt_format demo_yaml)
               = Raise (ValueError "yaml")) by (vm_compute; reflexivity).
  exact (conj Ht (@new_design_without_template demo_yaml "a.md" w_yaml "PRD of a"
                    (ValueError "yaml") Hp Ho Ht)).
Defined.

Lemma update_keeps_root_witness :
  WORKDIR w_pinned = true
  /\ (exists doc, update_pinned.1 = Ok doc)
  /\ workdir update_pinned.2 = workdir w_pinned
  /\ exists evs, trace update_pinned.2 = trace w_pinned ++ evs
                 /\ Forall not_rename evs.
Proof.
  assert (HW : WORKDIR w_pinned = true) by reflexivity.
  assert (H1 : exists doc, update_pinned.1 = Ok doc) by (eexists; vm_compute; reflexivity).
  exact (conj HW (conj H1
           (@update_keeps_root demo_plain "a.md" w_pinned update_pinned.1 update_pinned.2
              (or_introl HW) (pair_eta update_pinned)))).
Defined.

Lemma failed_save_stores_nothing_witness :
  update_disk_full.1 = Raise (ExternalError "disk full")
  /\ files update_disk_full.2 = files w_disk_full
  /\ Forall (fun ev => ~ is_output_call ev) (trace update_disk_full.2).
Proof.
  assert (Ht : trace update_disk_full.2 = trace w_disk_full ++ trace update_disk_full.2)
    by (change (trace w_disk_full) with (@nil event); reflexivity).
  assert (Hin : exists text deps,
             trace update_disk_full.2 !! 2
             = Some (EvSave (@SYSTEM_DESIGN_FILE_REPO demo_disk_full) "a.md" text deps))
    by (eexists _, _; vm_compute; reflexivity).
  destruct Hin as (text & deps & Hin). apply list_elem_of_lookup_2 in Hin.
  exact (@failed_save_stores_nothing demo_disk_full "a.md" w_disk_full
           update_disk_full.1 update_disk_full.2 (trace update_disk_full.2) text deps
           (ExternalError "disk full") (pair_eta update_disk_full) Ht Hin eq_refl).
Defined.

Lemma outputs_follow_stored_design_witness :
  update_no_renderer.1 = Raise (ExternalError "mmdc not found")
  /\ exists text,
      files update_no_renderer.2 !! (@SYSTEM_DESIGN_FILE_REPO demo_no_renderer, "a.md")
      = Some text.
Proof.
  assert (Ht : trace update_no_renderer.2
               = trace w_no_renderer ++ trace update_no_renderer.2)
    by (change (trace w_no_renderer) with (@nil event); reflexivity).
  assert (Hin : exists data pathname,
             trace update_no_renderer.2 !! 4 = Some (EvMermaid data pathname))
    by (eexists _, _; vm_compute; reflexivity).
  destruct Hin as (data & pathname & Hin). apply list_elem_of_lookup_2 in Hin.
  destruct (@outputs_follow_stored_design demo_no_renderer "a.md" w_no_renderer
              update_no_renderer.1 update_no_renderer.2 (trace update_no_renderer.2)
              (EvMermaid data pathname) (pair_eta update_no_renderer) Ht Hin I)
    as ((text & deps & _ & _ & Hstored) & Hraise).
  exact (conj (Hraise (ExternalError "mmdc not found") eq_refl)
              (ex_intro _ text Hstored)).
Defined.

Lemma run_model_calls_witness :
  (exists out, run_demo.1 = Ok out)
  /\ llm_calls run_demo.2 = llm_calls w_demo + length (@work_list demo w_demo).
Proof.
  assert (H1 : exists out, run_demo.1 = Ok out) by (eexists; vm_compute; reflexivity).
  destruct H1 as [out H1].
  assert (Hnd1 : NoDup (dict_keys (changed w_demo (@PRDS_FILE_REPO demo)))) by by_decision.
  assert (Hnd2 : NoDup (dict_keys (changed w_demo (@SYSTEM_DESIGN_FILE_REPO demo))))
    by by_decision.
  exact (conj (ex_intro _ out H1)
           (@run_model_calls demo unit tt "json" w_demo out run_demo.2 Hnd1 Hnd2
              (pair_ok run_demo out H1))).
Defined.

Lemma run_returns_stored_designs_witness :
  exists out doc,
    run_demo.1 = Ok out
    /\ files run_demo.2 !! (@SYSTEM_DESIGN_FILE_REPO demo, "a.md") = Some (content doc)
    /\ filename doc = "a.md".
Proof.
  assert (H1 : exists out doc,
             run_demo.1 = Ok out /\ docs (instruct_content out) !! 0 = Some ("a.md", doc)).
  { eexists _, _. split; vm_compute; reflexivity. }
  destruct H1 as (out & doc & H1 & Hin). apply list_elem_of_lookup_2 in Hin.
  assert (Hnd1 : NoDup (dict_keys (changed w_demo (@PRDS_FILE_REPO demo)))) by by_decision.
  assert (Hnd2 : NoDup (dict_keys (changed w_demo (@SYSTEM_DESIGN_FILE_REPO demo))))
    by by_decision.
  destruct (@run_returns_stored_designs demo unit tt "json" w_demo out run_demo.2
              "a.md" doc Hnd1 Hnd2 (pair_ok run_demo out H1) Hin)
    as (Hstored & Hname & _).
  exists out, doc. exact (conj H1 (conj Hstored Hname)).
Defined.

Lemma run_leaves_other_files_witness :
  run_failing.1 = Raise (ExternalError "rate limit")
  /\ files run_failing.2 !! (@PRDS_FILE_REPO demo_failing, "a.md")
     = files w_failing !! (@PRDS_FILE_REPO demo_failing, "a.md").
Proof.
  assert (H1 : run_failing.1 = Raise (ExternalError "rate limit"))
    by (vm_compute; reflexivity).
  assert (Hnd1 : NoDup (dict_keys (changed w_failing (@PRDS_FILE_REPO demo_failing))))
    by by_decision.
  assert (Hnd2 : NoDup (dict_keys (changed w_failing
                                     (@SYSTEM_DESIGN_FILE_REPO demo_failing))))
    by by_decision.
  assert (Hk : forall f, f ∈ @work_list demo_failing w_failing ->
                 (@PRDS_FILE_REPO demo_failing, "a.md")
                 <> (@SYSTEM_DESIGN_FILE_REPO demo_failing, f)).
  { intros f _ H. vm_compute in H. discriminate H. }
  exact (conj H1
           (@run_leaves_other_files demo_failing unit tt "json" w_failing
              run_failing.1 run_failing.2 _ Hnd1 Hnd2 (pair_eta run_failing) Hk)).
Defined.

Lemma run_keeps_accepted_saves_witness :
  run_failing.1 = Raise (ExternalError "rate limit")
  /\ exists text,
      files run_failing.2 !! (@SYSTEM_DESIGN_FILE_REPO demo_failing, "a.md") = Some text.
Proof.
  assert (H1 : run_failing.1 = Raise (ExternalError "rate limit"))
    by (vm_compute; reflexivity).
  assert (Hnd1 : NoDup (dict_keys (changed w_failing (@PRDS_FILE_REPO demo_failing))))
    by by_decision.
  assert (Hnd2 : NoDup (dict_keys (changed w_failing
                                     (@SYSTEM_DESIGN_FILE_REPO demo_failing))))
    by by_decision.
  assert (Ht : trace run_failing.2 = trace w_failing ++ trace run_failing.2)
    by (change (trace w_failing) with (@nil event); reflexivity).
  assert (Hin : exists text deps,
             trace run_failing.2 !! 2
             = Some (EvSave (@SYSTEM_DESIGN_FILE_REPO demo_failing) "a.md" text deps))
    by (eexists _, _; vm_compute; reflexivity).
  destruct Hin as (text & deps & Hin). apply list_elem_of_lookup_2 in Hin.
  destruct (@run_keeps_accepted_saves demo_failing unit tt "json" w_failing
              run_failing.1 run_failing.2 (trace run_failing.2) _ "a.md" text deps
              Hnd1 Hnd2 (pair_eta run_failing) Ht Hin eq_refl)
    as (_ & _ & Hstored).
  exact (conj H1 (ex_intro _ text Hstored)).
Defined.

Lemma run_needs_every_prd_witness :
  (exists out, run_demo.1 = Ok out)
  /\ is_Some (files w_demo !! (@PRDS_FILE_REPO demo, "b.md")).
Proof.
  assert (H1 : exists out, run_demo.1 = Ok out) by (eexists; vm_compute; reflexivity).
  destruct H1 as [out H1].
  assert (Hne : @PRDS_FILE_REPO demo <> @SYSTEM_DESIGN_FILE_REPO demo) by by_decision.
  assert (Hnd1 : NoDup (dict_keys (changed w_demo (@PRDS_FILE_REPO demo)))) by by_decision.
  assert (Hnd2 : NoDup (dict_keys (changed w_demo (@SYSTEM_DESIGN_FILE_REPO demo))))
    by by_decision.
  assert (Hin : "b.md" ∈ dict_keys (changed w_demo (@PRDS_FILE_REPO demo))
                \/ "b.md" ∈ dict_keys (changed w_demo (@SYSTEM_DESIGN_FILE_REPO demo)))
    by (right; by_decision).
  exact (conj (ex_intro _ out H1)
           (@run_needs_every_prd demo unit tt "json" w_demo out run_demo.2 "b.md"
              Hne Hnd1 Hnd2 (pair_ok run_demo out H1) Hin)).
Defined.

Lemma new_design_moves_workspace_witness :
  exists doc name,
    update_a.1 = Ok doc
    /\ @rename_root demo (workdir w_demo) (JStr name) = Ok (workdir update_a.2)
    /\ exists fields,
        json_loads (content doc) = Some (JObj fields)
        /\ dict_get fields "Python package name" = Some (JStr name).
Proof.
  assert (H1 : exists doc, update_a.1 = Ok doc) by (eexists; vm_compute; reflexivity).
  destruct H1 as [doc H1].
  assert (Ho : files w_demo !! (@SYSTEM_DESIGN_FILE_REPO demo, "a.md") = None)
    by (vm_compute; reflexivity).
  destruct (@new_design_moves_workspace demo "a.md" w_demo doc update_a.2 Ho eq_refl
              (pair_ok update_a doc H1))
    as (prompt & fields & name & classes & flow & dep & Hl & Hn & Hr & _).
  exists doc, name. exact (conj H1 (conj Hr (ex_intro _ fields (conj Hl Hn)))).
Defined.

Lemma save_names_prd_dependency_witness :
  exists text deps prd_text,
    EvSave (@SYSTEM_DESIGN_FILE_REPO demo) "a.md" text deps ∈ trace update_a.2
    /\ files w_demo !! (@PRDS_FILE_REPO demo, "a.md") = Some prd_text
    /\ deps = [@root_relative_path demo
                 (mkDocument (@PRDS_FILE_REPO demo) "a.md" prd_text)].
Proof.
  assert (Ht : trace update_a.2 = trace w_demo ++ trace update_a.2)
    by (change (trace w_demo) with (@nil event); reflexivity).
  assert (Hin : exists text deps,
             trace update_a.2 !! 2
             = Some (EvSave (@SYSTEM_DESIGN_FILE_REPO demo) "a.md" text deps))
    by (eexists _, _; vm_compute; reflexivity).
  destruct Hin as (text & deps & Hin). apply list_elem_of_lookup_2 in Hin.
  destruct (@save_names_prd_dependency demo "a.md" w_demo update_a.1 update_a.2
              (trace update_a.2) _ "a.md" text deps (pair_eta update_a) Ht Hin)
    as (_ & _ & prd_text & Hp & Hd).
  exists text, deps, prd_text. exact (conj Hin (conj Hp Hd)).
Defined.

Lemma update_succeeds_unless_a_call_raises_witness :
  @quiet demo (trace update_a.2) /\ exists doc, update_a.1 = Ok doc.
Proof.
  assert (Ht : trace update_a.2 = trace w_demo ++ trace update_a.2)
    by (change (trace w_demo) with (@nil event); reflexivity).
  assert (Hq : @quiet demo (trace update_a.2))
    by (apply quietb_quiet; vm_compute; reflexivity).
  assert (Hp : is_Some (files w_demo !! (@PRDS_FILE_REPO demo, "a.md")))
    by (eexists; vm_compute; reflexivity).
  assert (Htpl : files w_demo !! (@SYSTEM_DESIGN_FILE_REPO demo, "a.md") = None ->
                 exists pf, @get_template demo (@templates demo) (@prompt_format demo)
                            = Ok pf)
    by (intros _; eexists; vm_compute; reflexivity).
  exact (conj Hq
           (@update_succeeds_unless_a_call_raises demo "a.md" w_demo update_a.1
              update_a.2 (trace update_a.2) Hp Htpl (pair_eta update_a) Ht Hq)).
Defined.

Lemma update_failure_causes_witness :
  update_disk_full.1 = Raise (ExternalError "disk full")
  /\ exists evs ev,
      trace update_disk_full.2 = trace w_disk_full ++ evs ++ [ev]
      /\ @verdict demo_disk_full ev = Some (ExternalError "disk full")
      /\ @quiet demo_disk_full evs.
Proof.
  assert (H1 : update_disk_full.1 = Raise (ExternalError "disk full"))
    by (vm_compute; reflexivity).
  assert (Hp : files w_disk_full !! (@PRDS_FILE_REPO demo_disk_full, "a.md") <> None)
    by (vm_compute; discriminate).
  assert (Htpl : @get_template demo_disk_full (@templates demo_disk_full)
                   (@prompt_format demo_disk_full)
                 <> Raise (ExternalError "disk full"))
    by (vm_compute; discriminate).
  destruct (@update_failure_causes demo_disk_full "a.md" w_disk_full
              (ExternalError "disk full") update_disk_full.2
              (pair_raise update_disk_full _ H1))
    as [(Hp' & _)|[(_ & Htpl' & _)|Hcall]].
  - exact (False_ind _ (Hp Hp')).
  - exact (False_ind _ (Htpl Htpl')).
  - exact (conj H1 Hcall).
Defined.

Lemma run_succeeds_unless_a_call_raises_witness :
  @quiet demo (trace run_demo.2) /\ exists out, run_demo.1 = Ok out.
Proof.
  assert (Ht : trace run_demo.2 = trace w_demo ++ trace run_demo.2)
    by (change (trace w_demo) with (@nil event); reflexivity).
  assert (Hq : @quiet demo (trace run_demo.2))
    by (apply quietb_quiet; vm_compute; reflexivity).
  assert (Hne : @PRDS_FILE_REPO demo <> @SYSTEM_DESIGN_FILE_REPO demo) by by_decision.
  assert (Hnd1 : NoDup (dict_keys (changed w_demo (@PRDS_FILE_REPO demo)))) by by_decision.
  assert (Hnd2 : NoDup (dict_keys (changed w_demo (@SYSTEM_DESIGN_FILE_REPO demo))))
    by by_decision.
  assert (Hprd : forall f, f ∈ @work_list demo w_demo ->
                   is_Some (files w_demo !! (@PRDS_FILE_REPO demo, f))).
  { apply (proj1 (Forall_forall _ _)). by_decision. }
  assert (Htpl : forall f, f ∈ @work_list demo w_demo ->
                   files w_demo !! (@SYSTEM_DESIGN_FILE_REPO demo, f) = None ->
                   exists pf, @get_template demo (@templates demo) (@prompt_format demo)
                              = Ok pf)
    by (intros _ _ _; eexists; vm_compute; reflexivity).
  exact (conj Hq
           (@run_succeeds_unless_a_call_raises demo unit tt "json" w_demo run_demo.1
              run_demo.2 (trace run_demo.2) Hne Hnd1 Hnd2 Hprd Htpl (pair_eta run_demo)
              Ht Hq)).
Defined.

Lemma fix_package_name_frame_witness :
  exists out',
    fix_package_name
      (mkActionOutput "raw" (demo_answer " 'snake_game' " "classDiagram" ""))
    = Ok out'
    /\ out_content out' = "raw"
    /\ dict_get (instruct_content out') "Extra" = Some (JStr "dropped").
Proof.
  assert (H1 : exists out',
             fix_package_name
               (mkActionOutput "raw" (demo_answer " 'snake_game' " "classDiagram" ""))
             = Ok out') by (eexists; vm_compute; reflexivity).
  destruct H1 as [out' H1].
  destruct (fix_package_name_frame _ out' H1) as (Hraw & _ & Hother & _).
  assert (Hne : "Extra" <> "Python package name") by discriminate.
  exists out'. exact (conj H1 (conj Hraw (Hother "Extra" Hne))).
Defined.

Lemma strip_quotes_unwraps_witness :
  strip_quotes (" " +:+ (rep squote 2 +:+ (rep dquote 1 +:+ "snake_game" +:+ rep dquote 3)
                         +:+ rep squote 1) +:+ "  ")
  = "snake_game".
Proof.
  assert (Hname : clean_ends is_wrapper "snake_game").
  { right. split; eexists; split; vm_compute; reflexivity. }
  exact (strip_quotes_unwraps " " "  " 2 1 1 3 "snake_game" eq_refl eq_refl Hname).
Defined.

Lemma run_renames_per_new_design_witness :
  (exists out, run_demo.1 = Ok out)
  /\ count_renames (trace run_demo.2)
     = @count_new demo w_demo (@work_list demo w_demo).
Proof.
  assert (H1 : exists out, run_demo.1 = Ok out) by (eexists; vm_compute; reflexivity).
  destruct H1 as [out H1].
  assert (Ht : trace run_demo.2 = trace w_demo ++ trace run_demo.2)
    by (change (trace w_demo) with (@nil event); reflexivity).
  assert (Hnd1 : NoDup (dict_keys (changed w_demo (@PRDS_FILE_REPO demo)))) by by_decision.
  assert (Hnd2 : NoDup (dict_keys (changed w_demo (@SYSTEM_DESIGN_FILE_REPO demo))))
    by by_decision.
  exact (conj (ex_intro _ out H1)
           (@run_renames_per_new_design demo unit tt "json" w_demo out run_demo.2
              (trace run_demo.2) Hnd1 Hnd2 eq_refl (pair_ok run_demo out H1) Ht)).
Defined.

Lemma reprocessing_merges_witness :
  exists doc doc2 prd_text,
    update_a.1 = Ok doc
    /\ update_a_again.1 = Ok doc2
    /\ files update_a.2 !! (@PRDS_FILE_REPO demo, "a.md") = Some prd_text
    /\ workdir update_a_again.2 = workdir update_a.2.
Proof.
  assert (H1 : exists doc, update_a.1 = Ok doc) by (eexists; vm_compute; reflexivity).
  destruct H1 as [doc H1].
  assert (H2 : exists doc2, update_a_again.1 = Ok doc2)
    by (eexists; vm_compute; reflexivity).
  destruct H2 as [doc2 H2].
  destruct (@reprocessing_merges demo "a.md" w_demo doc update_a.2 doc2 update_a_again.2
              (pair_ok update_a doc H1) (pair_ok update_a_again doc2 H2))
    as (prd_text & _ & _ & _ & Hp & Hroot & _).
  exists doc, doc2, prd_text. exact (conj H1 (conj H2 (conj Hp Hroot))).
Defined.

Lemma diagrams_skip_empty_fields_witness :
  let d := [("Program call flow", JStr ""); ("File list", JArr [])] in
  let doc := mkDocument "docs/system_design" "a.md" (json_dumps (JObj d)) in
  @_save_data_api_design demo doc w_demo = (Ok tt, w_demo)
  /\ @_save_seq_flow demo doc w_demo = (Ok tt, w_demo).
Proof.
  destruct (@diagrams_skip_empty_fields demo
              (mkDocument "docs/system_design" "a.md"
                 (json_dumps (JObj [("Program call flow", JStr ""); ("File list", JArr [])])))
              [("Program call flow", JStr ""); ("File list", JArr [])] w_demo
              eq_refl eq_refl)
    as [H1 H2].
  exact (conj (H1 eq_refl) (H2 eq_refl)).
Defined.

Lemma run_outputs_per_file_witness :
  exists out doc answer prompt,
    run_demo.1 = Ok out
    /\ dict_get (docs (instruct_content out)) "a.md" = Some doc
    /\ @aask_v1_result demo (llm_calls w_demo + 0) prompt OUTPUT_MAPPING
         (@prompt_format demo) = Ok answer
    /\ files run_demo.2 !! (@SYSTEM_DESIGN_FILE_REPO demo, "a.md") = Some (content doc).
Proof.
  assert (H1 : exists out, run_demo.1 = Ok out) by (eexists; vm_compute; reflexivity).
  destruct H1 as [out H1].
  assert (Hnd1 : NoDup (dict_keys (changed w_demo (@PRDS_FILE_REPO demo)))) by by_decision.
  assert (Hnd2 : NoDup (dict_keys (changed w_demo (@SYSTEM_DESIGN_FILE_REPO demo))))
    by by_decision.
  assert (Hin : "a.md" ∈ dict_keys (changed w_demo (@PRDS_FILE_REPO demo))
                \/ "a.md" ∈ dict_keys (changed w_demo (@SYSTEM_DESIGN_FILE_REPO demo)))
    by (left; by_decision).
  destruct (@run_outputs_per_file demo unit tt "json" w_demo out run_demo.2 "a.md"
              Hnd1 Hnd2 (pair_ok run_demo out H1) Hin)
    as (i & prd_text & prompt & answer & a & raw & fl & cl & fw & un & doc & name
        & renames & root0 & root & pre & post
        & Hi & _ & _ & Hres & _ & _ & Hdoc & _ & Hstored & _).
  assert (Hnd : NoDup (@work_list demo w_demo)) by by_decision.
  assert (H0 : @work_list demo w_demo !! 0 = Some "a.md") by reflexivity.
  assert (Hi0 : i = 0) by exact (NoDup_lookup _ _ _ _ Hnd Hi H0).
  rewrite Hi0 in Hres.
  exists out, doc, answer, prompt. exact (conj H1 (conj Hdoc (conj Hres Hstored))).
Defined.
